(** * Meson front-end: a shallow embedding of the interpreter core,
      the configuration-file helpers, the option keys and the wrap resolver.

    Source files embedded here:
    - [mesonbuild/options.py]   (class [OptionKey]; the boolean, integer, combo
                                 and feature options; the key and augment
                                 methods of [OptionStore])
    - [mesonlib.py]             ([do_mesondefine], [do_replacement], [do_conf_file],
                                 [flatten], [version_compare])
    - [interpreter.py]          (expression evaluation, assignment, comparison,
                                 array methods, configuration data,
                                 target registration, global arguments, subprojects)
    - [wrap.py]                 ([PackageDefinition], [Resolver])

    Python values are modelled by an inductive type, dictionaries by [gmap],
    exceptions by an explicit outcome type, and mutable interpreter state by
    state passing. *)

From Stdlib Require Import ZArith Bool List Ascii String DecimalString Lia.
From stdpp Require Import base option list strings gmap.

Local Open Scope Z_scope.

(* ===================================================================== *)
(** * Python exceptions and outcomes                                      *)
(* ===================================================================== *)

(** The exception classes raised by the embedded code.  The first four are
    Meson's own ([coredata.MesonException] and its subclasses declared at the
    top of [interpreter.py]); the others are raised by the Python runtime. *)
Inductive exn_class : Set :=
  | MesonException | InterpreterException | InvalidCode | InvalidArguments
  | RuntimeError | KeyError | TypeError | ValueError | IndexError
  | AttributeError | ZeroDivisionError | AssertionError
  | FileNotFoundError | OSError | CalledProcessError.

Record exn : Set := Exn { exn_class_of : exn_class; exn_message : string }.

Inductive outcome (A : Type) : Type :=
  | Return (a : A)
  | Raise (e : exn).
Arguments Return {A} a.
Arguments Raise {A} e.

Definition raise {A} (c : exn_class) (msg : string) : outcome A :=
  Raise (Exn c msg).

Global Instance outcome_ret : MRet outcome := fun A a => Return a.
Global Instance outcome_bind : MBind outcome := fun A B f x =>
  match x with
  | Return a => f a
  | Raise e => Raise e
  end.

Definition raises {A} (x : outcome A) : Prop :=
  match x with Raise _ => True | Return _ => False end.

Definition raises_class {A} (c : exn_class) (x : outcome A) : Prop :=
  match x with Raise e => exn_class_of e = c | Return _ => False end.

(* ===================================================================== *)
(** * Python string helpers                                               *)
(* ===================================================================== *)

Module pystr.

(** [str.isspace] for the code points below 256. *)
Definition isspace (c : ascii) : bool :=
  let n := N_of_ascii c in
  ((9 <=? n) && (n <=? 13) || (28 <=? n) && (n <=? 32)
   || (n =? 133) || (n =? 160))%N.

(** [s.split()] : maximal runs of non-whitespace characters. *)
Fixpoint split_ws_go (cur : option string) (s : string) : list string :=
  match s with
  | EmptyString => option_list (String.rev <$> cur)
  | String a s' =>
      if isspace a
      then option_list (String.rev <$> cur) ++ split_ws_go None s'
      else split_ws_go (Some (String a (default EmptyString cur))) s'
  end.
Definition split_ws (s : string) : list string := split_ws_go None s.

(** [s.lstrip()], [s.rstrip()], [s.strip()]. *)
Fixpoint lstrip (s : string) : string :=
  match s with
  | EmptyString => EmptyString
  | String a s' => if isspace a then lstrip s' else s
  end.
Definition rstrip (s : string) : string := String.rev (lstrip (String.rev s)).
Definition strip (s : string) : string := rstrip (lstrip s).

(** [s.startswith(p)]. *)
Definition startswith (s p : string) : bool := String.prefix p s.

(** [c in s] for a single character [c]. *)
Fixpoint contains_char (c : ascii) (s : string) : bool :=
  match s with
  | EmptyString => false
  | String a s' => Ascii.eqb a c || contains_char c s'
  end.

(** [s.split(c, 1)] for a one-character separator: the text before the
    first [c] and the text after it, or [None] when [c] does not occur
    (Python then returns the one-element list [[s]]). *)
Fixpoint split_once (c : ascii) (s : string) : option (string * string) :=
  match s with
  | EmptyString => None
  | String a s' =>
      if Ascii.eqb a c then Some (EmptyString, s')
      else match split_once c s' with
           | Some (l, r) => Some (String a l, r)
           | None => None
           end
  end.

(** [s.lower()] for the code points below 256. *)
Definition lower_char (c : ascii) : ascii :=
  let n := N_of_ascii c in
  if ((65 <=? n) && (n <=? 90)
      || (192 <=? n) && (n <=? 222) && negb (n =? 215))%N
  then ascii_of_N (n + 32) else c.
Fixpoint lower (s : string) : string :=
  match s with
  | EmptyString => EmptyString
  | String a s' => String (lower_char a) (lower s')
  end.

(** The double-quote character, as a string. *)
Definition dquote : string := String "034" EmptyString.

(** [sep.join(l)]. *)
Definition join (sep : string) (l : list string) : string :=
  String.concat sep l.

(** [str(n)] and the [%d] conversion of an integer. *)
Definition of_Z (z : Z) : string :=
  DecimalString.NilZero.string_of_int (Z.to_int z).

(** [s.replace(old, new)] for a non-empty [old]: non-overlapping
    occurrences, leftmost first.  [skip] counts the characters of an
    occurrence that remain to be dropped. *)
Fixpoint replace_go (old new : string) (skip : nat) (s : string) : string :=
  match s with
  | EmptyString => EmptyString
  | String a s' =>
      match skip with
      | S k => replace_go old new k s'
      | O =>
          if String.prefix old s
          then new +:+ replace_go old new (String.length old - 1) s'
          else String a (replace_go old new 0 s')
      end
  end.
Definition replace (s old new : string) : string := replace_go old new 0 s.

(** What a file opened in text mode hands to the program for the
    characters it holds: with the default [newline=None], each of the line
    endings CR LF and CR alone is read as one LF. *)
Fixpoint universal_newlines (s : string) : string :=
  match s with
  | EmptyString => EmptyString
  | String a s' =>
      if Ascii.eqb a "013" then
        String "010"
          match s' with
          | String b s'' =>
              if Ascii.eqb b "010" then universal_newlines s''
              else universal_newlines s'
          | EmptyString => EmptyString
          end
      else String a (universal_newlines s')
  end.

(** [f.readlines()], and the iteration over a file [f], for the text that
    the file hands out (its newlines translated already): the lines, each
    with its terminating LF, the last one possibly without. *)
Fixpoint readlines_go (cur : string) (s : string) : list string :=
  match s with
  | EmptyString =>
      match cur with EmptyString => [] | _ => [String.rev cur] end
  | String a s' =>
      if Ascii.eqb a "010"
      then String.rev (String a cur) :: readlines_go EmptyString s'
      else readlines_go (String a cur) s'
  end.
Definition readlines (s : string) : list string := readlines_go EmptyString s.

(** [''.join(lines)] *)
Definition concat_lines (l : list string) : string := String.concat "" l.

End pystr.

(* ===================================================================== *)
(** * mesonbuild/options.py : OptionKey                                   *)
(* ===================================================================== *)

Module options.

(** Modelled from the spec: [MachineChoice] is imported from
    [mesonbuild.mesonlib], which is not part of the sources; the spec gives
    its two members, [machine ∈ {HOST, BUILD}]. *)
Inductive MachineChoice : Set := BUILD | HOST.

Global Instance MachineChoice_eq_dec : EqDecision MachineChoice.
Proof. solve_decision. Defined.

(** The components that occur in the tuples built by [OptionKey]. *)
Inductive component : Set :=
  | CNone
  | CStr (s : string)
  | CMachine (m : MachineChoice).

Global Instance component_eq_dec : EqDecision component.
Proof. solve_decision. Defined.

Definition of_subproject (s : option string) : component :=
  match s with None => CNone | Some x => CStr x end.

Record OptionKey : Set := mkOptionKey {
  name : string;
  subproject : option string;   (* None is global, "" the top level project *)
  machine : MachineChoice;
  _hash : Z
}.

Section WithRuntime.

(** The order of the enumeration members and the built-in [hash] of a
    tuple are fixed by the Python runtime and by the absent declaration
    of [MachineChoice]; both are kept abstract. *)
Variable machine_lt : MachineChoice -> MachineChoice -> bool.
Variable hash : list component -> Z.

(** [x < y] on components: strings compare by code points, enumeration
    members by [machine_lt]; [None] and mixed operands raise. *)
Definition component_lt (x y : component) : outcome bool :=
  match x, y with
  | CStr a, CStr b => Return (String.ltb a b)
  | CMachine a, CMachine b => Return (machine_lt a b)
  | _, _ => raise TypeError "'<' not supported between these operands"
  end.

(** Python's tuple comparison: skip the common prefix of equal items,
    then compare the first pair that differs. *)
Fixpoint tuple_lt (a b : list component) : outcome bool :=
  match a, b with
  | x :: a', y :: b' =>
      if bool_decide (x = y) then tuple_lt a' b' else component_lt x y
  | [], _ :: _ => Return true
  | _, [] => Return false
  end.

Definition tuple_eq (a b : list component) : bool := bool_decide (a = b).

(** [OptionKey.__init__] *)
Definition __init__ (name : string) (subproject : option string)
    (machine : MachineChoice) : outcome OptionKey :=
  if pystr.contains_char ":" name then raise AssertionError ""
  else Return (mkOptionKey name subproject machine
                 (hash [CStr name; of_subproject subproject; CMachine machine])).

(** [OptionKey.__hash__] *)
Definition __hash__ (k : OptionKey) : Z := _hash k.

(** [OptionKey._to_tuple] *)
Definition _to_tuple (k : OptionKey) : list component :=
  [of_subproject (subproject k); CMachine (machine k); CStr (name k)].

(** [OptionKey.__eq__] and [OptionKey.__lt__], for an [other] that is an
    [OptionKey]. *)
Definition __eq__ (k other : OptionKey) : bool :=
  tuple_eq (_to_tuple k) (_to_tuple other).

Definition __lt__ (k other : OptionKey) : outcome bool :=
  tuple_lt (_to_tuple k) (_to_tuple other).

(** The ordering as the specification words it: lexicographic over
    [(name, subproject, machine)] in that component order. *)
Definition spec_lt (k other : OptionKey) : outcome bool :=
  tuple_lt [CStr (name k); of_subproject (subproject k); CMachine (machine k)]
           [CStr (name other); of_subproject (subproject other);
            CMachine (machine other)].

End WithRuntime.

(** The members in declaration order, used to run examples. *)
Definition declaration_order (a b : MachineChoice) : bool :=
  match a, b with BUILD, HOST => true | _, _ => false end.

(** A concrete stand-in for the built-in [hash], used to run examples. *)
Definition example_hash (t : list component) : Z :=
  fold_right (fun c acc =>
    match c with
    | CNone => 1 + 3 * acc
    | CStr s => Z.of_nat (String.length s) + 5 * acc
    | CMachine BUILD => 2 + 7 * acc
    | CMachine HOST => 3 + 7 * acc
    end) 0 t.

End options.




(* ===================================================================== *)
(** * Runtime values of the build language                                *)
(* ===================================================================== *)

(** The classes of the objects a script can hold.  All but [Dependency]
    derive from [InterpreterObject]. *)
Inductive ObjClass : Set :=
  | ConfigurationDataHolder | ExecutableHolder | StaticLibraryHolder
  | SharedLibraryHolder | JarHolder | CustomTargetHolder | RunTargetHolder
  | GeneratedListHolder | SubprojectHolder | ExternalProgramHolder
  | ModuleHolder | Dependency.

Global Instance ObjClass_eq_dec : EqDecision ObjClass.
Proof. solve_decision. Defined.

(** Objects are held by reference: [VObj c r] is the object of class [c]
    stored at address [r]. *)
Inductive Value : Type :=
  | VNone
  | VBool (b : bool)
  | VInt (z : Z)
  | VStr (s : string)
  | VList (l : list Value)
  | VFile (is_built : bool) (subdir fname : string)   (* mesonlib.File *)
  | VObj (c : ObjClass) (ref : nat).

Module pyval.

(** [isinstance(v, bool)], [isinstance(v, int)] (a Python [bool] is an
    [int]), [isinstance(v, str)], [isinstance(v, list)]. *)
Definition is_bool (v : Value) : bool :=
  match v with VBool _ => true | _ => false end.
Definition is_int (v : Value) : bool :=
  match v with VInt _ | VBool _ => true | _ => false end.
Definition is_str (v : Value) : bool :=
  match v with VStr _ => true | _ => false end.
Definition is_list (v : Value) : bool :=
  match v with VList _ => true | _ => false end.
Definition is_instance (c : ObjClass) (v : Value) : bool :=
  match v with VObj c' _ => bool_decide (c' = c) | _ => false end.

(** The integer denoted by an [int] instance ([True] is 1, [False] is 0). *)
Definition int_value (v : Value) : option Z :=
  match v with
  | VInt z => Some z
  | VBool b => Some (if b then 1 else 0)
  | _ => None
  end.

(** Truth value, as tested by [if v:]. *)
Definition truthy (v : Value) : bool :=
  match v with
  | VNone => false
  | VBool b => b
  | VInt z => negb (z =? 0)
  | VStr s => negb (String.eqb s EmptyString)
  | VList l => match l with [] => false | _ => true end
  | VFile _ _ _ | VObj _ _ => true
  end.

(** The name of a class of objects; a dependency is an instance of a
    subclass declared in [dependencies.py], which is not part of the
    sources, and goes by the name of the base class. *)
Definition class_name (c : ObjClass) : string :=
  match c with
  | ConfigurationDataHolder => "ConfigurationDataHolder"
  | ExecutableHolder => "ExecutableHolder"
  | StaticLibraryHolder => "StaticLibraryHolder"
  | SharedLibraryHolder => "SharedLibraryHolder"
  | JarHolder => "JarHolder"
  | CustomTargetHolder => "CustomTargetHolder"
  | RunTargetHolder => "RunTargetHolder"
  | GeneratedListHolder => "GeneratedListHolder"
  | SubprojectHolder => "SubprojectHolder"
  | ExternalProgramHolder => "ExternalProgramHolder"
  | ModuleHolder => "ModuleHolder"
  | Dependency => "Dependency"
  end.

(** [type(v).__name__], used in the text of runtime errors. *)
Definition type_name (v : Value) : string :=
  match v with
  | VNone => "NoneType" | VBool _ => "bool" | VInt _ => "int"
  | VStr _ => "str" | VList _ => "list" | VFile _ _ _ => "File"
  | VObj c _ => class_name c
  end.

(** [v == s] for a string [s]. *)
Definition eq_str (v : Value) (s : string) : bool :=
  match v with VStr x => String.eqb x s | _ => false end.

(** The text of a [str] instance. *)
Definition str_value (v : Value) : string :=
  match v with VStr s => s | _ => EmptyString end.

(** [str(v)] of an [int] instance. *)
Definition str_of_int (v : Value) : string :=
  match v with
  | VBool true => "True"
  | VBool false => "False"
  | VInt z => pystr.of_Z z
  | _ => EmptyString
  end.

End pyval.

(* ===================================================================== *)
(** * Files and paths                                                     *)
(* ===================================================================== *)

Module os.

Inductive fsnode : Set :=
  | FFile (content : string)
  | FDir.

(** The file system maps path strings to nodes; paths are taken literally
    (no normalisation), with the POSIX flavour of [os.path]. *)
Abbreviation FS := (gmap string fsnode).

Definition endswith_slash (s : string) : bool :=
  match String.rev s with String "/" _ => true | _ => false end.

(** [os.path.join(a, b)] *)
Definition join (a b : string) : string :=
  if pystr.startswith b "/" then b
  else if String.eqb a EmptyString || endswith_slash a then a +:+ b
  else a +:+ "/" +:+ b.

Definition join3 (a b c : string) : string := join (join a b) c.

Definition isfile (fs : FS) (p : string) : bool :=
  match fs !! p with Some (FFile _) => true | _ => false end.
Definition isdir (fs : FS) (p : string) : bool :=
  match fs !! p with Some FDir => true | _ => false end.
Definition exists_ (fs : FS) (p : string) : bool :=
  match fs !! p with Some _ => true | None => false end.

(** [posixpath.split]: head and tail around the last slash; trailing
    slashes are stripped from the head unless it consists of slashes only. *)
Fixpoint rsplit_go (s : string) : string * string :=
  (* on the reversed path: (reversed tail, reversed head with the slash) *)
  match s with
  | EmptyString => (EmptyString, EmptyString)
  | String a s' =>
      if Ascii.eqb a "/" then (EmptyString, s)
      else let '(t, h) := rsplit_go s' in (String a t, h)
  end.
Fixpoint all_slashes (s : string) : bool :=
  match s with
  | EmptyString => true
  | String a s' => Ascii.eqb a "/" && all_slashes s'
  end.
Fixpoint lstrip_slashes (s : string) : string :=
  match s with
  | String "/" s' => lstrip_slashes s'
  | _ => s
  end.
Definition split (p : string) : string * string :=
  let '(rt, rh) := rsplit_go (String.rev p) in
  let head := if all_slashes rh then String.rev rh
              else String.rev (lstrip_slashes rh) in
  (head, String.rev rt).

Definition dirname (p : string) : string := fst (split p).

(** [open(p, 'rb').read()]: the characters that the file holds. *)
Definition read (fs : FS) (p : string) : outcome string :=
  match fs !! p with
  | Some (FFile c) => Return c
  | Some FDir => raise OSError ("Is a directory: " +:+ p)
  | None => raise FileNotFoundError p
  end.

(** [open(p).read()]: the file is opened in text mode, which translates
    the line endings on reading.  (On writing, text mode turns LF into
    [os.linesep], which is LF itself with the POSIX flavour taken here, so
    that [write] below serves both modes.) *)
Definition read_text (fs : FS) (p : string) : outcome string :=
  c ← read fs p; Return (pystr.universal_newlines c).

(** [open(p, 'w').write(data)]: the directory of [p] must exist. *)
Definition write (fs : FS) (p data : string) : outcome FS :=
  if isdir fs p then raise OSError ("Is a directory: " +:+ p)
  else if negb (String.eqb (dirname p) EmptyString) && negb (isdir fs (dirname p))
  then raise FileNotFoundError p
  else Return (<[p := FFile data]> fs).

(** [os.mkdir(p)] *)
Definition mkdir (fs : FS) (p : string) : outcome FS :=
  if exists_ fs p then raise OSError ("File exists: " +:+ p)
  else if negb (String.eqb (dirname p) EmptyString) && negb (isdir fs (dirname p))
  then raise FileNotFoundError p
  else Return (<[p := FDir]> fs).

(** The proper ancestors of a path followed by the path itself:
    ["a/b/c"] gives ["a"; "a/b"; "a/b/c"]. *)
Fixpoint prefixes_go (seen : string) (s : string) : list string :=
  match s with
  | EmptyString =>
      match seen with EmptyString => [] | _ => [String.rev seen] end
  | String a s' =>
      if Ascii.eqb a "/"
      then (match seen with
            | EmptyString | String "/" _ => []
            | _ => [String.rev seen]
            end) ++ prefixes_go (String a seen) s'
      else prefixes_go (String a seen) s'
  end.
Definition prefixes (p : string) : list string := prefixes_go EmptyString p.

(** [os.makedirs(p, exist_ok=True)] *)
Definition makedirs (fs : FS) (p : string) : outcome FS :=
  foldl (fun acc d =>
           fs' ← acc;
           match fs' !! d with
           | Some FDir => Return fs'
           | Some (FFile _) => raise OSError ("File exists: " +:+ d)
           | None => Return (<[d := FDir]> fs')
           end) (Return fs) (prefixes p).

End os.


(* ===================================================================== *)
(** * mesonlib.py : configuration-file helpers                            *)
(* ===================================================================== *)

Module mesonlib.

(** Modelled from the spec: [build.ConfigurationData] is declared in
    [build.py], which is not part of the sources.  The interpreter stores
    into its [values] dictionary, and [do_mesondefine] relies on [get]
    raising [KeyError] for a name that is "not present". *)
Record ConfigurationData : Type := mkConfigurationData {
  values : gmap string Value
}.

Definition get (confdata : ConfigurationData) (name : string) : outcome Value :=
  match values confdata !! name with
  | Some v => Return v
  | None => raise KeyError name
  end.

Definition has_key (confdata : ConfigurationData) (name : string) : bool :=
  bool_decide (is_Some (values confdata !! name)).

Definition newline : string := String "010" EmptyString.

(** [do_mesondefine(line, confdata)] *)
Definition do_mesondefine (line : string) (confdata : ConfigurationData)
    : outcome string :=
  let arr := pystr.split_ws line in
  if negb (length arr =? 2)%nat
  then raise MesonException "#mesondefine does not contain exactly two tokens: %s"
  else
    let varname := nth 1 arr EmptyString in
    match get confdata varname with
    | Raise e =>
        match exn_class_of e with
        | KeyError => Return ("/* undef " +:+ varname +:+ " */" +:+ newline)
        | _ => Raise e
        end
    | Return v =>
        if pyval.is_bool v then
          if pyval.truthy v
          then Return ("#define " +:+ varname +:+ newline)
          else Return ("#undef " +:+ varname +:+ newline)
        else if pyval.is_int v then
          Return ("#define " +:+ varname +:+ " " +:+ pyval.str_of_int v +:+ newline)
        else if pyval.is_str v then
          Return ("#define " +:+ varname +:+ " " +:+ pyval.str_value v +:+ newline)
        else
          raise MesonException
            ("#mesondefine argument " +:+ pystr.dquote +:+ varname
             +:+ pystr.dquote +:+ " is of unknown type.")
    end.

(** [re.search('@(.*?)@', line)] : the name between the leftmost pair of
    at-signs that no newline separates, if there is one. *)
Fixpoint upto_at (s : string) : option string :=
  match s with
  | EmptyString => None
  | String a s' =>
      if Ascii.eqb a "@" then Some EmptyString
      else if Ascii.eqb a "010" then None
      else String a <$> upto_at s'
  end.
Fixpoint search (line : string) : option string :=
  match line with
  | EmptyString => None
  | String a s' =>
      if Ascii.eqb a "@"
      then match upto_at s' with
           | Some name => Some name
           | None => search s'
           end
      else search s'
  end.

(** [do_replacement(regex, line, confdata)].  The source loops for as long
    as the line has a match, which need not end (a value may reintroduce
    the pattern); [fuel] bounds the number of iterations and [None] means
    that it ran out. *)
Fixpoint do_replacement (fuel : nat) (line : string)
    (confdata : ConfigurationData) : option (outcome string) :=
  match search line with
  | None => Some (Return line)
  | Some varname =>
      match fuel with
      | O => None
      | S fuel' =>
          let var : outcome string :=
            if has_key confdata varname then
              var ← get confdata varname;
              if pyval.is_str var then Return (pyval.str_value var)
              else if pyval.is_int var then Return (pyval.str_of_int var)
              else raise RuntimeError
                "Tried to replace a variable with something other than a string or int."
            else Return EmptyString in
          match var with
          | Raise e => Some (Raise e)
          | Return var =>
              do_replacement fuel'
                (pystr.replace line ("@" +:+ varname +:+ "@") var) confdata
          end
      end
  end.

(** The body of the loop of [do_conf_file]: what becomes of one line. *)
Definition conf_line (fuel : nat) (line : string)
    (confdata : ConfigurationData) : option (outcome string) :=
  if pystr.startswith line "#mesondefine"
  then Some (do_mesondefine line confdata)
  else do_replacement fuel line confdata.

(** The loop of [do_conf_file] over the lines of the input. *)
Fixpoint do_conf_lines (fuel : nat) (data : list string)
    (confdata : ConfigurationData) : option (outcome (list string)) :=
  match data with
  | [] => Some (Return [])
  | line :: rest =>
      match conf_line fuel line confdata with
      | None => None
      | Some (Raise e) => Some (Raise e)
      | Some (Return line') =>
          match do_conf_lines fuel rest confdata with
          | None => None
          | Some (Raise e) => Some (Raise e)
          | Some (Return result) => Some (Return (line' :: result))
          end
      end
  end.

(** [os.replace(dst_tmp, dst)].  A file replaces a file or takes a free
    path; a file does not replace a directory, nor a directory a file.
    (When a directory is moved to a free path, the model moves its own
    entry only; the program never does this.) *)
Definition os_replace (fs : os.FS) (dst_tmp dst : string) : outcome os.FS :=
  match fs !! dst_tmp, fs !! dst with
  | Some n, Some os.FDir => raise OSError ("Is a directory: " +:+ dst)
  | Some os.FDir, Some (os.FFile _) => raise OSError ("Not a directory: " +:+ dst)
  | Some n, _ => Return (<[dst := n]> (delete dst_tmp fs))
  | None, _ => raise FileNotFoundError dst_tmp
  end.

(** [replace_if_different(dst, dst_tmp)].  Both files are read in text
    mode, [dst] first; of the errors of these reads only
    [FileNotFoundError] is caught, and the replacement is then made. *)
Definition replace_if_different (fs : os.FS) (dst dst_tmp : string)
    : outcome os.FS :=
  match os.read_text fs dst with
  | Return a =>
      match os.read_text fs dst_tmp with
      | Return b =>
          if String.eqb a b then Return (delete dst_tmp fs)
          else os_replace fs dst_tmp dst
      | Raise e =>
          match exn_class_of e with
          | FileNotFoundError => os_replace fs dst_tmp dst
          | _ => Raise e
          end
      end
  | Raise e =>
      match exn_class_of e with
      | FileNotFoundError => os_replace fs dst_tmp dst
      | _ => Raise e
      end
  end.

(** [do_conf_file(src, dst, confdata)]: the files afterwards, and whether
    the call returned or raised.  The template is read in text mode.  The
    file system of the model holds no permission bits, so that
    [shutil.copymode(src, dst_tmp)], which copies them between two files
    that exist at that point, has nothing to do here. *)
Definition do_conf_file (fuel : nat) (fs : os.FS) (src dst : string)
    (confdata : ConfigurationData) : option (os.FS * outcome unit) :=
  match os.read_text fs src with
  | Raise e => Some (fs, Raise e)
  | Return text =>
      match do_conf_lines fuel (pystr.readlines text) confdata with
      | None => None
      | Some (Raise e) => Some (fs, Raise e)
      | Some (Return result) =>
          let dst_tmp := dst +:+ "~" in
          match os.write fs dst_tmp (pystr.concat_lines result) with
          | Raise e => Some (fs, Raise e)
          | Return fs1 =>
              match replace_if_different fs1 dst dst_tmp with
              | Raise e => Some (fs1, Raise e)
              | Return fs2 => Some (fs2, Return tt)
              end
          end
      end
  end.

End mesonlib.


(* ===================================================================== *)
(** * wrap.py : wrap descriptors and the subproject resolver              *)
(* ===================================================================== *)

Module wrap.

(** What the resolver obtains from outside the program. *)
Record Response : Set := mkResponse {
  content_length : outcome Z;   (* int(resp.info()['Content-Length']) *)
  body : string                 (* the bytes read until end of stream *)
}.

Class Host : Type := {
  (** [urllib.request.urlopen(url)], with or without the pinned context *)
  urlopen : string -> outcome Response;
  (** [hashlib.sha256(data).hexdigest()] *)
  sha256_hexdigest : string -> string;
  (** the effect of [shutil.unpack_archive] for an archive file name, its
      bytes and the directory to extract into *)
  unpack : string -> string -> string -> os.FS -> outcome os.FS;
  (** a [git] subprocess: its effect on the files and its return code *)
  subprocess_call : list string -> string -> os.FS -> os.FS * Z
}.

(** The calls that leave the program, in the order they are made.  An
    [UnpackArchive] event records the bytes that the archive file held
    when it was handed to the extractor. *)
Inductive Event : Set :=
  | Download (url : string)
  | UnpackArchive (filename : string) (data : option string) (extract_dir : string)
  | Subprocess (argv : list string) (cwd : string).

Record World : Type := mkWorld {
  fs : os.FS;
  log : list Event
}.

(** The first archive handed to the extractor among some events: its
    file name and the bytes it held. *)
Fixpoint first_unpack (evs : list Event) : option (string * option string) :=
  match evs with
  | [] => None
  | UnpackArchive filename data _ :: _ => Some (filename, data)
  | _ :: rest => first_unpack rest
  end.

Definition is_download (e : Event) : Prop :=
  match e with Download _ => True | _ => False end.

Definition is_unpack (e : Event) : Prop :=
  match e with UnpackArchive _ _ _ => True | _ => False end.

Definition W (A : Type) : Type := World -> World * outcome A.

Global Instance W_ret : MRet W := fun A a w => (w, Return a).
Global Instance W_bind : MBind W := fun A B f m w =>
  match m w with
  | (w', Return a) => f a w'
  | (w', Raise e) => (w', Raise e)
  end.

Definition throw {A} (c : exn_class) (msg : string) : W A :=
  fun w => (w, raise c msg).
Definition lift {A} (x : outcome A) : W A := fun w => (w, x).
Definition emit (e : Event) : W unit :=
  fun w => (mkWorld (fs w) (log w ++ [e]), Return tt).
Definition get_fs : W os.FS := fun w => (w, Return (fs w)).
Definition put_fs (f : os.FS) : W unit :=
  fun w => (mkWorld f (log w), Return tt).
(** A file-system operation: on success the new tree replaces the old. *)
Definition fs_update (op : os.FS -> outcome os.FS) : W unit :=
  fun w => match op (fs w) with
           | Return f => (mkWorld f (log w), Return tt)
           | Raise e => (w, Raise e)
           end.

(** ** [class PackageDefinition] *)
Record PackageDefinition : Type := mkPackageDefinition {
  type : string;
  values : gmap string string
}.

Fixpoint parse_values (lines : list string) (values : gmap string string)
    : outcome (gmap string string) :=
  match lines with
  | [] => Return values
  | line :: rest =>
      let line := pystr.strip line in
      if String.eqb line EmptyString then parse_values rest values
      else match pystr.split_once "=" line with
           | None => raise ValueError "not enough values to unpack"
           | Some (k, v) =>
               parse_values rest (<[pystr.strip k := pystr.strip v]> values)
           end
  end.

(** [PackageDefinition.__init__(fname)]; the wrap file is opened in text
    mode. *)
Definition PackageDefinition__init__ (f : os.FS) (fname : string)
    : outcome PackageDefinition :=
  text ← os.read_text f fname;
  let lines := pystr.readlines text in
  let first := pystr.strip (hd EmptyString lines) in
  type ← (if String.eqb first "[wrap-file]" then Return "file"
          else if String.eqb first "[wrap-git]" then Return "git"
          else raise RuntimeError "Invalid format of package file");
  values ← parse_values (tl lines) ∅;
  Return (mkPackageDefinition type values).

(** [PackageDefinition.get] and [PackageDefinition.has_patch] *)
Definition get (p : PackageDefinition) (key : string) : outcome string :=
  match values p !! key with
  | Some v => Return v
  | None => raise KeyError key
  end.
Definition has_patch (p : PackageDefinition) : bool :=
  bool_decide (is_Some (values p !! "patch_url")).

(** The text of the error that [download] raises for a source archive. *)
Definition incorrect_source_hash (packagename expected dhash : string) : exn :=
  Exn RuntimeError
    ("Incorrect hash for source " +:+ packagename +:+ ":"
     +:+ mesonlib.newline +:+ " " +:+ expected +:+ " expected"
     +:+ mesonlib.newline +:+ " " +:+ dhash +:+ " actual.").

(** ** [class Resolver] *)
Section Resolver.
Context `{Host}.

(** The attributes [subdir_root] and [cachedir] set by [__init__]. *)
Variable subdir_root : string.
Definition cachedir : string := os.join subdir_root "packagecache".

(** [Resolver.get_data] *)
Definition get_data (url : string) : W string :=
  _ ← emit (Download url);
  resp ← lift (urlopen url);
  dlsize ← lift (content_length resp);
  if negb (String.eqb (body resp) EmptyString) && (dlsize =? 0)
  then throw ZeroDivisionError "float division by zero"
  else mret (body resp).

(** [Resolver.get_hash] *)
Definition get_hash (data : string) : string := sha256_hexdigest data.

(** [Resolver.download] *)
Definition download (p : PackageDefinition) (packagename : string) : W unit :=
  source_filename ← lift (get p "source_filename");
  let ofname := os.join cachedir source_filename in
  f ← get_fs;
  if os.exists_ f ofname then mret tt
  else
    srcurl ← lift (get p "source_url");
    srcdata ← get_data srcurl;
    let dhash := get_hash srcdata in
    expected ← lift (get p "source_hash");
    if negb (String.eqb dhash expected)
    then throw RuntimeError
           ("Incorrect hash for source " +:+ packagename +:+ ":"
            +:+ mesonlib.newline +:+ " " +:+ expected +:+ " expected"
            +:+ mesonlib.newline +:+ " " +:+ dhash +:+ " actual.")
    else
      _ ← (if has_patch p then
             purl ← lift (get p "patch_url");
             pdata ← get_data purl;
             let phash := get_hash pdata in
             expected ← lift (get p "patch_hash");
             if negb (String.eqb phash expected)
             then throw RuntimeError
                    ("Incorrect hash for patch " +:+ packagename +:+ ":"
                     +:+ mesonlib.newline +:+ " " +:+ expected +:+ " expected"
                     +:+ mesonlib.newline +:+ " " +:+ phash +:+ " actual")
             else
               patch_filename ← lift (get p "patch_filename");
               fs_update (fun f => os.write f (os.join cachedir patch_filename) pdata)
           else mret tt);
      fs_update (fun f => os.write f ofname srcdata).

(** [shutil.unpack_archive(filename, extract_dir)] *)
Definition unpack_archive (filename extract_dir : string) : W unit :=
  f ← get_fs;
  _ ← emit (UnpackArchive filename
              (match f !! filename with
               | Some (os.FFile d) => Some d
               | _ => None
               end) extract_dir);
  data ← lift (os.read f filename);
  fs_update (unpack filename data extract_dir).

(** [Resolver.extract_package] *)
Definition extract_package (package : PackageDefinition) : W unit :=
  directory ← lift (get package "directory");
  let target_dir := os.join subdir_root directory in
  f ← get_fs;
  if os.isdir f target_dir then mret tt
  else
    extract_dir ←
      (match get package "lead_directory_missing" with
       | Return _ => _ ← fs_update (fun f => os.mkdir f target_dir); mret target_dir
       | Raise _ => mret subdir_root
       end);
    source_filename ← lift (get package "source_filename");
    _ ← unpack_archive (os.join cachedir source_filename) extract_dir;
    if has_patch package then
      patch_filename ← lift (get package "patch_filename");
      unpack_archive (os.join cachedir patch_filename) subdir_root
    else mret tt.

(** [subprocess.call] and [subprocess.check_call] with working directory
    [cwd]. *)
Definition spawn (argv : list string) (cwd : string) : W Z :=
  fun w => let '(f, rc) := subprocess_call argv cwd (fs w) in
           (mkWorld f (log w), Return rc).
Definition call (argv : list string) (cwd : string) : W Z :=
  _ ← emit (Subprocess argv cwd);
  spawn argv cwd.
Definition check_call (argv : list string) (cwd : string) : W unit :=
  rc ← call argv cwd;
  if rc =? 0 then mret tt
  else throw CalledProcessError "Command returned non-zero exit status".

(** [Resolver.get_git] *)
Definition get_git (p : PackageDefinition) : W unit :=
  directory ← lift (get p "directory");
  let checkoutdir := os.join subdir_root directory in
  revno ← lift (get p "revision");
  f ← get_fs;
  let is_there := os.isdir f checkoutdir in
  if is_there then
    if String.eqb (pystr.lower revno) "head"
    then check_call ["git"; "pull"] checkoutdir
    else
      rc ← call ["git"; "checkout"; revno] checkoutdir;
      if negb (rc =? 0) then
        _ ← check_call ["git"; "fetch"] checkoutdir;
        check_call ["git"; "checkout"; revno] checkoutdir
      else mret tt
  else
    url ← lift (get p "url");
    directory ← lift (get p "directory");
    _ ← check_call ["git"; "clone"; url; directory] subdir_root;
    if negb (String.eqb (pystr.lower revno) "head")
    then check_call ["git"; "checkout"; revno] checkoutdir
    else mret tt.

(** [Resolver.resolve]; the result [None] is Python's [None]. *)
Definition resolve (packagename : string) : W (option string) :=
  let fname := os.join subdir_root (packagename +:+ ".wrap") in
  let dirname := os.join subdir_root packagename in
  f ← get_fs;
  if negb (os.isfile f fname) then
    if os.isdir f dirname then mret (Some packagename)
    else mret None
  else
    p ← lift (PackageDefinition__init__ f fname);
    _ ← (if String.eqb (type p) "file" then
           _ ← (if negb (os.isdir f cachedir)
                then fs_update (fun f => os.mkdir f cachedir)
                else mret tt);
           _ ← download p packagename;
           extract_package p
         else if String.eqb (type p) "git" then get_git p
         else throw RuntimeError "Unreachable code.");
    directory ← lift (get p "directory");
    mret (Some directory).

End Resolver.

End wrap.

(* ===================================================================== *)
(** * interpreter.py : state of a configure run                           *)
(* ===================================================================== *)

Module interpreter.

(** ** Build graph entities *)

Inductive TargetType : Set :=
  | Executable | SharedLibrary | StaticLibrary | Jar | CustomTarget | RunTarget.

Global Instance TargetType_eq_dec : EqDecision TargetType.
Proof. solve_decision. Defined.

(** Modelled from the spec: the target classes live in [build.py], which is
    not part of the sources.  The spec gives a target a name, a subdir, a
    subproject and a kind, and an id that is a function of them. *)
Record Target : Set := mkTarget {
  target_name : string;
  target_type : TargetType;
  target_subdir : string;
  target_subproject : string
}.

Global Instance Target_eq_dec : EqDecision Target.
Proof. solve_decision. Defined.

(** [class Data] : an [install_data] entry. *)
Record Data : Type := mkData {
  in_sourcetree : bool;
  source_subdir : string;
  sources : list Value;
  install_dir : string
}.

(** [build.Build], restricted to the attributes the embedded functions
    touch.  [targets] is a dictionary in insertion order: a list of
    (key, target) pairs that the code extends only with fresh keys. *)
Record Build : Type := mkBuild {
  targets : list (string * Target);
  global_args : gmap string (list Value);
  build_subprojects : gmap string bool;
  data : list Data;
  install_scripts : list (list Value)
}.

Record Environment : Set := mkEnvironment {
  source_dir : string;
  build_dir : string;
  is_cross_build : bool
}.

(** ** The attributes of one [Interpreter] instance *)
Record Interpreter : Type := mkInterpreter {
  subproject : string;
  subdir : string;
  subproject_dir : string;
  variables : gmap string Value;
  builtin : gmap string Value;
  build_def_files : list string;
  global_args_frozen : bool;
  subproject_stack : list string;
  active_projectname : string
}.

(** ** Objects on the heap *)
Inductive Object : Type :=
  | OConfigurationData (used : bool) (held_object : mesonlib.ConfigurationData)
  | OTarget (held_object : Target)
  | OSubproject (subinterpreter : Interpreter)
  | OOther.

(** ** The whole state.
    [self] is the interpreter that is running; everything else is shared
    by all interpreters of the run: they are handed the same [Build], and
    [func_subproject] makes a sub-interpreter's [subprojects] attribute an
    alias of its parent's dictionary, so that there is one such dictionary
    per run. *)
Record State : Type := mkState {
  self : Interpreter;
  build : Build;
  environment : Environment;
  target_guids : gmap string string;      (* coredata.target_guids *)
  subprojects : gmap string Value;
  heap : list Object;
  fs : os.FS;
  entropy : nat                            (* number of uuids drawn so far *)
}.

(** Field updates. *)
Definition with_self (i : Interpreter) (st : State) : State :=
  mkState i (build st) (environment st) (target_guids st) (subprojects st)
          (heap st) (fs st) (entropy st).
Definition with_build (b : Build) (st : State) : State :=
  mkState (self st) b (environment st) (target_guids st) (subprojects st)
          (heap st) (fs st) (entropy st).
Definition with_target_guids (g : gmap string string) (st : State) : State :=
  mkState (self st) (build st) (environment st) g (subprojects st)
          (heap st) (fs st) (entropy st).
Definition with_subprojects (m : gmap string Value) (st : State) : State :=
  mkState (self st) (build st) (environment st) (target_guids st) m
          (heap st) (fs st) (entropy st).
Definition with_heap (h : list Object) (st : State) : State :=
  mkState (self st) (build st) (environment st) (target_guids st)
          (subprojects st) h (fs st) (entropy st).
Definition with_fs (f : os.FS) (st : State) : State :=
  mkState (self st) (build st) (environment st) (target_guids st)
          (subprojects st) (heap st) f (entropy st).
Definition with_entropy (n : nat) (st : State) : State :=
  mkState (self st) (build st) (environment st) (target_guids st)
          (subprojects st) (heap st) (fs st) n.

Definition with_targets (t : list (string * Target)) (b : Build) : Build :=
  mkBuild t (global_args b) (build_subprojects b) (data b) (install_scripts b).
Definition with_global_args (g : gmap string (list Value)) (b : Build) : Build :=
  mkBuild (targets b) g (build_subprojects b) (data b) (install_scripts b).
Definition with_build_subprojects (s : gmap string bool) (b : Build) : Build :=
  mkBuild (targets b) (global_args b) s (data b) (install_scripts b).
Definition with_data (d : list Data) (b : Build) : Build :=
  mkBuild (targets b) (global_args b) (build_subprojects b) d (install_scripts b).
Definition with_install_scripts (s : list (list Value)) (b : Build) : Build :=
  mkBuild (targets b) (global_args b) (build_subprojects b) (data b) s.

Definition with_subdir (d : string) (i : Interpreter) : Interpreter :=
  mkInterpreter (subproject i) d (subproject_dir i) (variables i) (builtin i)
    (build_def_files i) (global_args_frozen i) (subproject_stack i)
    (active_projectname i).
Definition with_build_def_files (l : list string) (i : Interpreter) : Interpreter :=
  mkInterpreter (subproject i) (subdir i) (subproject_dir i) (variables i)
    (builtin i) l (global_args_frozen i) (subproject_stack i)
    (active_projectname i).
Definition with_global_args_frozen (b : bool) (i : Interpreter) : Interpreter :=
  mkInterpreter (subproject i) (subdir i) (subproject_dir i) (variables i)
    (builtin i) (build_def_files i) b (subproject_stack i)
    (active_projectname i).
Definition with_subproject_stack (l : list string) (i : Interpreter) : Interpreter :=
  mkInterpreter (subproject i) (subdir i) (subproject_dir i) (variables i)
    (builtin i) (build_def_files i) (global_args_frozen i) l
    (active_projectname i).
Definition with_active_projectname (n : string) (i : Interpreter) : Interpreter :=
  mkInterpreter (subproject i) (subdir i) (subproject_dir i) (variables i)
    (builtin i) (build_def_files i) (global_args_frozen i)
    (subproject_stack i) n.

(** ** Stateful computations that may raise *)
Definition M (A : Type) : Type := State -> State * outcome A.

Global Instance M_ret : MRet M := fun A a st => (st, Return a).
Global Instance M_bind : MBind M := fun A B f m st =>
  match m st with
  | (st', Return a) => f a st'
  | (st', Raise e) => (st', Raise e)
  end.

Definition throw {A} (c : exn_class) (msg : string) : M A :=
  fun st => (st, raise c msg).
Definition get_state : M State := fun st => (st, Return st).
Definition put_state (st : State) : M unit := fun _ => (st, Return tt).
Definition modify (f : State -> State) : M unit := fun st => (f st, Return tt).
Definition lift {A} (x : outcome A) : M A := fun st => (st, x).

(** [len(l)] as an integer. *)
Definition len {A} (l : list A) : Z := Z.of_nat (length l).

(** ** Python operators on values *)

(** [l[i]] on a list: a negative index counts from the end. *)
Definition getitem (l : list Value) (i : Z) : outcome Value :=
  let j := if i <? 0 then i + len l else i in
  if (j <? 0) || (len l <=? j) then raise IndexError "list index out of range"
  else match l !! Z.to_nat j with
       | Some v => Return v
       | None => raise IndexError "list index out of range"
       end.

(** The text of the [TypeError] of [l + r].  The concatenation of a list
    or a string names the type of the right operand alone; every other
    left operand gives the message of the binary operator. *)
Definition add_error (l r : Value) : string :=
  match l with
  | VList _ | VStr _ =>
      "can only concatenate " +:+ pyval.type_name l +:+ " (not "
      +:+ pystr.dquote +:+ pyval.type_name r +:+ pystr.dquote
      +:+ ") to " +:+ pyval.type_name l
  | _ =>
      "unsupported operand type(s) for +: '" +:+ pyval.type_name l
      +:+ "' and '" +:+ pyval.type_name r +:+ "'"
  end.

(** [l + r].  Integers (booleans included) add, strings and lists
    concatenate; no class of the interpreter defines [__add__], so every
    other pair of operands is a [TypeError] of the runtime. *)
Definition add (l r : Value) : outcome Value :=
  match l, r with
  | VStr a, VStr b => Return (VStr (a +:+ b))
  | VList a, VList b => Return (VList (a ++ b))
  | _, _ =>
      match pyval.int_value l, pyval.int_value r with
      | Some a, Some b => Return (VInt (a + b))
      | _, _ => raise TypeError (add_error l r)
      end
  end.

(** The kinds of operands the addition distinguishes. *)
Inductive kind : Set := KInt | KStr | KList | KOther.

Definition kind_of (v : Value) : kind :=
  match v with
  | VInt _ | VBool _ => KInt
  | VStr _ => KStr
  | VList _ => KList
  | _ => KOther
  end.

(** ** Syntax trees.
    Modelled from the spec: the node classes are declared in [mparser.py],
    which is not part of the sources.  These are the expression nodes of
    the spec's [Node] type, with the attribute names the interpreter uses;
    an array literal carries the three parts of its [ArgumentNode]. *)
Inductive Node : Type :=
  | StringNode (value : string)
  | NumberNode (value : Z)
  | BooleanNode (value : bool)
  | IdNode (value : string)
  | ArrayNode (arguments : list Node) (kwargs : list (string * Node))
              (incorrect_order : bool)
  | IndexNode (iobject index : Node)
  | ArithmeticNode (operation : string) (left right : Node)
  | AndNode (left right : Node)
  | OrNode (left right : Node)
  | NotNode (value : Node)
  | UMinusNode (value : Node).

(** [Interpreter.get_variable] *)
Definition get_variable (varname : string) : M Value := fun st =>
  match builtin (self st) !! varname with
  | Some v => (st, Return v)
  | None =>
      match variables (self st) !! varname with
      | Some v => (st, Return v)
      | None => (st, raise InvalidCode
                   ("Unknown variable " +:+ pystr.dquote +:+ varname
                    +:+ pystr.dquote +:+ "."))
      end
  end.

(** [Interpreter.to_native]: literal nodes evaluate to their value in
    [evaluate_statement] already, so that a value is returned as it is. *)
Definition to_native (arg : Value) : Value := arg.

Section Evaluation.

(** The evaluator the methods below call back into. *)
Variable evaluate_statement : Node -> M Value.

(** [Interpreter.reduce_arguments] *)
Fixpoint reduce_positional (arguments : list Node) : M (list Value) :=
  match arguments with
  | [] => mret []
  | arg :: rest =>
      v ← evaluate_statement arg;
      vs ← reduce_positional rest;
      mret (v :: vs)
  end.

Fixpoint reduce_keywords (kwargs : list (string * Node))
    (reduced_kw : gmap string Value) : M (gmap string Value) :=
  match kwargs with
  | [] => mret reduced_kw
  | (key, a) :: rest =>
      v ← evaluate_statement a;
      reduce_keywords rest (<[key := v]> reduced_kw)
  end.

Definition reduce_arguments (arguments : list Node)
    (kwargs : list (string * Node)) (incorrect_order : bool)
    : M (list Value * gmap string Value) :=
  if incorrect_order
  then throw InvalidArguments
         "All keyword arguments must be after positional arguments."
  else
    reduced_pos ← reduce_positional arguments;
    reduced_kw ← reduce_keywords kwargs ∅;
    mret (reduced_pos, reduced_kw).

(** [Interpreter.evaluate_arraystatement] *)
Definition evaluate_arraystatement (arguments : list Node)
    (kwargs : list (string * Node)) (incorrect_order : bool) : M Value :=
  '(arguments, kwargs) ← reduce_arguments arguments kwargs incorrect_order;
  if (0 <? Z.of_nat (size kwargs))
  then throw InvalidCode "Keyword arguments are invalid in array construction."
  else mret (VList arguments).

(** [Interpreter.evaluate_indexing] *)
Definition evaluate_indexing (node_iobject node_index : Node) : M Value :=
  iobject ← evaluate_statement node_iobject;
  match iobject with
  | VList l =>
      index ← evaluate_statement node_index;
      match pyval.int_value index with
      | None => throw InterpreterException "Index value is not an integer."
      | Some i =>
          if (i <? - len l) || (len l <=? i)
          then throw InterpreterException
                 ("Index " +:+ pystr.of_Z i
                  +:+ " out of bounds of array of size "
                  +:+ pystr.of_Z (len l) +:+ ".")
          else lift (getitem l i)
      end
  | _ => throw InterpreterException "Tried to index a non-array object."
  end.

(** [Interpreter.evaluate_arithmeticstatement] *)
Definition evaluate_arithmeticstatement (operation : string)
    (left right : Node) : M Value :=
  l ← evaluate_statement left;
  let l := to_native l in
  r ← evaluate_statement right;
  let r := to_native r in
  if String.eqb operation "add" then
    match add l r with
    | Return v => mret v
    | Raise e => throw InvalidCode ("Invalid use of addition: " +:+ exn_message e)
    end
  else if String.eqb operation "sub" then
    match pyval.int_value l, pyval.int_value r with
    | Some a, Some b => mret (VInt (a - b))
    | _, _ => throw InvalidCode "Subtraction works only with integers."
    end
  else if String.eqb operation "mul" then
    match pyval.int_value l, pyval.int_value r with
    | Some a, Some b => mret (VInt (a * b))
    | _, _ => throw InvalidCode "Multiplication works only with integers."
    end
  else if String.eqb operation "div" then
    match pyval.int_value l, pyval.int_value r with
    | Some a, Some b =>
        if b =? 0
        then throw ZeroDivisionError "integer division or modulo by zero"
        else mret (VInt (a / b))
    | _, _ => throw InvalidCode "Division works only with integers."
    end
  else throw InvalidCode "You broke me.".

(** [Interpreter.evaluate_andstatement] *)
Definition evaluate_andstatement (left right : Node) : M Value :=
  l ← evaluate_statement left;
  match l with
  | VBool false => mret (VBool false)
  | VBool true =>
      r ← evaluate_statement right;
      match r with
      | VBool _ => mret r
      | _ => throw InterpreterException
               ("Second argument to " +:+ pystr.dquote +:+ "and"
                +:+ pystr.dquote +:+ " is not a boolean.")
      end
  | _ => throw InterpreterException
           ("First argument to " +:+ pystr.dquote +:+ "and"
            +:+ pystr.dquote +:+ " is not a boolean.")
  end.

(** [Interpreter.evaluate_orstatement] *)
Definition evaluate_orstatement (left right : Node) : M Value :=
  l ← evaluate_statement left;
  match l with
  | VBool true => mret (VBool true)
  | VBool false =>
      r ← evaluate_statement right;
      match r with
      | VBool _ => mret r
      | _ => throw InterpreterException
               ("Second argument to " +:+ pystr.dquote +:+ "or"
                +:+ pystr.dquote +:+ " is not a boolean.")
      end
  | _ => throw InterpreterException
           ("First argument to " +:+ pystr.dquote +:+ "or"
            +:+ pystr.dquote +:+ " is not a boolean.")
  end.

(** [Interpreter.evaluate_notstatement] *)
Definition evaluate_notstatement (value : Node) : M Value :=
  v ← evaluate_statement value;
  match v with
  | VBool b => mret (VBool (negb b))
  | _ => throw InterpreterException
           ("Argument to " +:+ pystr.dquote +:+ "not"
            +:+ pystr.dquote +:+ " is not a boolean.")
  end.

(** [Interpreter.evaluate_uminusstatement] *)
Definition evaluate_uminusstatement (value : Node) : M Value :=
  v ← evaluate_statement value;
  match pyval.int_value v with
  | Some z => mret (VInt (- z))
  | None => throw InterpreterException "Argument to negation is not an integer."
  end.

End Evaluation.

(** [Interpreter.evaluate_statement], on the expression nodes. *)
Fixpoint evaluate_statement (cur : Node) {struct cur} : M Value :=
  match cur with
  | StringNode value => mret (VStr value)
  | BooleanNode value => mret (VBool value)
  | IdNode value => get_variable value
  | ArrayNode arguments kwargs incorrect_order =>
      evaluate_arraystatement evaluate_statement arguments kwargs incorrect_order
  | NumberNode value => mret (VInt value)
  | AndNode l r => evaluate_andstatement evaluate_statement l r
  | OrNode l r => evaluate_orstatement evaluate_statement l r
  | NotNode value => evaluate_notstatement evaluate_statement value
  | UMinusNode value => evaluate_uminusstatement evaluate_statement value
  | ArithmeticNode operation l r =>
      evaluate_arithmeticstatement evaluate_statement operation l r
  | IndexNode iobject index =>
      evaluate_indexing evaluate_statement iobject index
  end.

(** ** What the interpreter obtains from modules that are not part of the
    sources, and from outside the program. *)
Class Externals : Type := {
  (** [coredata.forbidden_target_names] *)
  forbidden_target_names : list string;
  (** [get_id()] of the target classes of [build.py] *)
  get_id : Target -> string;
  (** the constructors of the target classes of [build.py]:
      [targetclass(name, subdir, subproject, is_cross, sources, objs,
      environment, kwargs)] for the four build target classes,
      [CustomTarget(name, subdir, kwargs)] and
      [RunTarget(name, command, args, subdir)] *)
  new_build_target : TargetType -> Value -> string -> string -> bool ->
                     list Value -> list Value -> gmap string Value ->
                     outcome Target;
  new_custom_target : Value -> string -> gmap string Value -> outcome Target;
  new_run_target : Value -> Value -> list Value -> string -> outcome Target;
  (** [str(uuid.uuid4()).upper()], by the number of earlier draws *)
  uuid4_upper : nat -> string;
  (** [RunProcess(...)]: the effect of the command on the files and its
      [returncode] *)
  run_process : list Value -> string -> bool -> os.FS -> os.FS * outcome Z;
  (** the fetching of wrapped subprojects *)
  host :: wrap.Host
}.

(** [str(v)] in a message; the text Python prints for an object is an
    address and is rendered by the name of its type. *)
Definition display (v : Value) : string :=
  match v with
  | VStr s => s
  | VInt _ | VBool _ => pyval.str_of_int v
  | VNone => "None"
  | _ => "<" +:+ pyval.type_name v +:+ ">"
  end.

(** [check_stringlist(a, msg)], for a list [a]. *)
Definition check_stringlist (a : list Value) (msg : string) : outcome unit :=
  if forallb pyval.is_str a then Return tt
  else raise InvalidArguments msg.

(** The strings of a list that passed [check_stringlist]. *)
Definition strings_of (a : list Value) : list string := pyval.str_value <$> a.

(** The decorators [stringArgs] and [noKwargs], as guards. *)
Definition stringArgs (args : list Value) : M unit :=
  lift (check_stringlist args "Arguments must be strings.").
Definition noKwargs (kwargs : gmap string Value) : M unit :=
  if negb (size kwargs =? 0)%nat
  then throw InvalidArguments "Function does not take keyword arguments."
  else mret tt.

(** [Interpreter.flatten] on a list: nested lists are inlined. *)
Fixpoint flatten_value (a : Value) : list Value :=
  match a with
  | VList l =>
      (fix go (l : list Value) : list Value :=
         match l with
         | [] => []
         | a :: rest => flatten_value a ++ go rest
         end) l
  | _ => [a]
  end.
Definition flatten_list (args : list Value) : list Value :=
  flatten_value (VList args).

(** [Interpreter.flatten] on any value: strings, integers and interpreter
    objects are returned as they are, a list is flattened, and anything
    else cannot be iterated over. *)
Definition flatten (args : Value) : outcome Value :=
  match args with
  | VStr _ | VInt _ | VBool _ => Return args
  | VObj c _ =>
      if bool_decide (c = Dependency)
      then raise TypeError "object is not iterable"
      else Return args
  | VList l => Return (VList (flatten_list l))
  | VNone | VFile _ _ _ => raise TypeError "object is not iterable"
  end.

(** Allocation of a fresh object. *)
Definition alloc (c : ObjClass) (o : Object) : M Value := fun st =>
  (with_heap (heap st ++ [o]) st, Return (VObj c (length (heap st)))).

(** ** [class ConfigurationDataHolder] *)

(** [ConfigurationDataHolder()] *)
Definition ConfigurationDataHolder__init__ : M Value :=
  alloc ConfigurationDataHolder
        (OConfigurationData false (mesonlib.mkConfigurationData ∅)).

(** The attributes [used] and [held_object] of the holder at [ref]. *)
Definition holder_at (st : State) (ref : nat)
    : option (bool * mesonlib.ConfigurationData) :=
  match heap st !! ref with
  | Some (OConfigurationData used held) => Some (used, held)
  | _ => None
  end.

Definition is_used (st : State) (ref : nat) : bool :=
  match holder_at st ref with Some (used, _) => used | None => false end.

(** A reference to something that is not a configuration holder cannot
    arise from a script; the model raises for it. *)
Definition dangling {A} : M A := throw AttributeError "no such attribute".

(** [mark_used] *)
Definition mark_used (ref : nat) : M unit := fun st =>
  match holder_at st ref with
  | Some (_, held) =>
      (with_heap (<[ref := OConfigurationData true held]> (heap st)) st, Return tt)
  | None => dangling st
  end.

(** [validate_args] *)
Definition validate_args (ref : nat) (args : list Value) : M (string * Value) :=
  fun st =>
  match holder_at st ref with
  | None => dangling st
  | Some (used, _) =>
      if negb (length args =? 2)%nat
      then (st, raise InterpreterException "Configuration set requires 2 arguments.")
      else if used
      then (st, raise InterpreterException
              "Can not set values on configuration object that has been used.")
      else
        let name := nth 0 args VNone in
        let val := nth 1 args VNone in
        if negb (pyval.is_str name)
        then (st, raise InterpreterException "First argument to set must be a string.")
        else (st, Return (pyval.str_value name, val))
  end.

(** [self.held_object.values[name] = val] *)
Definition store_value (ref : nat) (name : string) (val : Value) : M unit :=
  fun st =>
  match holder_at st ref with
  | Some (used, held) =>
      (with_heap (<[ref := OConfigurationData used
                      (mesonlib.mkConfigurationData
                         (<[name := val]> (mesonlib.values held)))]> (heap st)) st,
       Return tt)
  | None => dangling st
  end.

(** [set_method] *)
Definition set_method (ref : nat) (args : list Value)
    (kwargs : gmap string Value) : M Value :=
  '(name, val) ← validate_args ref args;
  _ ← store_value ref name val;
  mret VNone.

(** [set10_method] *)
Definition set10_method (ref : nat) (args : list Value)
    (kwargs : gmap string Value) : M Value :=
  '(name, val) ← validate_args ref args;
  _ ← (if pyval.truthy val then store_value ref name (VInt 1)
       else store_value ref name (VInt 0));
  mret VNone.

(** [InterpreterObject.method_call] on a configuration holder, whose
    method table has the entries [set] and [set10]. *)
Definition ConfigurationDataHolder_method_call (ref : nat)
    (method_name : string) (args : list Value) (kwargs : gmap string Value)
    : M Value :=
  if String.eqb method_name "set" then set_method ref args kwargs
  else if String.eqb method_name "set10" then set10_method ref args kwargs
  else throw InvalidCode
         ("Unknown method " +:+ pystr.dquote +:+ method_name +:+ pystr.dquote
          +:+ " in object.").

(** [Interpreter.func_configuration_data] *)
Definition func_configuration_data (args : list Value)
    (kwargs : gmap string Value) : M Value :=
  _ ← noKwargs kwargs;
  if negb (length args =? 0)%nat
  then throw InterpreterException "configuration_data takes no arguments"
  else ConfigurationDataHolder__init__.

(** [Data.__init__] *)
Definition Data__init__ (in_sourcetree : bool) (source_subdir : string)
    (sources : list Value) (kwargs : gmap string Value) : outcome Data :=
  let kwsource := default (VList []) (kwargs !! "sources") in
  let kwsource := match kwsource with VList l => l | v => [v] end in
  let sources := sources ++ kwsource in
  _ ← check_stringlist sources "Arguments must be strings.";
  match kwargs !! "install_dir" with
  | Some (VStr install_dir) =>
      Return (mkData in_sourcetree source_subdir sources install_dir)
  | _ => raise InterpreterException "Custom_install_dir must be a string."
  end.

Section Builtins.
Context `{Externals}.

(** [Interpreter.func_run_command] as [func_configure_file] calls it:
    [args] is the value of the [command] keyword and there are no
    keyword arguments, so that [in_builddir] is false. *)
Definition RunProcess (command_array : list Value) : M Z := fun st =>
  let '(f, rc) :=
    run_process command_array (subdir (self st)) false (fs st) in
  (with_fs f st, rc).

Definition func_run_command (args : Value) : M Z :=
  match args with
  | VList [] => throw InterpreterException "Not enough arguments"
  | VList (cmd :: cargs) =>
      cmd ← (match cmd with
             | VObj ExternalProgramHolder _ => mret [cmd]
             | VStr _ => mret [cmd]
             | _ => throw InterpreterException "First argument is of incorrect type."
             end);
      _ ← lift (check_stringlist cargs "Run_command arguments must be strings.");
      RunProcess (cmd ++ cargs)
  | VStr s =>
      if String.eqb s EmptyString
      then throw InterpreterException "Not enough arguments"
      else throw InvalidArguments "Argument not a list."
  | _ => throw TypeError "object has no len()"
  end.

(** The tail of [func_configure_file], after either branch. *)
Definition configure_file_finish (output : string)
    (kwargs : gmap string Value) : M Value :=
  _ ← (match kwargs !! "install_dir" with
       | Some (VStr _) =>
           st ← get_state;
           d ← lift (Data__init__ false (subdir (self st)) [VStr output] kwargs);
           modify (fun st => with_build (with_data (data (build st) ++ [d]) (build st)) st)
       | _ => mret tt
       end);
  st ← get_state;
  mret (VFile true (subdir (self st)) output).

(** [Interpreter.func_configure_file].  [None] means that the
    substitution of some input line did not come to an end within
    [fuel] rounds. *)
Definition func_configure_file (fuel : nat) (args : list Value)
    (kwargs : gmap string Value) (st : State)
    : option (State * outcome Value) :=
  if (0 <? length args)%nat
  then Some (st, raise InterpreterException
               "configure_file takes only keyword arguments.")
  else
    match kwargs !! "input", kwargs !! "output" with
    | None, _ =>
        Some (st, raise InterpreterException
                ("Required keyword argument " +:+ pystr.dquote +:+ "input"
                 +:+ pystr.dquote +:+ " not defined."))
    | Some _, None =>
        Some (st, raise InterpreterException
                ("Required keyword argument " +:+ pystr.dquote +:+ "output"
                 +:+ pystr.dquote +:+ " not defined."))
    | Some inputfile, Some output =>
        if negb (pyval.is_str inputfile)
        then Some (st, raise InterpreterException "Input must be a string.")
        else if negb (pyval.is_str output)
        then Some (st, raise InterpreterException "Output must be a string.")
        else
          let inputfile := pyval.str_value inputfile in
          let output := pyval.str_value output in
          match kwargs !! "configuration" with
          | Some conf =>
              match conf with
              | VObj ConfigurationDataHolder ref =>
                  let conffile := os.join (subdir (self st)) inputfile in
                  let st1 :=
                    if bool_decide (conffile ∈ build_def_files (self st)) then st
                    else with_self (with_build_def_files
                                      (build_def_files (self st) ++ [conffile])
                                      (self st)) st in
                  match os.makedirs (fs st1)
                          (os.join (build_dir (environment st1)) (subdir (self st1))) with
                  | Raise e => Some (st1, Raise e)
                  | Return fs1 =>
                      let st2 := with_fs fs1 st1 in
                      let ifile_abs := os.join3 (source_dir (environment st2))
                                         (subdir (self st2)) inputfile in
                      let ofile_abs := os.join3 (build_dir (environment st2))
                                         (subdir (self st2)) output in
                      match holder_at st2 ref with
                      | None => Some (dangling st2)
                      | Some (_, held_object) =>
                          match mesonlib.do_conf_file fuel fs1 ifile_abs ofile_abs
                                  held_object with
                          | None => None
                          | Some (fs2, Raise e) => Some (with_fs fs2 st2, Raise e)
                          | Some (fs2, Return _) =>
                              Some ((_ ← mark_used ref;
                                     configure_file_finish output kwargs)
                                      (with_fs fs2 st2))
                          end
                      end
                  end
              | _ =>
                  Some (st, raise InterpreterException
                          ("Argument " +:+ pystr.dquote +:+ "configuration"
                           +:+ pystr.dquote
                           +:+ " is not of type configuration_data"))
              end
          | None =>
              match kwargs !! "command" with
              | Some command =>
                  Some ((returncode ← func_run_command command;
                         if negb (returncode =? 0)
                         then throw InterpreterException
                                "Running configure command failed."
                         else configure_file_finish output kwargs) st)
              | None =>
                  Some (st, raise InterpreterException
                          ("Configure_file must have either " +:+ pystr.dquote
                           +:+ "configuration" +:+ pystr.dquote +:+ " or "
                           +:+ pystr.dquote +:+ "command" +:+ pystr.dquote +:+ "."))
              end
          end
    end.

(** ** Target registration *)

(** [name in d] for a dictionary [d] with string keys. *)
Definition name_in (name : Value) (keys : list string) : outcome bool :=
  match name with
  | VStr s => Return (bool_decide (s ∈ keys))
  | VList _ => raise TypeError "unhashable type: 'list'"
  | _ => Return false
  end.

(** [Interpreter.add_target] *)
Definition add_target (name : Value) (tobj : Target) : M unit :=
  lift (name_in name forbidden_target_names) ≫= fun reserved : bool =>
  if reserved
  then throw InvalidArguments
         ("Target name " +:+ pystr.dquote +:+ display name +:+ pystr.dquote
          +:+ " is reserved for Meson's internal use. Please rename.")
  else
    let idname := get_id tobj in
    st ← get_state;
    if bool_decide (idname ∈ fst <$> targets (build st))
    then throw InvalidCode
           ("Tried to create target " +:+ pystr.dquote +:+ display name
            +:+ pystr.dquote +:+ ", but a target of that name already exists.")
    else
      _ ← modify (fun st =>
             with_build (with_targets (targets (build st) ++ [(idname, tobj)])
                                      (build st)) st);
      st ← get_state;
      match target_guids st !! idname with
      | Some _ => mret tt
      | None =>
          modify (fun st =>
            with_entropy (S (entropy st))
              (with_target_guids
                 (<[idname := uuid4_upper (entropy st)]> (target_guids st)) st))
      end.

(** [Interpreter.source_strings_to_files] *)
Fixpoint source_strings_to_files (sources : list Value) : M (list Value) :=
  match sources with
  | [] => mret []
  | s :: rest =>
      s ← (match s with
           | VFile _ _ _ | VObj GeneratedListHolder _
           | VObj CustomTargetHolder _ => mret s
           | VStr fname =>
               (* mesonlib.File.from_source_file *)
               st ← get_state;
               if negb (os.isfile (fs st)
                          (os.join3 (source_dir (environment st))
                                    (subdir (self st)) fname))
               then throw MesonException ("File " +:+ fname +:+ " does not exist.")
               else mret (VFile false (subdir (self st)) fname)
           | _ => throw InterpreterException
                    "Source item is not string or File-type object."
           end);
      results ← source_strings_to_files rest;
      mret (s :: results)
  end.

(** [Interpreter.check_sources_exist] *)
Fixpoint check_sources_exist (subdir : string) (sources : list Value) : M unit :=
  match sources with
  | [] => mret tt
  | VStr s :: rest =>
      st ← get_state;
      if negb (os.isfile (fs st) (os.join subdir s))
      then throw InterpreterException
             ("Tried to add non-existing source " +:+ s +:+ ".")
      else check_sources_exist subdir rest
  | _ :: rest => check_sources_exist subdir rest
  end.

Definition as_list (v : Value) : list Value :=
  match v with VList l => l | _ => [v] end.

(** [Interpreter.build_target] *)
Definition build_target (args : list Value) (kwargs : gmap string Value)
    (targetholder : ObjClass) : M Value :=
  match args with
  | [] => throw IndexError "list index out of range"
  | name :: sources =>
      st ← get_state;
      let is_cross :=
        if is_cross_build (environment st)
        then negb (pyval.truthy (default (VBool false) (kwargs !! "native")))
        else false in
      kw_src ← (match kwargs !! "sources" with
                | Some v => v ← lift (flatten v); mret (as_list v)
                | None => mret []
                end);
      let sources := sources ++ kw_src in
      sources ← source_strings_to_files sources;
      objs ← lift (flatten (default (VList []) (kwargs !! "objects")));
      deps ← lift (flatten (default (VList []) (kwargs !! "dependencies")));
      let kwargs := <["dependencies" := deps]> kwargs in
      let objs := as_list objs in
      _ ← check_sources_exist
            (os.join (source_dir (environment st)) (subdir (self st))) sources;
      targetclass ←
        (match targetholder with
         | ExecutableHolder => mret Executable
         | SharedLibraryHolder => mret SharedLibrary
         | StaticLibraryHolder => mret StaticLibrary
         | JarHolder => mret Jar
         | _ => throw RuntimeError "Unreachable code"
         end);
      target ← lift (new_build_target targetclass name (subdir (self st))
                       (subproject (self st)) is_cross sources objs kwargs);
      l ← alloc targetholder (OTarget target);
      _ ← add_target name target;
      _ ← modify (fun st => with_self (with_global_args_frozen true (self st)) st);
      mret l
  end.

(** [func_executable], [func_static_lib], [func_shared_lib], [func_jar] *)
Definition func_executable (args : list Value) (kwargs : gmap string Value) :=
  build_target args kwargs ExecutableHolder.
Definition func_static_lib (args : list Value) (kwargs : gmap string Value) :=
  build_target args kwargs StaticLibraryHolder.
Definition func_shared_lib (args : list Value) (kwargs : gmap string Value) :=
  build_target args kwargs SharedLibraryHolder.
Definition func_jar (args : list Value) (kwargs : gmap string Value) :=
  build_target args kwargs JarHolder.

(** [Interpreter.func_build_target] *)
Definition func_build_target (args : list Value) (kwargs : gmap string Value)
    : M Value :=
  match kwargs !! "target_type" with
  | None => throw InterpreterException "Missing target_type keyword argument"
  | Some target_type =>
      let kwargs := delete "target_type" kwargs in
      if pyval.eq_str target_type "executable" then func_executable args kwargs
      else if pyval.eq_str target_type "shared_library" then func_shared_lib args kwargs
      else if pyval.eq_str target_type "static_library" then func_static_lib args kwargs
      else if pyval.eq_str target_type "jar" then func_jar args kwargs
      else throw InterpreterException "Unknown target_type."
  end.

(** [Interpreter.func_custom_target] *)
Definition func_custom_target (args : list Value) (kwargs : gmap string Value)
    : M Value :=
  _ ← stringArgs args;
  match args with
  | [name] =>
      st ← get_state;
      target ← lift (new_custom_target name (subdir (self st)) kwargs);
      tg ← alloc CustomTargetHolder (OTarget target);
      _ ← add_target name target;
      mret tg
  | _ => throw InterpreterException "Incorrect number of arguments"
  end.

(** [Interpreter.func_run_target] *)
Definition func_run_target (args : list Value) (kwargs : gmap string Value)
    : M Value :=
  _ ← stringArgs args;
  _ ← noKwargs kwargs;
  match args with
  | name :: command :: cmd_args =>
      st ← get_state;
      target ← lift (new_run_target name command cmd_args (subdir (self st)));
      tg ← alloc RunTargetHolder (OTarget target);
      _ ← add_target name target;
      mret tg
  | _ => throw InterpreterException "Incorrect number of arguments"
  end.

(** ** Values returned by the methods of a module *)
Inductive ModuleValue : Type :=
  | MNone
  | MTarget (v : Target)          (* an instance of a class of build.py *)
  | MInt (v : Z)
  | MStr (v : string)
  | MList (v : list ModuleValue)
  | MGeneratedList
  | MInstallScript (cmd : list Value)
  | MOther.

Definition already_exists (name : string) : exn :=
  Exn InterpreterException
      ("Tried to create target " +:+ name +:+ " which already exists.").

(** [self.build.targets[v.name] = v], after the check on [v.name]. *)
Definition register_by_name (v : Target) : M unit := fun st =>
  if bool_decide (target_name v ∈ fst <$> targets (build st))
  then (st, Raise (already_exists (target_name v)))
  else (with_build (with_targets (targets (build st) ++ [(target_name v, v)])
                                 (build st)) st, Return tt).

(** One round of the loop of [module_method_callback]: what is appended
    to [outvalues] for the item [v]. *)
Definition callback_item (module_method_callback : ModuleValue -> M Value)
    (v : ModuleValue) : M (list Value) :=
  match v with
  | MTarget t =>
      match target_type t with
      | CustomTarget =>
          _ ← register_by_name t;
          h ← alloc CustomTargetHolder (OTarget t);
          mret [h]
      | Executable =>
          _ ← register_by_name t;
          h ← alloc ExecutableHolder (OTarget t);
          mret [h]
      | RunTarget =>
          _ ← register_by_name t;
          mret []
      | _ => throw InterpreterException "Module returned a value of unknown type."
      end
  | MInt z => mret [VInt z]
  | MStr s => mret [VStr s]
  | MList _ => r ← module_method_callback v; mret [r]
  | MGeneratedList => h ← alloc GeneratedListHolder OOther; mret [h]
  | MInstallScript cmd =>
      _ ← modify (fun st =>
             with_build (with_install_scripts
                           (install_scripts (build st) ++ [cmd]) (build st)) st);
      mret []
  | MNone | MOther =>
      throw InterpreterException "Module returned a value of unknown type."
  end.

(** [Interpreter.module_method_callback] *)
Fixpoint module_method_callback (invalues : ModuleValue) : M Value :=
  match invalues with
  | MNone => mret VNone
  | MList l =>
      outvalues ←
        (fix loop (l : list ModuleValue) : M (list Value) :=
           match l with
           | [] => mret []
           | v :: rest =>
               out ← callback_item module_method_callback v;
               outs ← loop rest;
               mret (out ++ outs)
           end) l;
      mret (VList outvalues)
  | _ =>
      outvalues ← callback_item (fun _ => mret VNone) invalues;
      match outvalues with
      | [v] => mret v
      | _ => mret (VList outvalues)
      end
  end.

(** ** Global arguments *)

(** [Interpreter.func_add_global_arguments] *)
Definition func_add_global_arguments (args : list Value)
    (kwargs : gmap string Value) : M Value :=
  _ ← stringArgs args;
  st ← get_state;
  if negb (String.eqb (subproject (self st)) EmptyString)
  then throw InvalidCode
         "Global arguments can not be set in subprojects because there is no way to make that reliable."
  else if global_args_frozen (self st)
  then throw InvalidCode
         ("Tried to set global arguments after a build target has been declared."
          +:+ mesonlib.newline
          +:+ "This is not permitted. Please declare all global arguments before your targets.")
  else
    match kwargs !! "language" with
    | None => throw InvalidCode "Missing language definition in add_global_arguments"
    | Some (VStr language) =>
        let lang := pystr.lower language in
        _ ← modify (fun st =>
               let old := default [] (global_args (build st) !! lang) in
               with_build (with_global_args
                             (<[lang := old ++ args]> (global_args (build st)))
                             (build st)) st);
        mret VNone
    | Some _ => throw AttributeError "object has no attribute 'lower'"
    end.

(** ** Subprojects *)

(** [self.subproject_stack + [dirname]] joined by [' => ']. *)
Definition incpath (stack : list string) (dirname : string) : string :=
  pystr.join " => " (stack ++ [dirname]).

(** [os.makedirs(path, exist_ok=True)] *)
Definition makedirs (path : string) : M unit := fun st =>
  match os.makedirs (fs st) path with
  | Return f => (with_fs f st, Return tt)
  | Raise e => (st, Raise e)
  end.

(** The call of [wrap.Resolver(...).resolve(dirname)]. *)
Definition resolve (subdir_root dirname : string) : M (option string) :=
  fun st =>
    let '(w, r) := wrap.resolve subdir_root dirname (wrap.mkWorld (fs st) []) in
    (with_fs (wrap.fs w) st, r).

(** [subi.run()]: the sub-interpreter runs as [self]; afterwards the
    caller is [self] again and the sub-interpreter is handed back. *)
Definition run_as (subi : Interpreter) (run : M unit) : M Interpreter :=
  fun st =>
    let parent := self st in
    let '(st', r) := run (with_self subi st) in
    (with_self parent st',
     match r with Return _ => Return (self st') | Raise e => Raise e end).

(** [Interpreter.func_subproject].  [Interpreter__init__] stands for the
    construction [Interpreter(self.build, dirname, subdir,
    self.subproject_dir)] and [run] for the evaluation of the
    subproject's build file; [os.path.split] always returns a pair, so
    the test on the length of [segs] is left out. *)
Definition func_subproject
    (Interpreter__init__ : string -> string -> string -> State -> outcome Interpreter)
    (run : M unit) (args : list Value) (kwargs : gmap string Value)
    : M Value :=
  _ ← stringArgs args;
  _ ← noKwargs kwargs;
  if negb (length args =? 1)%nat
  then throw InterpreterException "Subproject takes exactly one argument"
  else
    let dirname := pyval.str_value (nth 0 args VNone) in
    st ← get_state;
    if negb (String.eqb (subdir (self st)) EmptyString)
       && negb (String.eqb (fst (os.split (subdir (self st))))
                           (subproject_dir (self st)))
    then throw InterpreterException
           "Subprojects must be defined at the root directory."
    else if bool_decide (dirname ∈ subproject_stack (self st))
    then throw InterpreterException
           ("Recursive include of subprojects: "
            +:+ incpath (subproject_stack (self st)) dirname +:+ ".")
    else
      match subprojects st !! dirname with
      | Some holder => mret holder
      | None =>
          resolved ← resolve (os.join (source_dir (environment st))
                                      (subproject_dir (self st))) dirname;
          match resolved with
          | None => throw InterpreterException
                      "Subproject directory does not exist and can not be downloaded."
          | Some resolved =>
              let subdir := os.join (subproject_dir (self st)) resolved in
              _ ← makedirs (os.join (build_dir (environment st)) subdir);
              _ ← modify (fun st =>
                     with_self (with_global_args_frozen true (self st)) st);
              st1 ← get_state;
              subi ← lift (Interpreter__init__ dirname subdir
                             (subproject_dir (self st1)) st1);
              let subi := with_subproject_stack
                            (subproject_stack (self st1) ++ [dirname]) subi in
              let current_active := active_projectname (self st1) in
              subi ← run_as subi run;
              _ ← modify (fun st =>
                     with_self (with_active_projectname current_active (self st)) st);
              _ ← modify (fun st =>
                     with_build (with_build_subprojects
                                   (<[dirname := true]> (build_subprojects (build st)))
                                   (build st)) st);
              holder ← alloc SubprojectHolder (OSubproject subi);
              _ ← modify (fun st =>
                     with_subprojects (<[dirname := holder]> (subprojects st)) st);
              _ ← modify (fun st =>
                     with_self (with_build_def_files
                                  (build_def_files (self st) ++ build_def_files subi)
                                  (self st)) st);
              mret holder
          end
      end.

(** ** Calls made by a build description *)

Inductive Call : Type :=
  | FunctionCall (func_name : string) (posargs : list Value)
                 (kwargs : gmap string Value)
  | ConfigurationMethodCall (ref : nat) (method_name : string)
                 (args : list Value) (kwargs : gmap string Value)
  | ModuleMethodCall (returned : ModuleValue).

Definition total {A} (m : M A) (st : State) : option (State * outcome A) :=
  Some (m st).

(** [Interpreter.function_call] with the table [self.funcs] restricted to
    the built-in functions embedded above, [method_call] on a
    configuration holder, and the return from a module method. *)
Definition perform
    (Interpreter__init__ : string -> string -> string -> State -> outcome Interpreter)
    (run : M unit) (fuel : nat) (c : Call) (st : State)
    : option (State * outcome Value) :=
  match c with
  | FunctionCall func_name posargs kwargs =>
      let args := flatten_list posargs in
      if String.eqb func_name "executable" then total (func_executable args kwargs) st
      else if String.eqb func_name "static_library" then total (func_static_lib args kwargs) st
      else if String.eqb func_name "shared_library" then total (func_shared_lib args kwargs) st
      else if String.eqb func_name "jar" then total (func_jar args kwargs) st
      else if String.eqb func_name "build_target" then total (func_build_target args kwargs) st
      else if String.eqb func_name "custom_target" then total (func_custom_target args kwargs) st
      else if String.eqb func_name "run_target" then total (func_run_target args kwargs) st
      else if String.eqb func_name "configure_file" then func_configure_file fuel args kwargs st
      else if String.eqb func_name "add_global_arguments"
           then total (func_add_global_arguments args kwargs) st
      else if String.eqb func_name "configuration_data"
           then total (func_configuration_data args kwargs) st
      else if String.eqb func_name "subproject"
           then total (func_subproject Interpreter__init__ run args kwargs) st
      else total (throw InvalidCode
                    ("Unknown function " +:+ pystr.dquote +:+ func_name
                     +:+ pystr.dquote +:+ ".")) st
  | ConfigurationMethodCall ref method_name args kwargs =>
      total (ConfigurationDataHolder_method_call ref method_name args kwargs) st
  | ModuleMethodCall returned =>
      total (module_method_callback returned) st
  end.

(** A configuration holder that was used is still there, used and with
    the same values. *)
Definition used_kept (st st' : State) : Prop :=
  forall ref held,
    holder_at st ref = Some (true, held) -> holder_at st' ref = Some (true, held).

(** The running interpreter's freeze of the global arguments stays. *)
Definition frozen_kept (st st' : State) : Prop :=
  global_args_frozen (self st) = true -> global_args_frozen (self st') = true.

(** The attributes of the running interpreter are what they were. *)
Definition same_self (st st' : State) : Prop := self st' = self st.

(** A computation all of whose runs relate the state before to the state
    after by [R]. *)
Definition preserves {A} (R : State -> State -> Prop) (m : M A) : Prop :=
  forall st st' r, m st = (st', r) -> R st st'.

(** The targets dictionary is keyed by the ids of its targets. *)
Definition keyed_by_id (l : list (string * Target)) : Prop :=
  Forall (fun kt => fst kt = get_id (snd kt)) l /\ NoDup (fst <$> l).

(** A computation that, whenever it returns, leaves a state satisfying
    [Q]. *)
Definition ensures {A} (Q : State -> Prop) (m : M A) : Prop :=
  forall st st' v, m st = (st', Return v) -> Q st'.

(** The states an interpreter passes through: [steps st st'] when [st']
    is reached from [st] by calls of the running interpreter.  The build
    file of a subproject is itself evaluated by such calls. *)
Inductive steps : State -> State -> Prop :=
  | steps_refl : forall st, steps st st
  | steps_call : forall init run fuel c st st1 st2 o,
      steps st st1 ->
      (forall s s' r, run s = (s', r) -> steps s s') ->
      perform init run fuel c st1 = Some (st2, o) ->
      steps st st2.

End Builtins.

End interpreter.

(* ===================================================================== *)
(** * A concrete environment, to run the code on examples                 *)
(* ===================================================================== *)

Module example.
Import interpreter.

(** Modelled from the spec: [get_id] belongs to [build.py]; the spec makes
    the id a function of the name and the kind of a target and gives
    [prog@exe] for the executable [prog]. *)
Definition type_suffix (t : TargetType) : string :=
  match t with
  | Executable => "@exe" | SharedLibrary => "@sha" | StaticLibrary => "@sta"
  | Jar => "@jar" | CustomTarget => "@cus" | RunTarget => "@run"
  end.
Definition get_id (t : Target) : string :=
  target_name t +:+ type_suffix (target_type t).

(** Modelled from the spec: the reserved names the spec lists for
    [coredata.forbidden_target_names]. *)
Definition forbidden_target_names : list string :=
  ["all"; "clean"; "test"; "install"; "build.ninja"; "PHONY"].

Definition new_target (ty : TargetType) (name : Value)
    (subdir subproject : string) : outcome Target :=
  match name with
  | VStr s => Return (mkTarget s ty subdir subproject)
  | _ => raise InvalidArguments "Target name must be a string."
  end.

(** A stand-in for SHA-256 that is easy to read in examples. *)
Definition digest (data : string) : string := "sha256:" +:+ data.

(** The one URL that answers, with a three-byte archive. *)
Definition urlopen (url : string) : outcome wrap.Response :=
  if String.eqb url "https://example.org/zlib.tar"
  then Return (wrap.mkResponse (Return 3) "ABC")
  else raise OSError "unreachable host".

Global Instance host : wrap.Host := {|
  wrap.urlopen := urlopen;
  wrap.sha256_hexdigest := digest;
  wrap.unpack := fun _ _ extract_dir f =>
                   Return (<[os.join extract_dir "unpacked" := os.FDir]> f);
  wrap.subprocess_call := fun _ _ f => (f, 0)
|}.

Global Instance externals : Externals := {|
  interpreter.forbidden_target_names := forbidden_target_names;
  interpreter.get_id := get_id;
  new_build_target := fun ty name subdir subproject _ _ _ _ =>
                        new_target ty name subdir subproject;
  new_custom_target := fun name subdir _ => new_target CustomTarget name subdir "";
  new_run_target := fun name _ _ subdir => new_target RunTarget name subdir "";
  uuid4_upper := fun n => "UUID-" +:+ pystr.of_Z (Z.of_nat n);
  run_process := fun _ _ _ f => (f, Return 0);
  interpreter.host := host
|}.

(** The root interpreter of a project whose source tree holds [main.c]. *)
Definition root : Interpreter :=
  mkInterpreter "" "" "subprojects" ∅ ∅ ["meson.build"] false [] "demo".

Definition source_tree : os.FS :=
  <["/src" := os.FDir]> (<["/build" := os.FDir]>
  (<["/src/main.c" := os.FFile "int main(void) { return 0; }"]>
  (<["/src/x.c" := os.FFile ""]> ∅))).

Definition initial : State :=
  mkState root (mkBuild [] ∅ ∅ [] []) (mkEnvironment "/src" "/build" false)
          ∅ ∅ [] source_tree 0.

(** A sub-interpreter as [Interpreter.__init__] leaves it. *)
Definition Interpreter__init__ (subproject subdir subproject_dir : string)
    (st : State) : outcome Interpreter :=
  if os.isfile (fs st) (os.join3 (source_dir (environment st)) subdir "meson.build")
  then Return (mkInterpreter subproject subdir subproject_dir ∅ ∅
                 [os.join subdir "meson.build"] false [] "")
  else raise InvalidArguments "Missing Meson file".

(** A wrap descriptor for [zlib] whose [source_hash] is not the digest of
    what the host serves, and the tree it lives in. *)
Definition zlib_wrap_text : string :=
  "[wrap-file]" +:+ mesonlib.newline
  +:+ "directory = zlib-1.2" +:+ mesonlib.newline
  +:+ "source_url = https://example.org/zlib.tar" +:+ mesonlib.newline
  +:+ "source_filename = zlib.tar" +:+ mesonlib.newline
  +:+ "source_hash = sha256:XYZ" +:+ mesonlib.newline.

Definition zlib_wrap : wrap.PackageDefinition :=
  wrap.mkPackageDefinition "file"
    (<["source_hash" := "sha256:XYZ"]> (<["source_filename" := "zlib.tar"]>
     (<["source_url" := "https://example.org/zlib.tar"]>
      (<["directory" := "zlib-1.2"]> ∅)))).

Definition wrapped_tree : os.FS :=
  <["/src/subprojects/zlib.wrap" := os.FFile zlib_wrap_text]>
    (<["/src/subprojects" := os.FDir]> source_tree).

Definition cache_created : os.FS :=
  <["/src/subprojects/packagecache" := os.FDir]> wrapped_tree.

Definition fresh_world : wrap.World := wrap.mkWorld wrapped_tree [].

(** The same tree with some file already in the cache under the archive's
    name. *)
Definition cached_world : wrap.World :=
  wrap.mkWorld
    (<["/src/subprojects/packagecache/zlib.tar" := os.FFile "not the archive"]>
       cache_created) [].

(** ** Running build descriptions given as sequences of calls *)

(** The build files of the example tree, by subproject name: the root calls
    [subproject('a')], [a] calls [subproject('b')], and [b] calls
    [subproject('a')] again. *)
Definition cyclic (subproject : string) : list Call :=
  if String.eqb subproject "" then [FunctionCall "subproject" [VStr "a"] ∅]
  else if String.eqb subproject "a" then [FunctionCall "subproject" [VStr "b"] ∅]
  else if String.eqb subproject "b" then [FunctionCall "subproject" [VStr "a"] ∅]
  else [].

Fixpoint run_calls (perform : Call -> State -> option (State * outcome Value))
    (calls : list Call) : M unit := fun st =>
  match calls with
  | [] => (st, Return tt)
  | c :: rest =>
      match perform c st with
      | None => (st, raise RuntimeError "out of fuel")
      | Some (st', Return _) => run_calls perform rest st'
      | Some (st', Raise e) => (st', Raise e)
      end
  end.

(** [Interpreter.run] for the interpreter that is [self], with [fuel]
    bounding the depth of nested subprojects. *)
Fixpoint run (scripts : string -> list Call) (fuel : nat) : M unit := fun st =>
  match fuel with
  | O => (st, raise RuntimeError "out of fuel")
  | S fuel' =>
      run_calls (perform Interpreter__init__ (run scripts fuel') 100)
                (scripts (subproject (self st))) st
  end.

Definition subproject_tree : os.FS :=
  <["/src/subprojects" := os.FDir]>
  (<["/src/subprojects/a" := os.FDir]>
  (<["/src/subprojects/a/meson.build" := os.FFile "project('a', 'c')"]>
  (<["/src/subprojects/b" := os.FDir]>
  (<["/src/subprojects/b/meson.build" := os.FFile "project('b', 'c')"]>
   source_tree)))).

Definition with_subprojects_tree : State := with_fs subproject_tree initial.

End example.

(* ===================================================================== *)
(** * Inputs of the examples                                              *)
(* ===================================================================== *)

Module samples.
Import interpreter example.

(** A configuration object with [A = 1], not yet used, and the template it
    is to fill. *)
Definition template_tree : os.FS :=
  <["/src/in.h.in" := os.FFile ("@A@ @B@" +:+ mesonlib.newline
                                +:+ "#mesondefine A" +:+ mesonlib.newline)]>
    source_tree.

Definition with_config : State :=
  with_heap [OConfigurationData false
               (mesonlib.mkConfigurationData (<["A" := VInt 1]> ∅))]
            (with_fs template_tree initial).

Definition configure_kwargs : gmap string Value :=
  <["input" := VStr "in.h.in"]> (<["output" := VStr "out.h"]>
  (<["configuration" := VObj ConfigurationDataHolder 0]> ∅)).

(** The interpreter of subproject [b], included from [a], in its root
    directory. *)
Definition inside_b : State :=
  with_self (mkInterpreter "b" "subprojects/b" "subprojects" ∅ ∅
               ["subprojects/b/meson.build"] false ["a"; "b"] "b")
            with_subprojects_tree.

(** The root interpreter after [subdir('src')], with subproject [a]
    loaded. *)
Definition root_in_src : State :=
  with_subprojects (<["a" := VObj SubprojectHolder 0]> ∅)
    (with_heap [OSubproject (mkInterpreter "a" "subprojects/a" "subprojects" ∅ ∅
                               ["subprojects/a/meson.build"] false ["a"] "a")]
       (with_self (with_subdir "src" root) with_subprojects_tree)).

(** The interpreter of subproject [a] after [subdir('src')]. *)
Definition a_in_src : State :=
  with_self (mkInterpreter "a" "subprojects/a/src" "subprojects" ∅ ∅
               ["subprojects/a/meson.build"] false ["a"] "a")
            with_subprojects_tree.

(** The interpreter of subproject [a] in its root directory, before any
    target. *)
Definition inside_a : State :=
  with_self (mkInterpreter "a" "subprojects/a" "subprojects" ∅ ∅
               ["subprojects/a/meson.build"] false ["a"] "a")
            with_subprojects_tree.

Definition language_c : gmap string Value := <["language" := VStr "c"]> ∅.

(** A root build file that includes the subproject [a], which declares
    nothing, and then sets a global argument. *)
Definition subproject_then_global_args (subproject : string) : list Call :=
  if String.eqb subproject ""
  then [FunctionCall "subproject" [VStr "a"] ∅;
        FunctionCall "add_global_arguments" [VStr "-DX"] language_c]
  else [].

(** A build file that declares the custom target [res_c] and then calls
    [gnome.compile_resources('res', ...)], which returns the custom targets
    [res_c] and [res_h]. *)
Definition res_c : Target := mkTarget "res_c" CustomTarget "" "".
Definition res_h : Target := mkTarget "res_h" CustomTarget "" "".
Definition custom_then_module : list Call :=
  [FunctionCall "custom_target" [VStr "res_c"] ∅;
   ModuleMethodCall (MList [MTarget res_c; MTarget res_h])].


(** The two keys of the counterexample to the name-first ordering. *)
Definition key_b_x : options.OptionKey :=
  options.mkOptionKey "b" (Some "x") options.HOST
    (options.example_hash [options.CStr "b"; options.of_subproject (Some "x"); options.CMachine options.HOST]).
Definition key_a_y : options.OptionKey :=
  options.mkOptionKey "a" (Some "y") options.HOST
    (options.example_hash [options.CStr "a"; options.of_subproject (Some "y"); options.CMachine options.HOST]).

(** The configuration data of the examples. *)
Definition sample : mesonlib.ConfigurationData :=
  mesonlib.mkConfigurationData
    (<["DEBUG" := VBool true]> (<["LEVEL" := VInt 3]>
     (<["NAME" := VStr "demo"]> (<["LIST" := VList []]> ∅)))).

Definition sample_line : string := "#mesondefine LEVEL" +:+ mesonlib.newline.

(** The array literal [[10, 20, 30]] of the examples. *)
Definition three : Node :=
  ArrayNode [NumberNode 10; NumberNode 20; NumberNode 30] [] false.

(** The expression [[1] + 2]. *)
Definition list_plus_int : Node :=
  ArithmeticNode "add" (ArrayNode [NumberNode 1] [] false) (NumberNode 2).

(** The runs of the two build files above. *)
Definition subproject_then_global_args_run : State * outcome unit :=
  run subproject_then_global_args 3 with_subprojects_tree.

Definition custom_then_module_run : State * outcome unit :=
  run_calls (perform Interpreter__init__ (mret tt) 10)
            custom_then_module initial.

End samples.

(* ===================================================================== *)
(** * More Python string methods and operators on values                  *)
(* ===================================================================== *)

Module pytext.

(** [s.split(c)] for a one-character separator: all the pieces, the empty
    ones included. *)
Fixpoint split (c : ascii) (s : string) : list string :=
  match s with
  | EmptyString => [EmptyString]
  | String a s' =>
      if Ascii.eqb a c then EmptyString :: split c s'
      else match split c s' with
           | x :: rest => String a x :: rest
           | [] => [String a EmptyString]
           end
  end.

(** [s.split(c, 1)]: at most two pieces. *)
Definition split1 (c : ascii) (s : string) : list string :=
  match pystr.split_once c s with
  | Some (l, r) => [l; r]
  | None => [s]
  end.

(** [s.count(c)] for a single character. *)
Fixpoint count (c : ascii) (s : string) : nat :=
  match s with
  | EmptyString => O
  | String a s' => ((if Ascii.eqb a c then 1 else 0) + count c s')%nat
  end.

(** [s.endswith(p)] *)
Definition endswith (s p : string) : bool :=
  String.prefix (String.rev p) (String.rev s).

(** [s[n:]] *)
Fixpoint drop (n : nat) (s : string) : string :=
  match n, s with
  | O, _ => s
  | S n', String _ s' => drop n' s'
  | S _, EmptyString => EmptyString
  end.

(** [l[i]] on a Python list; a negative index counts from the end. *)
Definition item {A} (l : list A) (i : Z) : outcome A :=
  let j := if i <? 0 then i + Z.of_nat (length l) else i in
  if j <? 0 then raise IndexError "list index out of range"
  else match l !! Z.to_nat j with
       | Some v => Return v
       | None => raise IndexError "list index out of range"
       end.

End pytext.

Module pyops.

(** [a == b].  Numbers (booleans included) compare by value, strings and
    lists by content, interpreter objects by identity.  [mesonlib.File]
    defines [__eq__] by reading [other.fname], so that comparing a file with
    anything that is not a file raises. *)
Fixpoint eq (a b : Value) {struct a} : outcome bool :=
  match a, b with
  | VFile ib sd fn, VFile ib' sd' fn' =>
      Return (String.eqb fn fn' && String.eqb sd sd' && Bool.eqb ib ib')
  | VFile _ _ _, _ | _, VFile _ _ _ =>
      raise AttributeError "object has no attribute 'fname'"
  | VList la, VList lb =>
      if negb (length la =? length lb)%nat then Return false
      else
        (fix go (la lb : list Value) : outcome bool :=
           match la, lb with
           | x :: la', y :: lb' =>
               r ← eq x y; if r : bool then go la' lb' else Return false
           | _, _ => Return true
           end) la lb
  | VStr x, VStr y => Return (String.eqb x y)
  | VNone, VNone => Return true
  | VObj c r, VObj c' r' => Return (bool_decide (c = c') && (r =? r')%nat)
  | _, _ =>
      match pyval.int_value a, pyval.int_value b with
      | Some x, Some y => Return (x =? y)
      | _, _ => Return false
      end
  end.

(** The loop of the comparison of two lists of the same length. *)
Fixpoint items_eq (la lb : list Value) : outcome bool :=
  match la, lb with
  | x :: la', y :: lb' =>
      r ← eq x y; if r : bool then items_eq la' lb' else Return false
  | _, _ => Return true
  end.

(** [a != b]: a list answers at the first pair of items that differ,
    everything else inverts [==]. *)
Definition ne (a b : Value) : outcome bool :=
  match a, b with
  | VList la, VList lb =>
      if negb (length la =? length lb)%nat then Return true
      else
        (fix go (la lb : list Value) : outcome bool :=
           match la, lb with
           | x :: la', y :: lb' =>
               r ← eq x y; if r : bool then go la' lb' else Return true
           | _, _ => Return false
           end) la lb
  | _, _ => r ← eq a b; Return (negb r)
  end.

Fixpoint items_ne (la lb : list Value) : outcome bool :=
  match la, lb with
  | x :: la', y :: lb' =>
      r ← eq x y; if r : bool then items_ne la' lb' else Return true
  | _, _ => Return false
  end.

(** [x in l] for a list [l]. *)
Fixpoint contains (l : list Value) (x : Value) : outcome bool :=
  match l with
  | [] => Return false
  | e :: rest => r ← eq e x; if r : bool then Return true else contains rest x
  end.

End pyops.

(* ===================================================================== *)
(** * mesonbuild/options.py : the other methods of OptionKey              *)
(* ===================================================================== *)

Module optionkey.
Import options.

(** The sentinel that [evolve] takes for "argument not given"; its last
    character is U+00FC, written here by its UTF-8 bytes. *)
Definition _BAD_VALUE : string :=
  "Qwert Zuiop" +:+ String "195" (String "188" EmptyString).

(** [OptionKey.__str__] *)
Definition __str__ (k : OptionKey) : string :=
  let out := name k in
  let out := if bool_decide (machine k = BUILD) then "build." +:+ out else out in
  match subproject k with
  | Some s => s +:+ ":" +:+ out
  | None => out
  end.

(** [OptionKey.has_module_prefix] *)
Definition has_module_prefix (k : OptionKey) : bool :=
  pystr.contains_char "." (name k).

(** [OptionKey.get_module_prefix] *)
Definition get_module_prefix (k : OptionKey) : outcome (option string) :=
  if has_module_prefix k
  then p ← pytext.item (pytext.split1 "." (name k)) 0; Return (Some p)
  else Return None.

Section WithRuntime.
Variable hash : list component -> Z.

(** [OptionKey.from_string] *)
Definition from_string (raw : string) : outcome OptionKey :=
  let '(subproject, raw2) :=
    match pytext.split ":" raw with
    | [subproject; raw2] => (Some subproject, raw2)
    | _ => (None, raw)
    end in
  let '(for_machine, raw3) :=
    match pytext.split "." raw2 with
    | [prefix; raw3] =>
        if String.eqb prefix "build" then (BUILD, raw3) else (HOST, raw2)
    | _ => (HOST, raw2)
    end in
  let opt := raw3 in
  if pystr.contains_char ":" opt then raise AssertionError ""
  else if negb (pytext.count "." opt <? 2)%nat then raise AssertionError ""
  else __init__ hash opt subproject for_machine.

(** [OptionKey.evolve].  An argument that is left out takes the sentinel:
    [name] and [subproject] are then passed as [_BAD_VALUE], and [machine]
    as [None]. *)
Definition evolve (k : OptionKey) (name : string) (subproject : option string)
    (machine : option MachineChoice) : outcome OptionKey :=
  __init__ hash
    (if negb (String.eqb name _BAD_VALUE) then name else options.name k)
    (if negb (bool_decide (subproject = Some _BAD_VALUE)) then subproject
     else options.subproject k)
    (match machine with Some m => m | None => options.machine k end).

(** [OptionKey.without_module_prefix] *)
Definition without_module_prefix (k : OptionKey) : outcome OptionKey :=
  if has_module_prefix k
  then newname ← pytext.item (pytext.split1 "." (name k)) 1;
       evolve k newname (Some _BAD_VALUE) None
  else Return k.

End WithRuntime.

End optionkey.

(* ===================================================================== *)
(** * mesonbuild/options.py : user options                                *)
(* ===================================================================== *)

Module useroption.

(** The attributes of a [UserOption] that the embedded methods read or
    write; [value] is absent until the first [set_value]. *)
Record UserOption : Type := mkUserOption {
  name : string;
  choices : Value;
  min_value : option Z;         (* UserIntegerOption *)
  max_value : option Z;         (* UserIntegerOption *)
  value : option Value
}.

Definition with_value (v : Value) (o : UserOption) : UserOption :=
  mkUserOption (name o) (choices o) (min_value o) (max_value o) (Some v).

Section WithRuntime.

(** What the Python runtime provides: [int(s)] of a string ([None] when
    it raises [ValueError]), and the texts of [str(v)] and [repr(v)]. *)
Variable int_ : string -> option Z.
Variables str_ repr_ : Value -> string.

(** [UserOption.set_value], for the [validate_value] of the option's
    class: the object afterwards, and whether the value changed. *)
Definition set_value (validate_value : UserOption -> Value -> outcome Value)
    (o : UserOption) (newvalue : Value) : UserOption * outcome bool :=
  let oldvalue := default VNone (value o) in
  match validate_value o newvalue with
  | Raise e => (o, Raise e)
  | Return v => (with_value v o, pyops.ne v oldvalue)
  end.

(** [UserBooleanOption.validate_value] *)
Definition UserBooleanOption_validate_value (o : UserOption) (value : Value)
    : outcome Value :=
  if pyval.is_bool value then Return value
  else if negb (pyval.is_str value)
  then raise MesonException
         ("Option " +:+ pystr.dquote +:+ name o +:+ pystr.dquote +:+ " value "
          +:+ str_ value +:+ " cannot be converted to a boolean")
  else if String.eqb (pystr.lower (pyval.str_value value)) "true"
  then Return (VBool true)
  else if String.eqb (pystr.lower (pyval.str_value value)) "false"
  then Return (VBool false)
  else raise MesonException
         ("Option " +:+ pystr.dquote +:+ name o +:+ pystr.dquote +:+ " value "
          +:+ str_ value +:+ " is not boolean (true or false).").

(** [UserBooleanOption.__init__] *)
Definition UserBooleanOption__init__ (name : string) (value : Value)
    : outcome UserOption :=
  let o := mkUserOption name (VList [VBool true; VBool false]) None None None in
  match set_value UserBooleanOption_validate_value o value with
  | (o', Return _) => Return o'
  | (_, Raise e) => Raise e
  end.

(** [UserIntegerOption.toint] *)
Definition toint (o : UserOption) (valuestring : string) : outcome Value :=
  match int_ valuestring with
  | Some z => Return (VInt z)
  | None =>
      raise MesonException
        ("Value string " +:+ pystr.dquote +:+ valuestring +:+ pystr.dquote
         +:+ " for option " +:+ pystr.dquote +:+ name o +:+ pystr.dquote
         +:+ " is not convertible to an integer.")
  end.

(** [UserIntegerOption.validate_value] *)
Definition UserIntegerOption_validate_value (o : UserOption) (value : Value)
    : outcome Value :=
  value ← (if pyval.is_str value then toint o (pyval.str_value value)
           else Return value);
  match pyval.int_value value with
  | None =>
      raise MesonException
        ("Value " +:+ repr_ value +:+ " for option " +:+ pystr.dquote
         +:+ name o +:+ pystr.dquote +:+ " is not an integer.")
  | Some z =>
      if match min_value o with Some m => z <? m | None => false end
      then raise MesonException
             ("Value " +:+ str_ value +:+ " for option " +:+ pystr.dquote
              +:+ name o +:+ pystr.dquote +:+ " is less than minimum value "
              +:+ pystr.of_Z (default 0 (min_value o)) +:+ ".")
      else if match max_value o with Some m => m <? z | None => false end
      then raise MesonException
             ("Value " +:+ str_ value +:+ " for option " +:+ pystr.dquote
              +:+ name o +:+ pystr.dquote +:+ " is more than maximum value "
              +:+ pystr.of_Z (default 0 (max_value o)) +:+ ".")
      else Return value
  end.

(** [UserIntegerOption.__init__], for the triple [(min, max, default)]. *)
Definition UserIntegerOption__init__ (name : string)
    (min_value max_value : option Z) (default_value : Value)
    : outcome UserOption :=
  let c := (match min_value with Some m => [">=" +:+ pystr.of_Z m] | None => [] end)
           ++ (match max_value with Some m => ["<=" +:+ pystr.of_Z m] | None => [] end) in
  let o := mkUserOption name (VStr (pystr.join ", " c)) min_value max_value None in
  match set_value UserIntegerOption_validate_value o default_value with
  | (o', Return _) => Return o'
  | (_, Raise e) => Raise e
  end.

(** The bounds of an integer option hold for a value. *)
Definition within (o : UserOption) (v : Value) : Prop :=
  exists z, pyval.int_value v = Some z
            /\ (forall m, min_value o = Some m -> m <= z)
            /\ (forall m, max_value o = Some m -> z <= m).

(** [UserComboOption.validate_value] *)
Definition UserComboOption_validate_value (o : UserOption) (value : Value)
    : outcome Value :=
  match choices o with
  | VList choices =>
      found ← pyops.contains choices value;
      if negb found then
        let _type := if pyval.is_bool value then "boolean"
                     else if pyval.is_int value then "number"
                     else "string" in
        let optionsstring :=
          pystr.join ", "
            ((fun item => pystr.dquote +:+ str_ item +:+ pystr.dquote) <$> choices) in
        raise MesonException
          ("Value " +:+ pystr.dquote +:+ str_ value +:+ pystr.dquote
           +:+ " (of type " +:+ pystr.dquote +:+ _type +:+ pystr.dquote
           +:+ ") for option " +:+ pystr.dquote +:+ name o +:+ pystr.dquote
           +:+ " is not one of the choices."
           +:+ " Possible choices are (as string): " +:+ optionsstring +:+ ".")
      else Return value
  | _ => raise TypeError "argument of this type is not iterable"
  end.

(** [UserComboOption.__init__] *)
Definition UserComboOption__init__ (name : string) (choices value : Value)
    : outcome UserOption :=
  let o := mkUserOption name choices None None None in
  match choices with
  | VList l =>
      if negb (forallb pyval.is_str l)
      then raise MesonException
             ("Combo choice elements for option " +:+ pystr.dquote +:+ name
              +:+ pystr.dquote +:+ " must be strings.")
      else
        match set_value UserComboOption_validate_value o value with
        | (o', Return _) => Return o'
        | (_, Raise e) => Raise e
        end
  | _ => raise MesonException
           ("Combo choices for option " +:+ pystr.dquote +:+ name
            +:+ pystr.dquote +:+ " must be an array.")
  end.

(** [class UserFeatureOption] *)
Definition static_choices : Value :=
  VList [VStr "enabled"; VStr "disabled"; VStr "auto"].

Definition UserFeatureOption__init__ (name : string) (value : Value)
    : outcome UserOption :=
  UserComboOption__init__ name static_choices value.

(** [self.value] of an option that has one. *)
Definition value_of (o : UserOption) : outcome Value :=
  match value o with
  | Some v => Return v
  | None => raise AttributeError "object has no attribute 'value'"
  end.

Definition is_enabled (o : UserOption) : outcome bool :=
  v ← value_of o; pyops.eq v (VStr "enabled").
Definition is_disabled (o : UserOption) : outcome bool :=
  v ← value_of o; pyops.eq v (VStr "disabled").
Definition is_auto (o : UserOption) : outcome bool :=
  v ← value_of o; pyops.eq v (VStr "auto").

(** A run of [set_value] calls on an option, of which some may raise
    (the caller reports the error and goes on). *)
Definition set_values (validate_value : UserOption -> Value -> outcome Value)
    (o : UserOption) (newvalues : list Value) : UserOption :=
  foldl (fun o v => fst (set_value validate_value o v)) o newvalues.

End WithRuntime.

(** [BuiltinOption.argparse_name_to_arg] *)
Definition argparse_name_to_arg (name : string) : string :=
  if String.eqb name "warning_level" then "--warnlevel"
  else "--" +:+ pystr.replace name "_" "-".

End useroption.

(* ===================================================================== *)
(** * mesonbuild/options.py : class OptionStore                           *)
(* ===================================================================== *)

Module optionstore.
Import options.

Definition _BUILTIN_NAMES : list string :=
  ["prefix"; "bindir"; "datadir"; "includedir"; "infodir"; "libdir";
   "licensedir"; "libexecdir"; "localedir"; "localstatedir"; "mandir";
   "sbindir"; "sharedstatedir"; "sysconfdir"; "auto_features"; "backend";
   "buildtype"; "debug"; "default_library"; "errorlogs"; "genvslite";
   "install_umask"; "layout"; "optimization"; "prefer_static"; "stdsplit";
   "strip"; "unity"; "unity_size"; "warning_level"; "werror"; "wrap_mode";
   "force_fallback_for"; "pkg_config_path"; "cmake_prefix_path"; "vsenv"].

(** The attributes of an [OptionStore] that the embedded methods touch. *)
Record OptionStore : Type := mkOptionStore {
  all_languages : list string;
  augments : gmap string string;
  is_cross : bool
}.

Definition with_augments (a : gmap string string) (s : OptionStore) : OptionStore :=
  mkOptionStore (all_languages s) a (is_cross s).

Section WithRuntime.
Variable hash : list component -> Z.

(** [OptionStore.ensure_and_validate_key], for a key given as a string or
    as an [OptionKey]. *)
Definition ensure_and_validate_key (self : OptionStore)
    (key : string + OptionKey) : outcome OptionKey :=
  match key with
  | inl s => __init__ hash s None HOST
  | inr key =>
      if negb (is_cross self) && bool_decide (machine key = BUILD)
      then optionkey.evolve hash key optionkey._BAD_VALUE
             (Some optionkey._BAD_VALUE) (Some HOST)
      else Return key
  end.

End WithRuntime.

(** [OptionStore.is_reserved_name] *)
Definition is_reserved_name (self : OptionStore) (key : OptionKey)
    : outcome bool :=
  if bool_decide (name key ∈ _BUILTIN_NAMES) then Return true
  else if negb (pystr.contains_char "_" (name key)) then Return false
  else
    prefix ← pytext.item (pytext.split "_" (name key)) 0;
    if bool_decide (prefix ∈ ["b"; "backend"]) then Return true
    else if bool_decide (prefix ∈ all_languages self) then Return true
    else Return false.

(** [OptionStore.is_base_option] *)
Definition is_base_option (self : OptionStore) (key : OptionKey) : bool :=
  pystr.startswith (name key) "b_".

(** [OptionStore.is_backend_option], for a key or a plain name. *)
Definition is_backend_option (self : OptionStore) (key : string + OptionKey)
    : bool :=
  let name := match key with inl s => s | inr k => name k end in
  pystr.startswith name "backend_".

(** [OptionStore.is_compiler_option] *)
Definition is_compiler_option (self : OptionStore) (key : OptionKey)
    : outcome bool :=
  if negb (pystr.contains_char "_" (name key)) then Return false
  else
    prefix ← pytext.item (pytext.split "_" (name key)) 0;
    if bool_decide (prefix ∈ all_languages self) then Return true
    else Return false.

(** The default options of a call, given as a list of [key=value]
    strings or as a dictionary. *)
Inductive Defaults : Type :=
  | AsList (l : list string)
  | AsDict (d : list (string * string)).

(** [OptionStore.hacky_mchackface_back_to_list] *)
Definition hacky_mchackface_back_to_list (optdict : Defaults) : list string :=
  match optdict with
  | AsDict d => (fun kv => fst kv +:+ "=" +:+ snd kv) <$> d
  | AsList l => l
  end.

(** The augment that an option [key=value] of the subproject stands for. *)
Definition augment_of (subproject o : string) : option (string * string) :=
  match pystr.split_once "=" o with
  | Some (keystr, valstr) => Some (subproject +:+ ":" +:+ keystr, valstr)
  | None => None
  end.

(** The loop of [set_from_subproject_call]: the augments when it ends or
    raises. *)
Fixpoint add_augments (subproject : string) (opts : list string)
    (augments : gmap string string) : gmap string string * outcome unit :=
  match opts with
  | [] => (augments, Return tt)
  | o :: rest =>
      match pytext.split1 "=" o with
      | [keystr; valstr] =>
          let keystr := subproject +:+ ":" +:+ keystr in
          add_augments subproject rest
            (if bool_decide (is_Some (augments !! keystr)) then augments
             else <[keystr := valstr]> augments)
      | _ => (augments, raise ValueError "not enough values to unpack (expected 2, got 1)")
      end
  end.

(** [OptionStore.set_from_subproject_call] *)
Definition set_from_subproject_call (self : OptionStore) (subproject : string)
    (spcall_default_options project_default_options : Defaults)
    : OptionStore * outcome unit :=
  let spcall_default_options := hacky_mchackface_back_to_list spcall_default_options in
  let project_default_options := hacky_mchackface_back_to_list project_default_options in
  let '(a, r) := add_augments subproject
                   (spcall_default_options ++ project_default_options)
                   (augments self) in
  (with_augments a self, r).

End optionstore.

(* ===================================================================== *)
(** * mesonlib.py : flatten and version_compare                           *)
(* ===================================================================== *)

Module mesonlib_util.

(** [flatten(item)]: the list [result] that the loop builds for a list
    [item], and the function itself. *)
Fixpoint flatten_items (item : Value) : list Value :=
  match item with
  | VList l =>
      (fix go (l : list Value) : list Value :=
         match l with
         | [] => []
         | i :: rest =>
             (match i with
              | VList _ => flatten_items i
              | _ => [i]
              end) ++ go rest
         end) l
  | _ => []
  end.
Definition flatten (item : Value) : Value :=
  match item with
  | VList _ => VList (flatten_items item)
  | _ => item
  end.

(** A value that is not a list. *)
Definition scalar (v : Value) : Prop := pyval.is_list v = false.

(** The comparison of two lists of integers by one of the six operators:
    the first pair of items that differ decides, and the lengths do when
    there is none. *)
Fixpoint list_richcompare (op : Z -> Z -> bool) (a b : list Z) : bool :=
  match a, b with
  | x :: a', y :: b' => if x =? y then list_richcompare op a' b' else op x y
  | _, _ => op (Z.of_nat (length a)) (Z.of_nat (length b))
  end.

(** Whether a version text starts with one of the characters that open
    a comparison operator. *)
Definition starts_with_operator (vstr : string) : bool :=
  match vstr with
  | String c _ => bool_decide (c ∈ ["<"; ">"; "="; "!"]%char)
  | EmptyString => false
  end.

Section WithRuntime.

(** [int(s)] of the Python runtime, [None] when it raises [ValueError]. *)
Variable int_ : string -> option Z.

(** [[int(x) for x in l]] *)
Fixpoint ints (l : list string) : outcome (list Z) :=
  match l with
  | [] => Return []
  | x :: rest =>
      match int_ x with
      | None => raise ValueError ("invalid literal for int() with base 10: " +:+ x)
      | Some z => zs ← ints rest; Return (z :: zs)
      end
  end.

(** [version_compare(vstr1, vstr2)] *)
Definition version_compare (vstr1 vstr2 : string) : outcome bool :=
  vstr1 ← (if pystr.contains_char "-" vstr1
           then pytext.item (pytext.split "-" vstr1) 0
           else Return vstr1);
  let '(cmpop, vstr2) :=
    if pystr.startswith vstr2 ">=" then (Z.geb, pytext.drop 2 vstr2)
    else if pystr.startswith vstr2 "<=" then (Z.leb, pytext.drop 2 vstr2)
    else if pystr.startswith vstr2 "!=" then ((fun x y => negb (x =? y)), pytext.drop 2 vstr2)
    else if pystr.startswith vstr2 "==" then (Z.eqb, pytext.drop 2 vstr2)
    else if pystr.startswith vstr2 "=" then (Z.eqb, pytext.drop 1 vstr2)
    else if pystr.startswith vstr2 ">" then (Z.gtb, pytext.drop 1 vstr2)
    else if pystr.startswith vstr2 "<" then (Z.ltb, pytext.drop 1 vstr2)
    else (Z.eqb, vstr2) in
  varr1 ← ints (pytext.split "." vstr1);
  varr2 ← ints (pytext.split "." vstr2);
  Return (list_richcompare cmpop varr1 varr2).

(** What [version_compare] computes once the operator is known. *)
Definition compare_with (cmpop : Z -> Z -> bool) (vstr1 vstr2 : string)
    : outcome bool :=
  vstr1 ← (if pystr.contains_char "-" vstr1
           then pytext.item (pytext.split "-" vstr1) 0
           else Return vstr1);
  varr1 ← ints (pytext.split "." vstr1);
  varr2 ← ints (pytext.split "." vstr2);
  Return (list_richcompare cmpop varr1 varr2).

End WithRuntime.

End mesonlib_util.

(* ===================================================================== *)
(** * interpreter.py : variables, comparison and array methods            *)
(* ===================================================================== *)

Module statements.
Import interpreter.

Definition with_variables (v : gmap string Value) (i : Interpreter) : Interpreter :=
  mkInterpreter (subproject i) (subdir i) (subproject_dir i) v (builtin i)
    (build_def_files i) (global_args_frozen i) (subproject_stack i)
    (active_projectname i).

(** The state after a successful assignment to [varname]. *)
Definition assigned (varname : string) (v : Value) (st : State) : State :=
  with_self (with_variables (<[varname := v]> (variables (self st))) (self st)) st.

(** [Interpreter.is_assignable] *)
Definition is_assignable (value : Value) : bool :=
  match value with
  | VObj _ _ | VStr _ | VInt _ | VBool _ | VList _ | VFile _ _ _ => true
  | VNone => false
  end.

(** [re.fullmatch('[_a-zA-Z][_0-9a-zA-Z]*', varname) is not None] *)
Definition is_alpha (c : ascii) : bool :=
  let n := N_of_ascii c in
  ((n =? 95) || (65 <=? n) && (n <=? 90) || (97 <=? n) && (n <=? 122))%N.
Definition is_alnum (c : ascii) : bool :=
  let n := N_of_ascii c in
  (is_alpha c || (48 <=? n) && (n <=? 57))%N.
Fixpoint all_alnum (s : string) : bool :=
  match s with
  | EmptyString => true
  | String c s' => is_alnum c && all_alnum s'
  end.
Definition fullmatch (varname : string) : bool :=
  match varname with
  | EmptyString => false
  | String c rest => is_alpha c && all_alnum rest
  end.

(** [Interpreter.set_variable] *)
Definition set_variable (varname : Value) (variable : Value) : M unit :=
  match variable with
  | VNone => throw InvalidCode "Can not assign None to variable."
  | _ =>
      if negb (pyval.is_str varname)
      then throw InvalidCode "First argument to set_variable must be a string."
      else if negb (is_assignable variable)
      then throw InvalidCode "Assigned value not of assignable type."
      else
        let varname := pyval.str_value varname in
        if negb (fullmatch varname)
        then throw InvalidCode ("Invalid variable name: " +:+ varname)
        else
          st ← get_state;
          if bool_decide (is_Some (builtin (self st) !! varname))
          then throw InvalidCode
                 ("Tried to overwrite internal variable " +:+ pystr.dquote
                  +:+ varname +:+ pystr.dquote)
          else modify (fun st =>
                 with_self (with_variables
                              (<[varname := variable]> (variables (self st)))
                              (self st)) st)
  end.

(** [Interpreter.is_elementary_type] *)
Definition is_elementary_type (v : Value) : bool :=
  match v with
  | VInt _ | VBool _ | VStr _ | VList _ => true
  | _ => false
  end.

Section Statements.

(** The evaluator the methods below call back into. *)
Variable evaluate_statement : Node -> M Value.

(** [Interpreter.assignment], for the attributes [var_name] and [value]
    of the node. *)
Definition assignment (var_name : Value) (value : Node) : M Value :=
  if negb (pyval.is_str var_name)
  then throw InvalidArguments "Tried to assign value to a non-variable."
  else
    value ← evaluate_statement value;
    let value := to_native value in
    if negb (is_assignable value)
    then throw InvalidCode "Tried to assign an invalid value to variable."
    else
      _ ← set_variable var_name value;
      mret value.

(** [Interpreter.evaluate_plusassign], for the attributes [var_name] and
    [value] of the node. *)
Definition evaluate_plusassign (varname : string) (value : Node) : M Value :=
  addition ← evaluate_statement value;
  old_variable ← get_variable varname;
  match old_variable with
  | VList old =>
      let new_value :=
        match addition with
        | VList l => VList (old ++ l)
        | _ => VList (old ++ [addition])
        end in
      _ ← set_variable (VStr varname) new_value;
      mret VNone
  | _ => throw InvalidArguments "The += operator currently only works with arrays."
  end.

(** [v.value] as [evaluate_comparison] reads it from an operand that is
    not of an elementary type; no class of the interpreter has such an
    attribute. *)
Definition comparison_operand (v : Value) : M Value :=
  if is_elementary_type v then mret v
  else throw AttributeError "object has no attribute 'value'".

(** [Interpreter.evaluate_comparison], for the attributes [left], [right]
    and [ctype] of the node. *)
Definition evaluate_comparison (left right : Node) (ctype : string) : M Value :=
  v1 ← evaluate_statement left;
  v2 ← evaluate_statement right;
  val1 ← comparison_operand v1;
  val2 ← comparison_operand v2;
  if String.eqb ctype "==" then r ← lift (pyops.eq val1 val2); mret (VBool r)
  else if String.eqb ctype "!=" then r ← lift (pyops.ne val1 val2); mret (VBool r)
  else throw InvalidCode "You broke me.".

End Statements.

(** Whether [element == item] is true; an exception counts as false. *)
Definition equals (item element : Value) : bool :=
  match pyops.eq element item with
  | Return true => true
  | _ => false
  end.

(** The loop of [check_contains]: whether it returns [True] for the
    object [obj]. *)
Fixpoint contains_item (item : Value) (obj : Value) {struct obj} : bool :=
  match obj with
  | VList l =>
      (fix loop (l : list Value) : bool :=
         match l with
         | [] => false
         | element :: rest =>
             if match element with
                | VList _ => contains_item item element
                | _ => false
                end
             then true
             else if equals item element
             then true
             else loop rest
         end) l
  | _ => false
  end.

(** [Interpreter.check_contains] *)
Definition check_contains (obj : list Value) (args : list Value) : outcome bool :=
  if negb (length args =? 1)%nat
  then raise InterpreterException "Contains method takes exactly one argument."
  else Return (contains_item (nth 0 args VNone) (VList obj)).

(** [Interpreter.array_method_call] *)
Definition array_method_call (obj : list Value) (method_name : string)
    (args : list Value) : outcome Value :=
  if String.eqb method_name "contains"
  then r ← check_contains obj args; Return (VBool r)
  else if String.eqb method_name "length" then Return (VInt (len obj))
  else if String.eqb method_name "get" then
    index ← pytext.item args 0;
    match pyval.int_value index with
    | None => raise InvalidArguments "Array index must be a number."
    | Some i =>
        if (i <? - len obj) || (len obj <=? i)
        then raise InvalidArguments
               ("Array index " +:+ pyval.str_of_int index
                +:+ " is out of bounds for array of size "
                +:+ pystr.of_Z (len obj) +:+ ".")
        else getitem obj i
    end
  else raise InterpreterException
         ("Arrays do not have a method called " +:+ pystr.dquote
          +:+ method_name +:+ pystr.dquote +:+ ".").

(** [BuildMachine.cpu_method], for the answer of [platform.machine()]. *)
Definition cpu_method (platform_machine : string) : string :=
  let trial := pystr.lower platform_machine in
  if pystr.startswith trial "i" && pytext.endswith trial "86" then "x86"
  else if pystr.startswith trial "arm" then "arm"
  else trial.

(** Every id in the targets dictionary has a GUID. *)
Definition guids_cover (st : State) : Prop :=
  forall idname, idname ∈ (fst <$> targets (build st)) ->
                 is_Some (target_guids st !! idname).

(** The GUIDs that were assigned are still there. *)
Definition guids_kept (st st' : State) : Prop :=
  forall idname guid, target_guids st !! idname = Some guid ->
                      target_guids st' !! idname = Some guid.

End statements.

(* ===================================================================== *)
(** * wrap.py : the text of a wrap file and the calls of a git wrap       *)
(* ===================================================================== *)

Module wrapfile.

(** A text without white space at either end, and not empty. *)
Definition trimmed (s : string) : Prop :=
  pystr.lstrip s = s /\ pystr.rstrip s = s /\ s <> EmptyString.

(** A key and a value that a line [key = value] can carry: neither holds
    a line ending (LF or CR). *)
Definition entry_ok (kv : string * string) : Prop :=
  trimmed (fst kv) /\ trimmed (snd kv)
  /\ pystr.contains_char "=" (fst kv) = false
  /\ pystr.contains_char "010" (fst kv) = false
  /\ pystr.contains_char "010" (snd kv) = false
  /\ pystr.contains_char "013" (fst kv) = false
  /\ pystr.contains_char "013" (snd kv) = false.

(** The line of an entry, without its newline. *)
Definition line_of (kv : string * string) : string :=
  fst kv +:+ " = " +:+ snd kv.

(** The lines [key = value] of a wrap file. *)
Fixpoint render_entries (entries : list (string * string)) : string :=
  match entries with
  | [] => EmptyString
  | (k, v) :: rest =>
      k +:+ " = " +:+ v +:+ mesonlib.newline +:+ render_entries rest
  end.

(** A wrap file of type [file]: the header line and the entries. *)
Definition render (entries : list (string * string)) : string :=
  "[wrap-file]" +:+ mesonlib.newline +:+ render_entries entries.

(** A call of the [git] program. *)
Definition is_git (e : wrap.Event) : Prop :=
  match e with
  | wrap.Subprocess ("git" :: _) _ => True
  | _ => False
  end.

(** The text of the error that [download] raises for a patch archive. *)
Definition incorrect_patch_hash (packagename expected phash : string) : exn :=
  Exn RuntimeError
    ("Incorrect hash for patch " +:+ packagename +:+ ":"
     +:+ mesonlib.newline +:+ " " +:+ expected +:+ " expected"
     +:+ mesonlib.newline +:+ " " +:+ phash +:+ " actual").

(** One of the two hash-mismatch errors of [download] for a package. *)
Definition hash_mismatch (packagename : string) (e : exn) : Prop :=
  exists expected actual,
    e = wrap.incorrect_source_hash packagename expected actual
    \/ e = incorrect_patch_hash packagename expected actual.

(** The extractor raised [e] for some archive. *)
Definition raised_by_extractor `{wrap.Host} (e : exn) : Prop :=
  exists filename data extract_dir f,
    wrap.unpack filename data extract_dir f = Raise e.

(** What [resolve] can raise for a wrap of type [file] apart from the
    errors of [download]: the [KeyError] of a missing key of the
    descriptor, an error of the file system, or what the extractor
    raised. *)
Definition raised_after_download `{wrap.Host} (e : exn) : Prop :=
  exn_class_of e = KeyError \/ exn_class_of e = OSError
  \/ exn_class_of e = FileNotFoundError \/ raised_by_extractor e.

End wrapfile.

(* ===================================================================== *)
(** * More inputs of the examples                                         *)
(* ===================================================================== *)

Module inputs.
Import interpreter example.

(** A stand-in for [int(s)] on plain decimal numerals, to run examples. *)
Fixpoint decimal (s : string) (acc : Z) : option Z :=
  match s with
  | EmptyString => Some acc
  | String c s' =>
      let n := N_of_ascii c in
      if ((48 <=? n) && (n <=? 57))%N
      then decimal s' (10 * acc + Z.of_N (n - 48))
      else None
  end.
Definition int_ (s : string) : option Z :=
  match s with
  | EmptyString => None
  | _ => decimal s 0
  end.

(** Option keys. *)
Definition key_of (name : string) (subproject : option string)
    (machine : options.MachineChoice) : options.OptionKey :=
  options.mkOptionKey name subproject machine
    (options.example_hash
       [options.CStr name; options.of_subproject subproject;
        options.CMachine machine]).

Definition native_store : optionstore.OptionStore :=
  optionstore.mkOptionStore ["c"; "cpp"] (<["sub:opt" := "1"]> ∅) false.

(** A subproject call with default options. *)
Definition subproject_call_run : optionstore.OptionStore * outcome unit :=
  optionstore.set_from_subproject_call native_store "sub"
    (optionstore.AsList ["opt=2"; "new=3"])
    (optionstore.AsDict [("new", "4"); ("other", "5")]).

(** User options as their constructors leave them. *)
Definition debug_option : useroption.UserOption :=
  useroption.mkUserOption "debug" (VList [VBool true; VBool false])
    None None (Some (VBool true)).
Definition unity_size_option : useroption.UserOption :=
  useroption.mkUserOption "unity_size" (VStr ">=2") (Some 2) None (Some (VInt 4)).
Definition auto_features_option : useroption.UserOption :=
  useroption.mkUserOption "auto_features" useroption.static_choices
    None None (Some (VStr "auto")).

(** A configuration whose value for [A] is the pattern of [A]. *)
Definition self_reference : mesonlib.ConfigurationData :=
  mesonlib.mkConfigurationData (<["A" := VStr "@A@"]> ∅).

(** The call of [do_conf_file] on the template of the examples. *)
Definition one : mesonlib.ConfigurationData :=
  mesonlib.mkConfigurationData (<["A" := VInt 1]> ∅).
Definition conf_file_run : option (os.FS * outcome unit) :=
  mesonlib.do_conf_file 10 samples.template_tree "/src/in.h.in" "/build/out.h" one.

Definition conf_file_result : os.FS :=
  <["/build/out.h" := os.FFile ("1 " +:+ mesonlib.newline +:+ "#define A 1"
                                +:+ mesonlib.newline)]> samples.template_tree.

(** The entries of a wrap file, and a tree that holds it. *)
Definition zlib_entries : list (string * string) :=
  [("directory", "zlib-1.2"); ("source_url", "https://example.org/zlib.tar");
   ("source_filename", "zlib.tar"); ("source_hash", "sha256:XYZ");
   ("source_hash", "sha256:ABC")].
Definition zlib_tree : os.FS :=
  <["/src/subprojects/zlib.wrap" := os.FFile (wrapfile.render zlib_entries)]>
    (<["/src/subprojects" := os.FDir]> source_tree).

(** The same subproject with its archive in the cache and its directory
    extracted. *)
Definition zlib_in_place : wrap.World :=
  wrap.mkWorld
    (<["/src/subprojects/zlib-1.2" := os.FDir]>
       (<["/src/subprojects/packagecache/zlib.tar" := os.FFile "ABC"]>
          cache_created)) [].

(** A wrap of type [git] and a tree that holds it. *)
Definition git_wrap_text : string :=
  "[wrap-git]" +:+ mesonlib.newline
  +:+ "directory = glib" +:+ mesonlib.newline
  +:+ "url = https://example.org/glib.git" +:+ mesonlib.newline
  +:+ "revision = v2" +:+ mesonlib.newline.
Definition git_wrap : wrap.PackageDefinition :=
  wrap.mkPackageDefinition "git"
    (<["revision" := "v2"]> (<["url" := "https://example.org/glib.git"]>
     (<["directory" := "glib"]> ∅))).
Definition git_world : wrap.World :=
  wrap.mkWorld
    (<["/src/subprojects/glib.wrap" := os.FFile git_wrap_text]>
       (<["/src/subprojects" := os.FDir]> source_tree)) [].
Definition git_run : wrap.World * outcome (option string) :=
  wrap.resolve "/src/subprojects" "glib" git_world.

(** A host that serves a source archive and a patch, and a wrap whose
    patch hash is not the digest of the patch it serves. *)
Definition patch_host : wrap.Host := {|
  wrap.urlopen := fun url =>
    if String.eqb url "https://example.org/zlib.tar"
    then Return (wrap.mkResponse (Return 3) "ABC")
    else if String.eqb url "https://example.org/zlib-patch.tar"
    then Return (wrap.mkResponse (Return 3) "PPP")
    else raise OSError "unreachable host";
  wrap.sha256_hexdigest := digest;
  wrap.unpack := fun _ _ extract_dir f =>
                   Return (<[os.join extract_dir "unpacked" := os.FDir]> f);
  wrap.subprocess_call := fun _ _ f => (f, 0)
|}.
Definition patched_wrap : wrap.PackageDefinition :=
  wrap.mkPackageDefinition "file"
    (<["patch_hash" := "sha256:QQQ"]> (<["patch_filename" := "zlib-patch.tar"]>
     (<["patch_url" := "https://example.org/zlib-patch.tar"]>
      (<["source_hash" := "sha256:ABC"]> (<["source_filename" := "zlib.tar"]>
       (<["source_url" := "https://example.org/zlib.tar"]>
        (<["directory" := "zlib-1.2"]> ∅))))))).
Definition cache_world : wrap.World := wrap.mkWorld cache_created [].

(** The root interpreter with the built-in object [meson] and the
    variable [x] holding [[1]]. *)
Definition with_variable : State :=
  with_self (mkInterpreter "" "" "subprojects" (<["x" := VList [VInt 1]]> ∅)
               (<["meson" := VObj ModuleHolder 0]> ∅)
               ["meson.build"] false [] "demo") initial.
Definition overwrite_meson : State * outcome unit :=
  statements.set_variable (VStr "meson") (VInt 1) with_variable.

(** The declaration of the executable [prog]. *)
Definition prog : Target := mkTarget "prog" Executable "" "".
Definition add_prog : State * outcome unit :=
  add_target (VStr "prog") prog initial.

End inputs.

(* ===================================================================== *)
(** * Properties of OptionKey                                             *)
(* ===================================================================== *)

Module options_facts.
Import options.

Lemma ltb_irrefl (s : string) : String.ltb s s = false.
Proof.
  unfold String.ltb. pose proof (String.compare_antisym s s) as A.
  destruct (String.compare s s); simpl in A; try reflexivity; discriminate.
Qed.

Lemma of_subproject_inj (a b : option string) :
  of_subproject a = of_subproject b -> a = b.
Proof. destruct a, b; simpl; congruence. Qed.

Lemma __init___fields hash n s m k :
  __init__ hash n s m = Return k ->
  name k = n /\ subproject k = s /\ machine k = m /\
  _hash k = hash [CStr n; of_subproject s; CMachine m].
Proof.
  unfold __init__. destruct (pystr.contains_char ":" n); [discriminate|].
  intros E. injection E as <-. simpl. auto.
Qed.

Lemma __eq___iff k1 k2 :
  __eq__ k1 k2 = true <->
  name k1 = name k2 /\ subproject k1 = subproject k2 /\ machine k1 = machine k2.
Proof.
  unfold __eq__, tuple_eq, _to_tuple. rewrite bool_decide_eq_true. split.
  - intros E. injection E as Es Em En. apply of_subproject_inj in Es. auto.
  - intros (-> & -> & ->). reflexivity.
Qed.

(** C8, counterexample: the keys [('b', 'x', HOST)] and [('a', 'y', HOST)],
    both built by the constructor.  Compared name first, as the claim
    words it, the first key is not below the second ("b" is above "a");
    [__lt__] answers that it is, because it compares the subproject
    first. *)
Lemma OptionKey_lt_is_not_name_first :
  __init__ example_hash "b" (Some "x") HOST = Return samples.key_b_x /\
  __init__ example_hash "a" (Some "y") HOST = Return samples.key_a_y /\
  spec_lt declaration_order samples.key_b_x samples.key_a_y = Return false /\
  __lt__ declaration_order samples.key_b_x samples.key_a_y = Return true.
Proof. repeat split; reflexivity. Qed.

(** C8, as amended: for keys built by the constructor, [==] holds exactly
    when the three components agree; [<] is the lexicographic order over
    [(subproject, machine, name)], in that component order (the comparison
    of a [None] subproject with a string raises, as in Python); and the
    hash is the one computed at construction from
    [(name, subproject, machine)], so that equal keys have equal hashes. *)
Theorem OptionKey_eq_lt_hash machine_lt hash n1 s1 m1 n2 s2 m2 k1 k2 :
  __init__ hash n1 s1 m1 = Return k1 ->
  __init__ hash n2 s2 m2 = Return k2 ->
  (__eq__ k1 k2 = true <-> n1 = n2 /\ s1 = s2 /\ m1 = m2) /\
  __lt__ machine_lt k1 k2 =
    (if bool_decide (s1 = s2) then
       if bool_decide (m1 = m2) then Return (String.ltb n1 n2)
       else Return (machine_lt m1 m2)
     else component_lt machine_lt (of_subproject s1) (of_subproject s2)) /\
  __hash__ k1 = hash [CStr n1; of_subproject s1; CMachine m1] /\
  (__eq__ k1 k2 = true -> __hash__ k1 = __hash__ k2).
Proof.
  intros H1 H2.
  apply __init___fields in H1 as (N1 & S1 & M1 & Hh1).
  apply __init___fields in H2 as (N2 & S2 & M2 & Hh2).
  split; [|split; [|split]].
  - rewrite __eq___iff, N1, N2, S1, S2, M1, M2. reflexivity.
  - unfold __lt__, _to_tuple. rewrite N1, N2, S1, S2, M1, M2. simpl.
    repeat case_bool_decide; subst;
      repeat match goal with
             | E : of_subproject _ = of_subproject _ |- _ =>
                 apply of_subproject_inj in E
             end;
      try congruence; try reflexivity.
    match goal with E : CStr _ = CStr _ |- _ => injection E as -> end.
    rewrite ltb_irrefl. reflexivity.
  - unfold __hash__. exact Hh1.
  - rewrite __eq___iff, N1, N2, S1, S2, M1, M2. intros (-> & -> & ->).
    unfold __hash__. rewrite Hh1, Hh2. reflexivity.
Qed.

Lemma OptionKey_eq_lt_hash_witness :
  (__eq__ samples.key_b_x samples.key_a_y = true <->
     "b" = "a" /\ Some "x" = Some "y" /\ HOST = HOST) /\
  __lt__ declaration_order samples.key_b_x samples.key_a_y =
    (if bool_decide (Some "x" = Some "y") then
       if bool_decide (HOST = HOST) then Return (String.ltb "b" "a")
       else Return (declaration_order HOST HOST)
     else component_lt declaration_order
            (of_subproject (Some "x")) (of_subproject (Some "y"))) /\
  __hash__ samples.key_b_x =
    example_hash [CStr "b"; of_subproject (Some "x"); CMachine HOST] /\
  (__eq__ samples.key_b_x samples.key_a_y = true -> __hash__ samples.key_b_x = __hash__ samples.key_a_y).
Proof.
  apply (OptionKey_eq_lt_hash declaration_order example_hash
           "b" (Some "x") HOST "a" (Some "y") HOST samples.key_b_x samples.key_a_y);
    reflexivity.
Defined.

End options_facts.

(* ===================================================================== *)
(** * Properties of the #mesondefine expansion                            *)
(* ===================================================================== *)

Module mesonlib_facts.
Import mesonlib.

Lemma get_present confdata name v :
  values confdata !! name = Some v -> get confdata name = Return v.
Proof. unfold get. intros ->. reflexivity. Qed.

Lemma get_absent confdata name :
  values confdata !! name = None -> get confdata name = raise KeyError name.
Proof. unfold get. intros ->. reflexivity. Qed.

Lemma do_mesondefine_tokens line confdata :
  length (pystr.split_ws line) <> 2%nat ->
  do_mesondefine line confdata =
    raise MesonException "#mesondefine does not contain exactly two tokens: %s".
Proof.
  intros Hn. unfold do_mesondefine.
  destruct (Nat.eqb_spec (length (pystr.split_ws line)) 2); [contradiction|].
  reflexivity.
Qed.

Lemma do_mesondefine_lookup line confdata tok NAME :
  pystr.split_ws line = [tok; NAME] ->
  do_mesondefine line confdata =
    match values confdata !! NAME with
    | None => Return ("/* undef " +:+ NAME +:+ " */" +:+ newline)
    | Some (VBool true) => Return ("#define " +:+ NAME +:+ newline)
    | Some (VBool false) => Return ("#undef " +:+ NAME +:+ newline)
    | Some (VInt n) =>
        Return ("#define " +:+ NAME +:+ " " +:+ pystr.of_Z n +:+ newline)
    | Some (VStr s) => Return ("#define " +:+ NAME +:+ " " +:+ s +:+ newline)
    | Some _ =>
        raise MesonException
          ("#mesondefine argument " +:+ pystr.dquote +:+ NAME +:+ pystr.dquote
           +:+ " is of unknown type.")
    end.
Proof.
  intros E. unfold do_mesondefine. rewrite E. simpl.
  unfold get. destruct (values confdata !! NAME) as [v|]; [|reflexivity].
  destruct v as [| [] | | | | |]; reflexivity.
Qed.

(** C3: the expansion of a line that starts with [#mesondefine] in
    [do_conf_file].  A line that does not split into exactly two
    whitespace-separated tokens raises; otherwise, with [NAME] the second
    token: absent gives the [undef] comment, true [#define NAME], false
    [#undef NAME], an integer [#define NAME n], a string [#define NAME s],
    and a value of any other type raises. *)
Theorem mesondefine_expansion fuel line confdata :
  pystr.startswith line "#mesondefine" = true ->
  (length (pystr.split_ws line) <> 2%nat ->
   exists msg, conf_line fuel line confdata = Some (raise MesonException msg)) /\
  (forall tok NAME, pystr.split_ws line = [tok; NAME] ->
   (values confdata !! NAME = None ->
    conf_line fuel line confdata =
      Some (Return ("/* undef " +:+ NAME +:+ " */" +:+ newline))) /\
   (values confdata !! NAME = Some (VBool true) ->
    conf_line fuel line confdata =
      Some (Return ("#define " +:+ NAME +:+ newline))) /\
   (values confdata !! NAME = Some (VBool false) ->
    conf_line fuel line confdata =
      Some (Return ("#undef " +:+ NAME +:+ newline))) /\
   (forall n, values confdata !! NAME = Some (VInt n) ->
    conf_line fuel line confdata =
      Some (Return ("#define " +:+ NAME +:+ " " +:+ pystr.of_Z n +:+ newline))) /\
   (forall s, values confdata !! NAME = Some (VStr s) ->
    conf_line fuel line confdata =
      Some (Return ("#define " +:+ NAME +:+ " " +:+ s +:+ newline))) /\
   (forall v, values confdata !! NAME = Some v ->
    pyval.is_bool v = false -> pyval.is_int v = false -> pyval.is_str v = false ->
    exists msg, conf_line fuel line confdata = Some (raise MesonException msg))).
Proof.
  intros Hstart. unfold conf_line. rewrite Hstart. split.
  - intros Hn. rewrite (do_mesondefine_tokens _ _ Hn). eauto.
  - intros tok NAME E. rewrite (do_mesondefine_lookup _ confdata _ _ E).
    repeat split.
    + intros ->. reflexivity.
    + intros ->. reflexivity.
    + intros ->. reflexivity.
    + intros n ->. reflexivity.
    + intros s ->. reflexivity.
    + intros v -> Hb Hi Hs. destruct v; simpl in *; try discriminate; eauto.
Qed.

Lemma mesondefine_expansion_witness :
  conf_line 0 samples.sample_line samples.sample
  = Some (Return ("#define " +:+ "LEVEL" +:+ " " +:+ pystr.of_Z 3 +:+ newline)).
Proof.
  assert (Hstart : pystr.startswith samples.sample_line "#mesondefine" = true)
    by reflexivity.
  destruct (mesondefine_expansion 0 samples.sample_line samples.sample Hstart) as [_ H].
  destruct (H "#mesondefine" "LEVEL" eq_refl) as (_ & _ & _ & Hint & _).
  apply Hint. reflexivity.
Defined.

End mesonlib_facts.

(* ===================================================================== *)
(** * Properties of expression evaluation                                 *)
(* ===================================================================== *)

Module evaluation_facts.
Import interpreter.

Lemma bind_return {A B} (m : M A) (f : A -> M B) st st1 a :
  m st = (st1, Return a) -> (m ≫= f) st = f a st1.
Proof. intros E. unfold mbind, M_bind. rewrite E. reflexivity. Qed.

Lemma bind_raise {A B} (m : M A) (f : A -> M B) st st1 e :
  m st = (st1, Raise e) -> (m ≫= f) st = (st1, Raise e).
Proof. intros E. unfold mbind, M_bind. rewrite E. reflexivity. Qed.

Lemma len_nonneg {A} (l : list A) : 0 <= len l.
Proof. unfold len. lia. Qed.

(** Python's indexing of a list, inside the bounds. *)
Lemma getitem_in_bounds (l : list Value) (i : Z) :
  - len l <= i < len l ->
  exists x,
    l !! Z.to_nat (if i <? 0 then len l + i else i) = Some x /\
    getitem l i = Return x.
Proof.
  intros Hb. unfold getitem.
  set (j := if i <? 0 then i + len l else i).
  assert (Hj : 0 <= j < len l).
  { subst j. destruct (Z.ltb_spec i 0); lia. }
  assert (Hj' : (if i <? 0 then len l + i else i) = j).
  { subst j. destruct (i <? 0); lia. }
  rewrite Hj'.
  destruct (Z.ltb_spec j 0); [lia|]. destruct (Z.leb_spec (len l) j); [lia|].
  simpl.
  destruct (l !! Z.to_nat j) as [x|] eqn:E.
  - exists x. split; reflexivity.
  - apply lookup_ge_None in E. unfold len in *. lia.
Qed.

Section Indexing.
Variable ev : Node -> M Value.
Variables (node_iobject node_index : Node).


End Indexing.


Lemma add_mismatch l r :
  kind_of l <> kind_of r \/ kind_of l = KOther ->
  exists msg, add l r = raise TypeError msg.
Proof.
  intros Hk. unfold add.
  destruct l as [| [] | | | | |], r as [| [] | | | | |]; simpl in *;
    try (eexists; reflexivity);
    destruct Hk as [Hk|Hk]; try congruence; try discriminate.
Qed.

(** C7, counterexample: [[1] + 2].  The claim makes it the list [[1, 2]];
    the code raises, since Python's [+] does not append to a list. *)
Lemma list_plus_scalar_raises :
  raises_class InvalidCode
    (snd (evaluate_statement samples.list_plus_int example.initial)) /\
  snd (evaluate_statement samples.list_plus_int example.initial)
  <> Return (VList [VInt 1; VInt 2]).
Proof. split; [reflexivity|discriminate]. Qed.

Section Addition.
Variable ev : Node -> M Value.
Variables (node_left node_right : Node).

(** C7, as amended: for the operation [add], whatever evaluates the two
    operands: int+int is the sum (a boolean counts as the integer 1 or 0),
    str+str and list+list are concatenations, and every other combination
    of operands fails with the [InvalidCode] diagnostic "Invalid use of
    addition"; this holds for int+str and likewise for list+scalar, which
    only [+=] appends. *)
Theorem evaluate_addition st st1 st2 l r :
  ev node_left st = (st1, Return l) ->
  ev node_right st1 = (st2, Return r) ->
  (forall a b, pyval.int_value l = Some a -> pyval.int_value r = Some b ->
     evaluate_arithmeticstatement ev "add" node_left node_right st
     = (st2, Return (VInt (a + b)))) /\
  (forall a b, l = VStr a -> r = VStr b ->
     evaluate_arithmeticstatement ev "add" node_left node_right st
     = (st2, Return (VStr (a +:+ b)))) /\
  (forall a b, l = VList a -> r = VList b ->
     evaluate_arithmeticstatement ev "add" node_left node_right st
     = (st2, Return (VList (a ++ b)))) /\
  (kind_of l <> kind_of r \/ kind_of l = KOther ->
     exists msg,
       evaluate_arithmeticstatement ev "add" node_left node_right st
       = (st2, raise InvalidCode ("Invalid use of addition: " +:+ msg))) /\
  (forall a, l = VList a -> pyval.is_list r = false ->
     exists msg,
       evaluate_arithmeticstatement ev "add" node_left node_right st
       = (st2, raise InvalidCode ("Invalid use of addition: " +:+ msg))).
Proof.
  intros H1 H2.
  assert (Hrun : evaluate_arithmeticstatement ev "add" node_left node_right st =
            match add l r with
            | Return v => (st2, Return v)
            | Raise e => (st2, raise InvalidCode
                                 ("Invalid use of addition: " +:+ exn_message e))
            end).
  { unfold evaluate_arithmeticstatement.
    rewrite (bind_return _ _ _ _ _ H1). rewrite (bind_return _ _ _ _ _ H2).
    unfold to_native. simpl. destruct (add l r); reflexivity. }
  assert (Hfail : kind_of l <> kind_of r \/ kind_of l = KOther ->
     exists msg,
       evaluate_arithmeticstatement ev "add" node_left node_right st
       = (st2, raise InvalidCode ("Invalid use of addition: " +:+ msg))).
  { intros Hk. destruct (add_mismatch l r Hk) as (msg & E).
    exists msg. rewrite Hrun, E. reflexivity. }
  repeat split.
  - intros a b Ha Hb. rewrite Hrun.
    destruct l as [| [] | | | | |], r as [| [] | | | | |]; simpl in *;
      try discriminate; injection Ha as <-; injection Hb as <-; reflexivity.
  - intros a b -> ->. rewrite Hrun. reflexivity.
  - intros a b -> ->. rewrite Hrun. reflexivity.
  - exact Hfail.
  - intros a -> Hl. apply Hfail. left.
    destruct r; simpl in *; try discriminate; congruence.
Qed.

End Addition.

Lemma evaluate_addition_witness :
  evaluate_arithmeticstatement evaluate_statement "add"
    (NumberNode 2) (NumberNode 3) example.initial
  = (example.initial, Return (VInt (2 + 3))).
Proof.
  destruct (evaluate_addition evaluate_statement (NumberNode 2) (NumberNode 3)
              example.initial example.initial example.initial (VInt 2) (VInt 3)
              eq_refl eq_refl) as (Hint & _).
  apply Hint; reflexivity.
Defined.

End evaluation_facts.

(* ===================================================================== *)
(** * Properties of the wrap resolver                                     *)
(* ===================================================================== *)

Module wrap_facts.
Import wrap.

Ltac run_inv E :=
  cbv [mret W_ret throw lift raise] in E; inversion E; subst; clear E.

Section Facts.
Context `{Host}.
Variable subdir_root : string.

Lemma W_bind_return {A B} (m : W A) (f : A -> W B) w w1 a :
  m w = (w1, Return a) -> (m ≫= f) w = f a w1.
Proof. intros E. unfold mbind, W_bind. rewrite E. reflexivity. Qed.

Lemma W_bind_raise {A B} (m : W A) (f : A -> W B) w w1 e :
  m w = (w1, Raise e) -> (m ≫= f) w = (w1, Raise e).
Proof. intros E. unfold mbind, W_bind. rewrite E. reflexivity. Qed.

Lemma W_bind_assoc {A B C} (m : W A) (f : A -> W B) (g : B -> W C) w :
  ((m ≫= f) ≫= g) w = (m ≫= fun a => f a ≫= g) w.
Proof.
  unfold mbind, W_bind. destruct (m w) as [w1 [a|e]]; reflexivity.
Qed.

Lemma W_bind_ext {A B} (m : W A) (f g : A -> W B) w :
  (forall a w1, m w = (w1, Return a) -> f a w1 = g a w1) ->
  (m ≫= f) w = (m ≫= g) w.
Proof.
  intros Hfg. unfold mbind, W_bind.
  destruct (m w) as [w1 [a|e]] eqn:E; [apply Hfg; reflexivity|reflexivity].
Qed.

Lemma read_isfile f p c : os.read f p = Return c -> os.isfile f p = true.
Proof.
  unfold os.read, os.isfile, raise.
  destruct (f !! p) as [[]|]; simpl; intros; congruence.
Qed.

Lemma init_isfile f fname p :
  PackageDefinition__init__ f fname = Return p -> os.isfile f fname = true.
Proof.
  unfold PackageDefinition__init__, os.read_text. unfold mbind, outcome_bind.
  destruct (os.read f fname) eqn:E; [|discriminate].
  intros _. eapply read_isfile; eauto.
Qed.

Lemma get_data_ok url resp n w :
  urlopen url = Return resp ->
  content_length resp = Return n ->
  body resp = EmptyString \/ n <> 0 ->
  get_data url w = (mkWorld (fs w) (log w ++ [Download url]), Return (body resp)).
Proof.
  intros Hu Hc Hz. unfold get_data, mbind, W_bind, emit, lift. simpl.
  rewrite Hu. simpl. rewrite Hc. simpl.
  destruct Hz as [Hz|Hz].
  - rewrite Hz. reflexivity.
  - destruct (Z.eqb_spec n 0); [contradiction|].
    rewrite andb_false_r. reflexivity.
Qed.

Lemma download_mismatch p packagename w sf url resp n expected :
  get p "source_filename" = Return sf ->
  os.exists_ (fs w) (os.join (cachedir subdir_root) sf) = false ->
  get p "source_url" = Return url ->
  urlopen url = Return resp ->
  content_length resp = Return n ->
  body resp = EmptyString \/ n <> 0 ->
  get p "source_hash" = Return expected ->
  get_hash (body resp) <> expected ->
  download subdir_root p packagename w =
    (mkWorld (fs w) (log w ++ [Download url]),
     Raise (incorrect_source_hash packagename expected (get_hash (body resp)))).
Proof.
  intros Hsf Hex Hurl Hu Hc Hz Hexp Hne.
  unfold download, mbind, W_bind, lift, get_fs. rewrite Hsf. simpl.
  rewrite Hex. rewrite Hurl. simpl.
  rewrite (get_data_ok url resp n w Hu Hc Hz). simpl.
  rewrite Hexp. simpl.
  destruct (String.eqb_spec (get_hash (body resp)) expected); [contradiction|].
  reflexivity.
Qed.

(** A wrap of type [file] whose source archive is not in the cache.
    When the download succeeds and the SHA-256 of the downloaded bytes is
    not the descriptor's [source_hash], [resolve] raises the "Incorrect hash
    for source" error.  At that point the only call that left the program is
    the download: nothing was written to the cache, where the archive is
    still absent, and no archive was handed to the extractor. *)
Lemma resolve_hash_mismatch packagename w p fs1 sf url resp n expected :
  PackageDefinition__init__ (fs w)
    (os.join subdir_root (packagename +:+ ".wrap")) = Return p ->
  type p = "file" ->
  (if os.isdir (fs w) (cachedir subdir_root) then Return (fs w)
   else os.mkdir (fs w) (cachedir subdir_root)) = Return fs1 ->
  get p "source_filename" = Return sf ->
  os.exists_ fs1 (os.join (cachedir subdir_root) sf) = false ->
  get p "source_url" = Return url ->
  urlopen url = Return resp ->
  content_length resp = Return n ->
  body resp = EmptyString \/ n <> 0 ->
  get p "source_hash" = Return expected ->
  sha256_hexdigest (body resp) <> expected ->
  exists w',
    resolve subdir_root packagename w =
      (w', Raise (incorrect_source_hash packagename expected
                    (sha256_hexdigest (body resp)))) /\
    fs w' = fs1 /\
    os.exists_ (fs w') (os.join (cachedir subdir_root) sf) = false /\
    log w' = log w ++ [Download url] /\
    (forall filename data extract_dir,
       UnpackArchive filename data extract_dir ∉ [Download url]).
Proof.
  intros Hp Hty Hprep Hsf Hex Hurl Hu Hc Hz Hexp Hne.
  exists (mkWorld fs1 (log w ++ [Download url])).
  split; [|repeat split; try assumption].
  - unfold resolve. unfold mbind at 1. unfold W_bind at 1. unfold get_fs at 1.
    rewrite (init_isfile _ _ _ Hp). simpl.
    unfold mbind at 1. unfold W_bind at 1. unfold lift at 1. rewrite Hp.
    rewrite Hty. simpl.
    unfold mbind at 1. unfold W_bind at 1.
    unfold mbind at 1. unfold W_bind at 1.
    unfold mbind at 1. unfold W_bind at 1.
    assert (Hstep :
      (if negb (os.isdir (fs w) (cachedir subdir_root))
       then fs_update (fun f => os.mkdir f (cachedir subdir_root))
       else mret tt) w = (mkWorld fs1 (log w), Return tt)).
    { destruct (os.isdir (fs w) (cachedir subdir_root)); simpl.
      - injection Hprep as <-. destruct w; reflexivity.
      - unfold fs_update. rewrite Hprep. reflexivity. }
    rewrite Hstep.
    rewrite (download_mismatch p packagename (mkWorld fs1 (log w))
               sf url resp n expected); auto.
  - intros filename data extract_dir Hin.
    apply list_elem_of_singleton in Hin. discriminate.
Qed.

Lemma exists_after_mkdir f d f' k :
  os.mkdir f d = Return f' -> os.exists_ f k = true -> os.exists_ f' k = true.
Proof.
  unfold os.mkdir, raise.
  destruct (os.exists_ f d); [discriminate|].
  destruct (negb _ && negb _); [discriminate|].
  intros E. injection E as <-. unfold os.exists_.
  destruct (decide (d = k)) as [->|Hne].
  - rewrite lookup_insert_eq. reflexivity.
  - rewrite lookup_insert_ne by assumption. auto.
Qed.

(** With the archive in the cache, [download] returns at once: the world,
    its files and its log of outside calls, is the one it was given. *)
Lemma download_cached p packagename sf w :
  get p "source_filename" = Return sf ->
  os.exists_ (fs w) (os.join (cachedir subdir_root) sf) = true ->
  download subdir_root p packagename w = (w, Return tt).
Proof.
  intros Hsf Hex. unfold download, mbind, W_bind, lift, get_fs.
  rewrite Hsf. simpl. rewrite Hex. reflexivity.
Qed.

Lemma fs_update_log op w w' (r : outcome unit) :
  fs_update op w = (w', r) -> log w' = log w.
Proof.
  unfold fs_update. destruct (op (fs w)); intros E; injection E as <- <-; reflexivity.
Qed.

Lemma unpack_archive_log filename extract_dir w w' r :
  unpack_archive filename extract_dir w = (w', r) ->
  exists e, is_unpack e /\ log w' = log w ++ [e].
Proof.
  unfold unpack_archive, mbind, W_bind, get_fs, emit, lift. simpl.
  destruct (os.read (fs w) filename) as [data|e]; simpl.
  - destruct (fs_update _ _) as [w1 r1] eqn:E. apply fs_update_log in E.
    simpl in E.
    intros E'. exists (UnpackArchive filename
       match fs w !! filename with Some (os.FFile d) => Some d | _ => None end
       extract_dir).
    split; [exact I|].
    destruct r1; run_inv E'; exact E.
  - intros E'. run_inv E'. simpl. eexists. split; [|reflexivity]. exact I.
Qed.

Lemma extract_package_log package w w' r :
  extract_package subdir_root package w = (w', r) ->
  exists evs, Forall is_unpack evs /\ log w' = log w ++ evs.
Proof.
  unfold extract_package. unfold mbind at 1. unfold W_bind at 1. unfold lift at 1.
  destruct (get package "directory") as [directory|e]; simpl.
  2:{ intros E. run_inv E. exists []. rewrite app_nil_r. auto. }
  unfold mbind at 1. unfold W_bind at 1. unfold get_fs at 1.
  destruct (os.isdir (fs w) (os.join subdir_root directory)).
  { intros E. run_inv E. exists []. rewrite app_nil_r. auto. }
  unfold mbind at 1. unfold W_bind at 1.
  match goal with
  | |- (match ?c with _ => _ end) = _ -> _ => destruct c as [w1 r1] eqn:E1
  end.
  assert (Hl1 : log w1 = log w).
  { destruct (get package "lead_directory_missing").
    - unfold mbind, W_bind in E1.
      destruct (fs_update _ w) as [w2 r2] eqn:E. apply fs_update_log in E.
      destruct r2; run_inv E1; exact E.
    - run_inv E1. reflexivity. }
  clear E1. rename Hl1 into E1. destruct r1 as [extract_dir|e].
  2:{ intros E. run_inv E. exists []. rewrite app_nil_r. auto. }
  unfold mbind at 1. unfold W_bind at 1. unfold lift at 1.
  destruct (get package "source_filename") as [sf|e]; simpl.
  2:{ intros E. run_inv E. exists []. rewrite app_nil_r. auto. }
  unfold mbind at 1. unfold W_bind at 1.
  destruct (unpack_archive _ _ w1) as [w2 r2] eqn:E2.
  apply unpack_archive_log in E2 as (e2 & He2 & Hl2).
  destruct r2.
  2:{ intros E. run_inv E. exists [e2]. rewrite Hl2, E1. auto. }
  destruct (has_patch package).
  2:{ intros E. run_inv E. exists [e2]. rewrite Hl2, E1. auto. }
  unfold mbind at 1. unfold W_bind at 1. unfold lift at 1.
  destruct (get package "patch_filename") as [pf|e]; simpl.
  2:{ intros E. run_inv E. exists [e2]. rewrite Hl2, E1. auto. }
  intros E3. apply unpack_archive_log in E3 as (e3 & He3 & Hl3).
  exists [e2; e3]. rewrite Hl3, Hl2, E1, <- app_assoc. auto.
Qed.

Lemma get_data_log url w w' r :
  get_data url w = (w', r) ->
  fs w' = fs w /\ exists e, is_download e /\ log w' = log w ++ [e].
Proof.
  unfold get_data, mbind, W_bind, emit, lift. simpl.
  destruct (urlopen url) as [resp|e]; simpl.
  2:{ intros E. run_inv E. simpl. split; [reflexivity|]. eexists. split; [|reflexivity]. exact I. }
  destruct (content_length resp) as [n|e]; simpl.
  2:{ intros E. run_inv E. simpl. split; [reflexivity|]. eexists. split; [|reflexivity]. exact I. }
  destruct (negb _ && _); intros E; run_inv E; simpl;
    (split; [reflexivity|]); eexists; (split; [|reflexivity]); exact I.
Qed.

Lemma write_lookup f p data f' :
  os.write f p data = Return f' -> f' !! p = Some (os.FFile data).
Proof.
  unfold os.write, raise. destruct (os.isdir f p); [discriminate|].
  destruct (negb _ && negb _); [discriminate|].
  intros E. injection E as <-. apply lookup_insert_eq.
Qed.

(** What [download] leaves behind when the archive was not in the cache:
    only downloads left the program, and if the method returned, the cache
    holds bytes whose digest is [source_hash]. *)
Lemma download_fresh p packagename sf expected w w' r :
  get p "source_filename" = Return sf ->
  os.exists_ (fs w) (os.join (cachedir subdir_root) sf) = false ->
  get p "source_hash" = Return expected ->
  download subdir_root p packagename w = (w', r) ->
  (exists evs, Forall is_download evs /\ log w' = log w ++ evs) /\
  (forall u, r = Return u ->
     exists data,
       fs w' !! os.join (cachedir subdir_root) sf = Some (os.FFile data) /\
       sha256_hexdigest data = expected).
Proof.
  intros Hsf Hex Hexp. unfold download.
  rewrite (W_bind_return (lift _) _ w w sf) by (unfold lift; rewrite Hsf; reflexivity).
  rewrite (W_bind_return get_fs _ w w (fs w) eq_refl). rewrite Hex.
  unfold mbind at 1. unfold W_bind at 1. unfold lift at 1.
  destruct (get p "source_url") as [srcurl|e].
  2:{ intros E. run_inv E. split; [exists []; rewrite app_nil_r; auto|discriminate]. }
  unfold mbind at 1. unfold W_bind at 1.
  destruct (get_data srcurl w) as [w1 r1] eqn:E1.
  apply get_data_log in E1 as (Hfs1 & e1 & He1 & Hl1).
  destruct r1 as [srcdata|e].
  2:{ intros E. run_inv E. split; [exists [e1]; auto|discriminate]. }
  rewrite (W_bind_return (lift _) _ w1 w1 expected) by (unfold lift; rewrite Hexp; reflexivity).
  unfold get_hash.
  destruct (String.eqb_spec (sha256_hexdigest srcdata) expected) as [Hh|Hh]; simpl.
  2:{ intros E. run_inv E. split; [exists [e1]; auto|discriminate]. }
  unfold mbind at 1. unfold W_bind at 1.
  match goal with
  | |- (match ?c with _ => _ end) = _ -> _ => destruct c as [w2 r2] eqn:E2
  end.
  assert (Hl2 : exists evs, Forall is_download evs /\ log w2 = log w ++ evs).
  { destruct (has_patch p).
    - revert E2. unfold mbind at 1. unfold W_bind at 1. unfold lift at 1.
      destruct (get p "patch_url") as [purl|e].
      2:{ intros E. run_inv E. exists [e1]; auto. }
      unfold mbind at 1. unfold W_bind at 1.
      destruct (get_data purl w1) as [w3 r3] eqn:E3.
      apply get_data_log in E3 as (Hfs3 & e3 & He3 & Hl3).
      assert (Hboth : Forall is_download [e1; e3] /\ log w3 = log w ++ [e1; e3]).
      { split; [auto|]. rewrite Hl3, Hl1, <- app_assoc. reflexivity. }
      destruct r3 as [pdata|e].
      2:{ intros E. run_inv E. eauto. }
      unfold mbind at 1. unfold W_bind at 1. unfold lift at 1.
      destruct (get p "patch_hash") as [pexp|e].
      2:{ intros E. run_inv E. eauto. }
      destruct (negb _).
      { intros E. run_inv E. eauto. }
      unfold mbind at 1. unfold W_bind at 1. unfold lift at 1.
      destruct (get p "patch_filename") as [pf|e].
      2:{ intros E. run_inv E. eauto. }
      intros E. apply fs_update_log in E. rewrite E. eauto.
    - run_inv E2. exists [e1]; auto. }
  destruct Hl2 as (evs & Hevs & Hl2).
  destruct r2 as [[]|e].
  2:{ intros E. run_inv E. split; [eauto|discriminate]. }
  intros E. pose proof (fs_update_log _ _ _ _ E) as Hl3.
  split; [exists evs; rewrite Hl3; auto|].
  intros u ->. exists srcdata. split; [|exact Hh].
  unfold fs_update in E.
  destruct (os.write (fs w2) (os.join (cachedir subdir_root) sf) srcdata) eqn:Ew;
    [|discriminate].
  run_inv E. simpl. eapply write_lookup; eauto.
Qed.

Lemma mkdir_lookup f d f' k x :
  os.mkdir f d = Return f' -> f !! k = Some x -> f' !! k = Some x.
Proof.
  unfold os.mkdir, raise, os.exists_.
  destruct (f !! d) eqn:Ed; [discriminate|].
  destruct (negb _ && negb _); [discriminate|].
  intros E Hk. injection E as <-.
  rewrite lookup_insert_ne; [exact Hk|]. intros ->. congruence.
Qed.

(** The first archive that [extract_package] hands to the extractor is the
    source archive, with the bytes the cache holds for it. *)
Lemma extract_package_first package sf data w w' r :
  get package "source_filename" = Return sf ->
  fs w !! os.join (cachedir subdir_root) sf = Some (os.FFile data) ->
  extract_package subdir_root package w = (w', r) ->
  exists evs,
    log w' = log w ++ evs /\
    (evs = [] \/
     exists extract_dir rest,
       evs = UnpackArchive (os.join (cachedir subdir_root) sf) (Some data)
               extract_dir :: rest).
Proof.
  intros Hsf Hdata. unfold extract_package.
  unfold mbind at 1. unfold W_bind at 1. unfold lift at 1.
  destruct (get package "directory") as [directory|e]; simpl.
  2:{ intros E. run_inv E. exists []. rewrite app_nil_r. auto. }
  unfold mbind at 1. unfold W_bind at 1. unfold get_fs at 1.
  destruct (os.isdir (fs w) (os.join subdir_root directory)).
  { intros E. run_inv E. exists []. rewrite app_nil_r. auto. }
  unfold mbind at 1. unfold W_bind at 1.
  match goal with
  | |- (match ?c with _ => _ end) = _ -> _ => destruct c as [w1 r1] eqn:E1
  end.
  assert (H1 : log w1 = log w /\
               (forall x, r1 = Return x ->
                  fs w1 !! os.join (cachedir subdir_root) sf = Some (os.FFile data))).
  { destruct (get package "lead_directory_missing").
    - unfold mbind, W_bind in E1.
      destruct (fs_update _ w) as [w2 r2] eqn:E.
      pose proof (fs_update_log _ _ _ _ E) as Hl.
      unfold fs_update in E.
      destruct (os.mkdir (fs w) (os.join subdir_root directory)) eqn:Emk.
      + run_inv E. run_inv E1. split; [reflexivity|]. intros _ _. simpl.
        eapply mkdir_lookup; eauto.
      + run_inv E. run_inv E1. split; [reflexivity|]. discriminate.
    - run_inv E1. split; [reflexivity|]. auto. }
  destruct H1 as [Hl1 Hfs1]. clear E1.
  destruct r1 as [extract_dir|e].
  2:{ intros E. run_inv E. exists []. rewrite app_nil_r. auto. }
  specialize (Hfs1 extract_dir eq_refl).
  rewrite (W_bind_return (lift _) _ w1 w1 sf) by (unfold lift; rewrite Hsf; reflexivity).
  unfold mbind at 1. unfold W_bind at 1.
  destruct (unpack_archive (os.join (cachedir subdir_root) sf) extract_dir w1)
    as [w2 r2] eqn:E2.
  assert (Hl2 : log w2 = log w ++
            [UnpackArchive (os.join (cachedir subdir_root) sf) (Some data) extract_dir]).
  { revert E2. unfold unpack_archive, mbind, W_bind, get_fs, emit, lift. simpl.
    rewrite Hfs1. unfold os.read. rewrite Hfs1. simpl.
    destruct (fs_update _ _) as [w3 r3] eqn:E3. apply fs_update_log in E3.
    simpl in E3. destruct r3; intros E; run_inv E; rewrite E3, Hl1; reflexivity. }
  destruct r2 as [[]|e].
  2:{ intros E. run_inv E. eexists. split; [exact Hl2|]. right. eauto. }
  destruct (has_patch package).
  2:{ intros E. run_inv E. eexists. split; [exact Hl2|]. right. eauto. }
  unfold mbind at 1. unfold W_bind at 1. unfold lift at 1.
  destruct (get package "patch_filename") as [pf|e]; simpl.
  2:{ intros E. run_inv E. eexists. split; [exact Hl2|]. right. eauto. }
  intros E3. apply unpack_archive_log in E3 as (e3 & He3 & Hl3).
  eexists. split; [rewrite Hl3, Hl2, <- app_assoc; reflexivity|].
  right. simpl. eauto.
Qed.

Lemma first_unpack_downloads ds evs :
  Forall is_download ds -> first_unpack (ds ++ evs) = first_unpack evs.
Proof.
  induction 1 as [|e ds He _ IH]; [reflexivity|].
  destruct e; simpl in *; try contradiction. exact IH.
Qed.

Lemma first_unpack_only_downloads ds :
  Forall is_download ds -> first_unpack ds = None.
Proof.
  intros Hd. rewrite <- (app_nil_r ds). rewrite first_unpack_downloads by assumption.
  reflexivity.
Qed.

(** C2: a wrap of type [file] whose source archive is not in the cache
    when [resolve] has made sure that the cache directory exists.
    (1) When the archive is downloaded and its SHA-256 is not the
    descriptor's [source_hash], [resolve] raises the "Incorrect hash for
    source" error; the download is then the only call that left the program:
    no archive was handed to the extractor, and the cache, untouched, still
    lacks the archive.
    (2) In every run, the first archive handed to the extractor, if there is
    one, is the cached source archive and holds bytes whose SHA-256 is
    [source_hash]. *)
Theorem resolve_verifies_download packagename w p fs1 sf expected :
  PackageDefinition__init__ (fs w)
    (os.join subdir_root (packagename +:+ ".wrap")) = Return p ->
  type p = "file" ->
  (if os.isdir (fs w) (cachedir subdir_root) then Return (fs w)
   else os.mkdir (fs w) (cachedir subdir_root)) = Return fs1 ->
  get p "source_filename" = Return sf ->
  os.exists_ fs1 (os.join (cachedir subdir_root) sf) = false ->
  get p "source_hash" = Return expected ->
  (forall url resp n,
     get p "source_url" = Return url ->
     urlopen url = Return resp ->
     content_length resp = Return n ->
     body resp = EmptyString \/ n <> 0 ->
     sha256_hexdigest (body resp) <> expected ->
     exists w',
       resolve subdir_root packagename w =
         (w', Raise (incorrect_source_hash packagename expected
                       (sha256_hexdigest (body resp)))) /\
       fs w' = fs1 /\
       os.exists_ (fs w') (os.join (cachedir subdir_root) sf) = false /\
       log w' = log w ++ [Download url] /\
       first_unpack [Download url] = None) /\
  (forall w' r,
     resolve subdir_root packagename w = (w', r) ->
     exists evs,
       log w' = log w ++ evs /\
       match first_unpack evs with
       | None => True
       | Some (filename, data) =>
           filename = os.join (cachedir subdir_root) sf /\
           exists d, data = Some d /\ sha256_hexdigest d = expected
       end).
Proof.
  intros Hp Hty Hprep Hsf Hex Hexp. split.
  - intros url resp n Hurl Hu Hc Hz Hne.
    destruct (resolve_hash_mismatch packagename w p fs1 sf url resp n expected)
      as (w' & Hr & Hf & He & Hl & _); auto.
    exists w'. repeat split; auto.
  - intros w' r. unfold resolve.
    rewrite (W_bind_return get_fs _ w w (fs w) eq_refl).
    rewrite (init_isfile _ _ _ Hp). simpl.
    rewrite (W_bind_return (lift _) _ w w p) by (unfold lift; rewrite Hp; reflexivity).
    rewrite Hty. simpl.
    assert (Hstep :
      (if negb (os.isdir (fs w) (cachedir subdir_root))
       then fs_update (fun f => os.mkdir f (cachedir subdir_root))
       else mret tt) w = (mkWorld fs1 (log w), Return tt)).
    { destruct (os.isdir (fs w) (cachedir subdir_root)); simpl.
      - injection Hprep as <-. destruct w; reflexivity.
      - unfold fs_update. rewrite Hprep. reflexivity. }
    rewrite W_bind_assoc. rewrite (W_bind_return _ _ _ _ _ Hstep).
    rewrite W_bind_assoc.
    unfold mbind at 1. unfold W_bind at 1.
    destruct (download subdir_root p packagename (mkWorld fs1 (log w)))
      as [w2 r2] eqn:Ed.
    destruct (download_fresh p packagename sf expected
                (mkWorld fs1 (log w)) w2 r2 Hsf Hex Hexp Ed)
      as ((evd & Hevd & Hld) & Hdata).
    simpl in Hld.
    destruct r2 as [[]|e].
    2:{ intros E. run_inv E. exists evd. split; [exact Hld|].
        rewrite first_unpack_only_downloads by assumption. exact I. }
    destruct (Hdata tt eq_refl) as (data & Hfile & Hsha).
    unfold mbind at 1. unfold W_bind at 1.
    destruct (extract_package subdir_root p w2) as [w3 r3] eqn:Ee.
    destruct (extract_package_first p sf data _ _ _ Hsf Hfile Ee)
      as (eve & Hle & Hfirst).
    assert (Hall : log w3 = log w ++ (evd ++ eve)).
    { rewrite Hle, Hld, <- app_assoc. reflexivity. }
    assert (Hgoal :
      match first_unpack (evd ++ eve) with
      | None => True
      | Some (filename, data0) =>
          filename = os.join (cachedir subdir_root) sf /\
          exists d, data0 = Some d /\ sha256_hexdigest d = expected
      end).
    { rewrite first_unpack_downloads by assumption.
      destruct Hfirst as [->|(x & rest & ->)]; simpl; [exact I|].
      split; [reflexivity|]. eauto. }
    destruct r3 as [[]|e].
    2:{ intros E. run_inv E. eauto. }
    unfold mbind, W_bind, lift. destruct (get p "directory"); simpl;
      intros E; run_inv E; eauto.
Qed.

Lemma resolve_cached_pipeline packagename w p sf :
  PackageDefinition__init__ (fs w)
    (os.join subdir_root (packagename +:+ ".wrap")) = Return p ->
  type p = "file" ->
  get p "source_filename" = Return sf ->
  os.exists_ (fs w) (os.join (cachedir subdir_root) sf) = true ->
  resolve subdir_root packagename w =
    ((if negb (os.isdir (fs w) (cachedir subdir_root))
      then fs_update (fun f => os.mkdir f (cachedir subdir_root))
      else mret tt) ≫= fun _ =>
     extract_package subdir_root p ≫= fun _ =>
     lift (get p "directory") ≫= fun directory =>
     mret (Some directory)) w.
Proof.
  intros Hp Hty Hsf Hex. unfold resolve.
  rewrite (W_bind_return get_fs _ w w (fs w) eq_refl).
  rewrite (init_isfile _ _ _ Hp). simpl.
  rewrite (W_bind_return (lift _) _ w w p) by (unfold lift; rewrite Hp; reflexivity).
  rewrite Hty. simpl.
  rewrite W_bind_assoc. apply W_bind_ext. intros [] w1 Eprep.
  assert (Hex1 : os.exists_ (fs w1) (os.join (cachedir subdir_root) sf) = true).
  { destruct (os.isdir (fs w) (cachedir subdir_root)); simpl in Eprep.
    - run_inv Eprep. exact Hex.
    - unfold fs_update in Eprep.
      destruct (os.mkdir (fs w) (cachedir subdir_root)) eqn:Emk;
        run_inv Eprep; simpl.
      eapply exists_after_mkdir; eauto. }
  rewrite W_bind_assoc.
  rewrite (W_bind_return _ _ w1 w1 tt (download_cached p packagename sf w1 Hsf Hex1)).
  reflexivity.
Qed.

Lemma get_raises p key e : get p key = Raise e -> exn_class_of e = KeyError.
Proof.
  unfold get, raise. destruct (values p !! key); [discriminate|].
  intros [= <-]. reflexivity.
Qed.

Lemma read_raises f p e :
  os.read f p = Raise e ->
  exn_class_of e = OSError \/ exn_class_of e = FileNotFoundError.
Proof.
  unfold os.read, raise. destruct (f !! p) as [[]|]; [discriminate| |];
    intros [= <-]; auto.
Qed.

Lemma mkdir_raises f p e :
  os.mkdir f p = Raise e ->
  exn_class_of e = OSError \/ exn_class_of e = FileNotFoundError.
Proof.
  unfold os.mkdir, raise. destruct (os.exists_ f p); [intros [= <-]; auto|].
  destruct (negb _ && negb _); [intros [= <-]; auto|discriminate].
Qed.

Lemma unpack_archive_raises filename extract_dir w w' e :
  unpack_archive filename extract_dir w = (w', Raise e) ->
  wrapfile.raised_after_download e.
Proof.
  unfold unpack_archive, mbind, W_bind, get_fs, emit, lift. simpl.
  destruct (os.read (fs w) filename) as [data|e0] eqn:Er; simpl.
  - unfold fs_update. simpl.
    destruct (unpack filename data extract_dir (fs w)) eqn:Eu; [discriminate|].
    intros [= _ <-]. right. right. right. unfold wrapfile.raised_by_extractor. eauto.
  - intros [= _ <-]. apply read_raises in Er as [Er|Er];
      unfold wrapfile.raised_after_download; auto.
Qed.

Lemma extract_package_raises package w w' e :
  extract_package subdir_root package w = (w', Raise e) -> wrapfile.raised_after_download e.
Proof.
  unfold extract_package. unfold mbind at 1. unfold W_bind at 1. unfold lift at 1.
  destruct (get package "directory") as [directory|e0] eqn:Ed; simpl.
  2:{ intros [= _ <-]. left. eapply get_raises; eauto. }
  unfold mbind at 1. unfold W_bind at 1. unfold get_fs at 1.
  destruct (os.isdir (fs w) (os.join subdir_root directory)); [discriminate|].
  unfold mbind at 1. unfold W_bind at 1.
  match goal with
  | |- (match ?c with _ => _ end) = _ -> _ => destruct c as [w1 r1] eqn:E1
  end.
  destruct r1 as [extract_dir|e1].
  2:{ intros [= _ <-].
      destruct (get package "lead_directory_missing"); [|discriminate].
      unfold mbind, W_bind, fs_update in E1.
      destruct (os.mkdir (fs w) (os.join subdir_root directory)) eqn:Emk;
        [discriminate|].
      injection E1 as _ <-. apply mkdir_raises in Emk as [Emk|Emk];
        unfold wrapfile.raised_after_download; auto. }
  unfold mbind at 1. unfold W_bind at 1. unfold lift at 1.
  destruct (get package "source_filename") as [sf|e0] eqn:Es; simpl.
  2:{ intros [= _ <-]. left. eapply get_raises; eauto. }
  unfold mbind at 1. unfold W_bind at 1.
  destruct (unpack_archive _ _ w1) as [w2 [[]|e2]] eqn:E2.
  2:{ intros [= _ <-]. eapply unpack_archive_raises; eauto. }
  destruct (has_patch package); [|discriminate].
  unfold mbind at 1. unfold W_bind at 1. unfold lift at 1.
  destruct (get package "patch_filename") as [pf|e0] eqn:Ep; simpl.
  2:{ intros [= _ <-]. left. eapply get_raises; eauto. }
  apply unpack_archive_raises.
Qed.

Lemma resolve_cached_outcome packagename w p sf w' r :
  PackageDefinition__init__ (fs w)
    (os.join subdir_root (packagename +:+ ".wrap")) = Return p ->
  type p = "file" ->
  get p "source_filename" = Return sf ->
  os.exists_ (fs w) (os.join (cachedir subdir_root) sf) = true ->
  resolve subdir_root packagename w = (w', r) ->
  match r with
  | Return d => exists directory, get p "directory" = Return directory
                                  /\ d = Some directory
  | Raise e => wrapfile.raised_after_download e
  end.
Proof.
  intros Hp Hty Hsf Hex.
  rewrite (resolve_cached_pipeline packagename w p sf Hp Hty Hsf Hex).
  unfold mbind at 1. unfold W_bind at 1.
  destruct ((if negb (os.isdir (fs w) (cachedir subdir_root))
             then fs_update (fun f => os.mkdir f (cachedir subdir_root))
             else mret tt) w) as [w1 [[]|e1]] eqn:Eprep.
  2:{ intros [= _ <-]. destruct (negb _); [|discriminate].
      unfold fs_update in Eprep.
      destruct (os.mkdir (fs w) (cachedir subdir_root)) eqn:Emk; [discriminate|].
      injection Eprep as _ <-. apply mkdir_raises in Emk as [Emk|Emk];
        unfold wrapfile.raised_after_download; auto. }
  unfold mbind at 1. unfold W_bind at 1.
  destruct (extract_package subdir_root p w1) as [w2 [[]|e2]] eqn:Eex.
  2:{ intros [= _ <-]. eapply extract_package_raises; eauto. }
  unfold mbind, W_bind, lift.
  destruct (get p "directory") as [directory|e0] eqn:Ed; simpl.
  - intros [= _ <-]. eauto.
  - intros [= _ <-]. left. eapply get_raises; eauto.
Qed.

End Facts.

Lemma extract_package_host (H1 H2 : Host) subdir_root package w :
  @unpack H1 = @unpack H2 ->
  @extract_package H1 subdir_root package w
  = @extract_package H2 subdir_root package w.
Proof.
  intros Hu. unfold extract_package, unpack_archive. rewrite Hu. reflexivity.
Qed.

Lemma hash_mismatch_class packagename e :
  wrapfile.hash_mismatch packagename e -> exn_class_of e = RuntimeError.
Proof. intros (expected & actual & [-> | ->]); reflexivity. Qed.

(** C10: a file with the descriptor's [source_filename] is already in the
    package cache, whatever it holds.
    (1) [download] returns at once and leaves the world as it was given.
    (2) [resolve] behaves as the same method without the download step.
    (3) In every run of [resolve], none of the calls made outside the
    program is a download; when [resolve] returns, it returns the
    descriptor's directory; when it raises, the exception is the [KeyError]
    of a missing key, an error of the file system or what the extractor
    raised, so that neither of the two hash-mismatch errors is raised
    unless the extractor itself raised that very exception.
    (4) The outcome does not depend on the digest function or on what the
    network would deliver: a host with the same extractor gives the same
    run, so that no digest is computed or compared. *)
Theorem resolve_cached_archive `{H : Host} subdir_root packagename w p sf :
  PackageDefinition__init__ (fs w)
    (os.join subdir_root (packagename +:+ ".wrap")) = Return p ->
  type p = "file" ->
  get p "source_filename" = Return sf ->
  os.exists_ (fs w) (os.join (cachedir subdir_root) sf) = true ->
  download subdir_root p packagename w = (w, Return tt) /\
  resolve subdir_root packagename w =
    ((if negb (os.isdir (fs w) (cachedir subdir_root))
      then fs_update (fun f => os.mkdir f (cachedir subdir_root))
      else mret tt) ≫= fun _ =>
     extract_package subdir_root p ≫= fun _ =>
     lift (get p "directory") ≫= fun directory =>
     mret (Some directory)) w /\
  (forall w' r, resolve subdir_root packagename w = (w', r) ->
     (exists evs, Forall is_unpack evs /\ log w' = log w ++ evs) /\
     match r with
     | Return d => exists directory, get p "directory" = Return directory
                                     /\ d = Some directory
     | Raise e => wrapfile.raised_after_download e
                  /\ (wrapfile.hash_mismatch packagename e -> wrapfile.raised_by_extractor e)
     end) /\
  (forall H' : Host,
     @unpack H' = @unpack H ->
     @resolve H' subdir_root packagename w = @resolve H subdir_root packagename w).
Proof.
  intros Hp Hty Hsf Hex.
  pose proof (resolve_cached_pipeline subdir_root packagename w p sf Hp Hty Hsf Hex)
    as Hres.
  split; [apply (download_cached subdir_root p packagename sf w Hsf Hex)|].
  split; [exact Hres|]. split.
  - intros w' r Hr. split.
    + revert Hr. rewrite Hres.
      unfold mbind at 1. unfold W_bind at 1.
      destruct ((if negb (os.isdir (fs w) (cachedir subdir_root))
                 then fs_update (fun f => os.mkdir f (cachedir subdir_root))
                 else mret tt) w) as [w1 r1] eqn:Eprep.
      assert (Hl1 : log w1 = log w).
      { destruct (negb _).
        - eapply fs_update_log; eauto.
        - injection Eprep as <-. reflexivity. }
      destruct r1 as [[]|e].
      2:{ intros E. run_inv E. exists []. rewrite app_nil_r. auto. }
      unfold mbind at 1. unfold W_bind at 1.
      destruct (extract_package subdir_root p w1) as [w2 r2] eqn:Eex.
      apply extract_package_log in Eex as (evs & Hevs & Hl2).
      rewrite Hl1 in Hl2.
      destruct r2 as [[]|e].
      2:{ intros E. run_inv E. exists evs. auto. }
      unfold mbind, W_bind, lift. destruct (get p "directory"); simpl;
        intros E; run_inv E; exists evs; auto.
    + pose proof (resolve_cached_outcome subdir_root packagename w p sf w' r
                    Hp Hty Hsf Hex Hr) as Ho.
      destruct r as [d|e]; [exact Ho|]. split; [exact Ho|].
      intros Hm. apply hash_mismatch_class in Hm.
      destruct Ho as [Hc|[Hc|[Hc|Hx]]]; [congruence..|exact Hx].
  - intros H' Hu. rewrite Hres.
    rewrite (@resolve_cached_pipeline H' subdir_root packagename w p sf Hp Hty Hsf Hex).
    unfold mbind, W_bind.
    destruct ((if negb (os.isdir (fs w) (cachedir subdir_root))
               then fs_update (fun f => os.mkdir f (cachedir subdir_root))
               else mret tt) w) as [w1 [[]|e1]]; [|reflexivity].
    rewrite (extract_package_host H' H subdir_root p w1 Hu). reflexivity.
Qed.

Lemma resolve_verifies_download_witness :
  exists w',
    resolve "/src/subprojects" "zlib" example.fresh_world =
      (w', Raise (incorrect_source_hash "zlib" "sha256:XYZ"
                    (sha256_hexdigest "ABC"))) /\
    fs w' = example.cache_created /\
    os.exists_ (fs w') (os.join (cachedir "/src/subprojects") "zlib.tar") = false /\
    log w' = log example.fresh_world ++ [Download "https://example.org/zlib.tar"] /\
    first_unpack [Download "https://example.org/zlib.tar"] = None.
Proof.
  refine (proj1 (resolve_verifies_download "/src/subprojects" "zlib"
            example.fresh_world example.zlib_wrap example.cache_created
            "zlib.tar" "sha256:XYZ" _ _ _ _ _ _)
            "https://example.org/zlib.tar" (mkResponse (Return 3) "ABC") 3
            _ _ _ _ _);
    try (vm_compute; reflexivity).
  - right. lia.
  - vm_compute. discriminate.
Defined.

Lemma resolve_cached_archive_witness :
  download "/src/subprojects" example.zlib_wrap "zlib" example.cached_world
  = (example.cached_world, Return tt)
  /\ match snd (resolve "/src/subprojects" "zlib" example.cached_world) with
     | Return d => exists directory,
                     get example.zlib_wrap "directory" = Return directory
                     /\ d = Some directory
     | Raise e => wrapfile.raised_after_download e
                  /\ (wrapfile.hash_mismatch "zlib" e ->
                      wrapfile.raised_by_extractor e)
     end.
Proof.
  destruct (resolve_cached_archive "/src/subprojects" "zlib"
              example.cached_world example.zlib_wrap "zlib.tar")
    as (Hd & _ & Hrun & _); try (vm_compute; reflexivity).
  split; [exact Hd|].
  apply (Hrun (fst (resolve "/src/subprojects" "zlib" example.cached_world))).
  apply surjective_pairing.
Defined.

End wrap_facts.

(* ===================================================================== *)
(** * Properties of the interpreter's built-in functions                  *)
(* ===================================================================== *)

Module interpreter_facts.
Import interpreter.
Export evaluation_facts.

(** ** Computations that keep a relation between states *)

Section Preserves.
Variable R : State -> State -> Prop.
Context {R_refl : Reflexive R} {R_trans : Transitive R}.

Lemma preserves_ret {A} (a : A) : preserves R (mret a).
Proof. intros st st' r E. injection E as <- _. reflexivity. Qed.

Lemma preserves_throw {A} c msg : preserves R (@throw A c msg).
Proof. intros st st' r E. injection E as <- _. reflexivity. Qed.

Lemma preserves_lift {A} (x : outcome A) : preserves R (lift x).
Proof. intros st st' r E. injection E as <- _. reflexivity. Qed.

Lemma preserves_get_state : preserves R get_state.
Proof. intros st st' r E. injection E as <- _. reflexivity. Qed.

Lemma preserves_dangling {A} : preserves R (@dangling A).
Proof. apply preserves_throw. Qed.

Lemma preserves_bind {A B} (m : M A) (f : A -> M B) :
  preserves R m -> (forall a, preserves R (f a)) -> preserves R (m ≫= f).
Proof.
  intros Hm Hf st st' r. unfold mbind, M_bind.
  destruct (m st) as [st1 [a|e]] eqn:E.
  - intros E'. etransitivity; [eapply Hm; eauto|eapply Hf; eauto].
  - intros E'. injection E' as <- _. eapply Hm; eauto.
Qed.

Lemma preserves_modify f : (forall st, R st (f st)) -> preserves R (modify f).
Proof. intros Hf st st' r E. injection E as <- _. apply Hf. Qed.

Lemma preserves_stringArgs args : preserves R (stringArgs args).
Proof. apply preserves_lift. Qed.

Lemma preserves_noKwargs kwargs : preserves R (noKwargs kwargs).
Proof.
  unfold noKwargs. destruct (negb _); [apply preserves_throw|apply preserves_ret].
Qed.

End Preserves.

Global Instance used_kept_refl : Reflexive used_kept.
Proof. intros st ref held E. exact E. Qed.

Global Instance used_kept_trans : Transitive used_kept.
Proof. intros a b c Hab Hbc ref held E. apply Hbc, Hab, E. Qed.

Global Instance frozen_kept_refl : Reflexive frozen_kept.
Proof. intros st E. exact E. Qed.

Global Instance frozen_kept_trans : Transitive frozen_kept.
Proof. intros a b c Hab Hbc E. apply Hbc, Hab, E. Qed.

Global Instance same_self_refl : Reflexive same_self.
Proof. intros st. reflexivity. Qed.

Global Instance same_self_trans : Transitive same_self.
Proof. intros a b c Hab Hbc. unfold same_self in *. congruence. Qed.

Lemma used_kept_same_heap st st' : heap st' = heap st -> used_kept st st'.
Proof. intros Hh ref held. unfold holder_at. rewrite Hh. auto. Qed.

Lemma frozen_kept_same_self st st' : self st' = self st -> frozen_kept st st'.
Proof. intros Hs. unfold frozen_kept. rewrite Hs. auto. Qed.

Lemma used_kept_alloc c o : preserves used_kept (alloc c o).
Proof.
  intros st st' r E. injection E as <- _. intros ref held. unfold holder_at. simpl.
  destruct (heap st !! ref) eqn:El; [|discriminate].
  rewrite (lookup_app_l_Some _ _ _ _ El). auto.
Qed.

Lemma frozen_kept_alloc c o : preserves frozen_kept (alloc c o).
Proof. intros st st' r E. injection E as <- _. apply frozen_kept_same_self. reflexivity. Qed.

Lemma used_kept_mark_used ref : preserves used_kept (mark_used ref).
Proof.
  intros st st' r. unfold mark_used.
  destruct (holder_at st ref) as [[u held0]|] eqn:Eh.
  - intros E. injection E as <- _. intros ref' held. unfold holder_at in *. simpl.
    destruct (decide (ref = ref')) as [<-|Hne].
    + destruct (heap st !! ref) as [o|] eqn:El; [|discriminate].
      rewrite list_lookup_insert_eq by (eapply lookup_lt_Some; eauto).
      destruct o; try discriminate. intros E. simplify_eq. reflexivity.
    + rewrite list_lookup_insert_ne by assumption. auto.
  - intros E. injection E as <- _. reflexivity.
Qed.

Lemma frozen_kept_mark_used ref : preserves frozen_kept (mark_used ref).
Proof.
  intros st st' r. unfold mark_used.
  destruct (holder_at st ref) as [[u held0]|];
    intros E; injection E as <- _; apply frozen_kept_same_self; reflexivity.
Qed.

(** ** The methods of a configuration holder *)

Lemma validate_args_state ref args st st' r :
  validate_args ref args st = (st', r) -> st' = st.
Proof.
  unfold validate_args, dangling, throw.
  destruct (holder_at st ref) as [[u held]|]; [|intros E; injection E as <- _; reflexivity].
  destruct (negb (length args =? 2)%nat); [intros E; injection E as <- _; reflexivity|].
  destruct u; [intros E; injection E as <- _; reflexivity|].
  destruct (negb _); intros E; injection E as <- _; reflexivity.
Qed.

Lemma validate_args_used ref args st held :
  holder_at st ref = Some (true, held) ->
  exists msg, validate_args ref args st = (st, raise InterpreterException msg).
Proof.
  intros Eh. unfold validate_args. rewrite Eh.
  destruct (negb (length args =? 2)%nat); eexists; reflexivity.
Qed.

Lemma validate_args_return ref args st st' name val :
  validate_args ref args st = (st', Return (name, val)) ->
  exists held, holder_at st ref = Some (false, held).
Proof.
  unfold validate_args, dangling, throw.
  destruct (holder_at st ref) as [[u held]|]; [|discriminate].
  destruct (negb (length args =? 2)%nat); [discriminate|].
  destruct u; [discriminate|]. eauto.
Qed.

Lemma store_value_unused ref name val st st' r held :
  holder_at st ref = Some (false, held) ->
  store_value ref name val st = (st', r) ->
  used_kept st st' /\ frozen_kept st st' /\
  holder_at st' ref =
    Some (false, mesonlib.mkConfigurationData (<[name := val]> (mesonlib.values held))).
Proof.
  intros Eh. unfold store_value. rewrite Eh. intros E. injection E as <- _.
  split; [|split].
  - intros ref' held'. unfold holder_at in *. simpl.
    destruct (decide (ref = ref')) as [<-|Hne].
    + destruct (heap st !! ref) as [[]|]; try discriminate.
      intros E. simplify_eq.
    + rewrite list_lookup_insert_ne by assumption. auto.
  - apply frozen_kept_same_self. reflexivity.
  - unfold holder_at in *. simpl.
    destruct (heap st !! ref) as [o|] eqn:El; [|discriminate].
    rewrite list_lookup_insert_eq by (eapply lookup_lt_Some; eauto). reflexivity.
Qed.

Lemma set_method_kept ref args kwargs :
  preserves used_kept (set_method ref args kwargs) /\
  preserves frozen_kept (set_method ref args kwargs).
Proof.
  split; intros st st' r; unfold set_method, mbind, M_bind;
    destruct (validate_args ref args st) as [st1 [[name val]|e]] eqn:Ev;
    pose proof (validate_args_state _ _ _ _ _ Ev) as ->;
    try (intros E; injection E as <- _; reflexivity);
    apply validate_args_return in Ev as (held & Eh);
    destruct (store_value ref name val st) as [st2 r2] eqn:Es;
    destruct (store_value_unused _ _ _ _ _ _ _ Eh Es) as (Hu & Hf & _);
    destruct r2; intros E; injection E as <- _; assumption.
Qed.

Lemma set10_method_kept ref args kwargs :
  preserves used_kept (set10_method ref args kwargs) /\
  preserves frozen_kept (set10_method ref args kwargs).
Proof.
  split; intros st st' r; unfold set10_method, mbind, M_bind;
    destruct (validate_args ref args st) as [st1 [[name val]|e]] eqn:Ev;
    pose proof (validate_args_state _ _ _ _ _ Ev) as ->;
    try (intros E; injection E as <- _; reflexivity);
    apply validate_args_return in Ev as (held & Eh);
    destruct (pyval.truthy val);
    match goal with
    | |- context [store_value ref name ?v st] =>
        destruct (store_value ref name v st) as [st2 r2] eqn:Es;
        destruct (store_value_unused _ _ _ _ _ _ _ Eh Es) as (Hu & Hf & _);
        destruct r2; intros E; injection E as <- _; assumption
    end.
Qed.

Lemma method_call_kept ref method_name args kwargs :
  preserves used_kept (ConfigurationDataHolder_method_call ref method_name args kwargs) /\
  preserves frozen_kept (ConfigurationDataHolder_method_call ref method_name args kwargs).
Proof.
  unfold ConfigurationDataHolder_method_call.
  destruct (String.eqb method_name "set"); [apply set_method_kept|].
  destruct (String.eqb method_name "set10"); [apply set10_method_kept|].
  split; apply preserves_throw; apply _.
Qed.

(** ** The built-in functions keep used holders and the freeze *)

Create HintDb pres.

Ltac pres_modify :=
  apply preserves_modify; intros;
  first [ apply used_kept_same_heap; reflexivity
        | apply frozen_kept_same_self; reflexivity
        | unfold frozen_kept; simpl; auto ].

Ltac pres :=
  repeat first
    [ progress intros
    | apply preserves_ret | apply preserves_throw | apply preserves_lift
    | apply preserves_get_state | apply preserves_stringArgs
    | apply preserves_noKwargs | apply preserves_dangling
    | apply preserves_bind
    | pres_modify
    | match goal with
      | |- preserves _ (if ?b then _ else _) => destruct b
      | |- preserves _ (match ?x with _ => _ end) => destruct x
      end
    | solve [eauto with pres typeclass_instances] ].

Global Hint Resolve used_kept_alloc frozen_kept_alloc
  used_kept_mark_used frozen_kept_mark_used : pres.

Section Builtins.
Context `{Externals}.

Lemma add_target_kept name tobj :
  preserves used_kept (add_target name tobj) /\
  preserves frozen_kept (add_target name tobj).
Proof. unfold add_target. split; pres. Qed.

Lemma source_strings_to_files_kept sources :
  preserves used_kept (source_strings_to_files sources) /\
  preserves frozen_kept (source_strings_to_files sources).
Proof.
  induction sources as [|s rest [IHu IHf]]; simpl; split; pres.
Qed.

Lemma check_sources_exist_kept subdir sources :
  preserves used_kept (check_sources_exist subdir sources) /\
  preserves frozen_kept (check_sources_exist subdir sources).
Proof.
  induction sources as [|s rest [IHu IHf]]; simpl; [split; pres|].
  destruct s; split; pres.
Qed.

Lemma build_target_kept args kwargs targetholder :
  preserves used_kept (build_target args kwargs targetholder) /\
  preserves frozen_kept (build_target args kwargs targetholder).
Proof.
  unfold build_target. destruct args as [|name sources]; [split; pres|].
  pose proof add_target_kept as Ha.
  pose proof source_strings_to_files_kept as Hs.
  pose proof check_sources_exist_kept as Hc.
  split; pres; first [apply Ha | apply Hs | apply Hc].
Qed.

Lemma func_build_target_kept args kwargs :
  preserves used_kept (func_build_target args kwargs) /\
  preserves frozen_kept (func_build_target args kwargs).
Proof.
  unfold func_build_target, func_executable, func_shared_lib, func_static_lib, func_jar.
  pose proof build_target_kept as Hb.
  split; pres; apply Hb.
Qed.

Lemma func_custom_target_kept args kwargs :
  preserves used_kept (func_custom_target args kwargs) /\
  preserves frozen_kept (func_custom_target args kwargs).
Proof.
  unfold func_custom_target. pose proof add_target_kept as Ha.
  split; pres; apply Ha.
Qed.

Lemma func_run_target_kept args kwargs :
  preserves used_kept (func_run_target args kwargs) /\
  preserves frozen_kept (func_run_target args kwargs).
Proof.
  unfold func_run_target. pose proof add_target_kept as Ha.
  split; pres; apply Ha.
Qed.

Lemma register_by_name_kept v :
  preserves used_kept (register_by_name v) /\
  preserves frozen_kept (register_by_name v).
Proof.
  split; intros st st' r; unfold register_by_name;
    destruct (bool_decide _); intros E; injection E as <- _;
    first [reflexivity | apply used_kept_same_heap; reflexivity
          | apply frozen_kept_same_self; reflexivity].
Qed.

Lemma callback_item_kept R `{!Reflexive R, !Transitive R} recurse v :
  (forall c o, preserves R (alloc c o)) ->
  (forall t, preserves R (register_by_name t)) ->
  (forall f, (forall st, heap (f st) = heap st /\ self (f st) = self st) ->
             preserves R (modify f)) ->
  (forall l, v = MList l -> preserves R (recurse v)) ->
  preserves R (callback_item recurse v).
Proof.
  intros Halloc Hreg Hmod Hrec. unfold callback_item.
  destruct v as [|t|z|s|l| |cmd|];
    repeat first
      [ assumption
      | apply preserves_ret | apply preserves_throw | apply preserves_bind
      | apply Halloc | apply Hreg | progress intros
      | match goal with
        | |- preserves _ (match ?x with _ => _ end) => destruct x
        end ].
  - eapply Hrec; reflexivity.
  - apply Hmod. intros st. split; reflexivity.
Qed.

Lemma module_method_callback_preserves R `{!Reflexive R, !Transitive R} :
  (forall c o, preserves R (alloc c o)) ->
  (forall t, preserves R (register_by_name t)) ->
  (forall f, (forall st, heap (f st) = heap st /\ self (f st) = self st) ->
             preserves R (modify f)) ->
  forall invalues, preserves R (module_method_callback invalues).
Proof.
  intros Halloc Hreg Hmod.
  fix IH 1. intros invalues.
  destruct invalues as [|t|z|s|l| |cmd|]; cbn -[callback_item];
    try (apply preserves_bind; try exact _;
         [apply callback_item_kept; auto; intros; discriminate
         |intros outvalues; destruct outvalues as [|? [|? ?]];
          apply preserves_ret; exact _]).
  - apply preserves_ret; exact _.
  - apply preserves_bind; try exact _; [|intros; apply preserves_ret; exact _].
    induction l as [|v rest IHl].
    + apply preserves_ret; exact _.
    + apply preserves_bind; try exact _.
      * apply callback_item_kept; auto.
      * intros out. apply preserves_bind; try exact _;
          [exact IHl|intros; apply preserves_ret; exact _].
Qed.

Lemma module_method_callback_kept invalues :
  preserves used_kept (module_method_callback invalues) /\
  preserves frozen_kept (module_method_callback invalues).
Proof.
  split; apply module_method_callback_preserves;
    try apply _; auto with pres; try apply register_by_name_kept;
    intros f Hf; apply preserves_modify; intros st;
    first [apply used_kept_same_heap; apply Hf
          | apply frozen_kept_same_self; apply Hf].
Qed.

Lemma func_add_global_arguments_kept args kwargs :
  preserves used_kept (func_add_global_arguments args kwargs) /\
  preserves frozen_kept (func_add_global_arguments args kwargs).
Proof. unfold func_add_global_arguments. split; pres. Qed.

Lemma func_configuration_data_kept args kwargs :
  preserves used_kept (func_configuration_data args kwargs) /\
  preserves frozen_kept (func_configuration_data args kwargs).
Proof.
  unfold func_configuration_data, ConfigurationDataHolder__init__. split; pres.
Qed.

Lemma with_fs_kept st f :
  used_kept st (with_fs f st) /\ frozen_kept st (with_fs f st).
Proof.
  split; [apply used_kept_same_heap|apply frozen_kept_same_self]; reflexivity.
Qed.

Lemma makedirs_kept path :
  preserves used_kept (makedirs path) /\ preserves frozen_kept (makedirs path).
Proof.
  split; intros st st' r; unfold makedirs; destruct (os.makedirs _ _);
    intros E; injection E as <- _; first [reflexivity | apply with_fs_kept].
Qed.

Lemma resolve_kept subdir_root dirname :
  preserves used_kept (resolve subdir_root dirname) /\
  preserves frozen_kept (resolve subdir_root dirname).
Proof.
  split; intros st st' r; unfold resolve; destruct (wrap.resolve _ _ _);
    intros E; injection E as <- _; apply with_fs_kept.
Qed.

Lemma RunProcess_kept command_array :
  preserves used_kept (RunProcess command_array) /\
  preserves frozen_kept (RunProcess command_array).
Proof.
  split; intros st st' r; unfold RunProcess; destruct (run_process _ _ _ _);
    intros E; injection E as <- _; apply with_fs_kept.
Qed.

Lemma func_run_command_kept args :
  preserves used_kept (func_run_command args) /\
  preserves frozen_kept (func_run_command args).
Proof.
  unfold func_run_command. pose proof RunProcess_kept as Hr.
  split; pres; apply Hr.
Qed.

Lemma configure_file_finish_kept output kwargs :
  preserves used_kept (configure_file_finish output kwargs) /\
  preserves frozen_kept (configure_file_finish output kwargs).
Proof. unfold configure_file_finish. split; pres. Qed.

Lemma func_configure_file_kept fuel args kwargs st st' o :
  func_configure_file fuel args kwargs st = Some (st', o) ->
  used_kept st st' /\ frozen_kept st st'.
Proof.
  unfold func_configure_file.
  assert (Hrefl : forall s : State, used_kept s s /\ frozen_kept s s)
    by (intros s; split; reflexivity).
  destruct (0 <? length args)%nat; [intros E; simplify_eq; apply Hrefl|].
  destruct (kwargs !! "input") as [inputfile|]; [|intros E; simplify_eq; apply Hrefl].
  destruct (kwargs !! "output") as [output|]; [|intros E; simplify_eq; apply Hrefl].
  destruct (negb (pyval.is_str inputfile)); [intros E; simplify_eq; apply Hrefl|].
  destruct (negb (pyval.is_str output)); [intros E; simplify_eq; apply Hrefl|].
  destruct (kwargs !! "configuration") as [conf|].
  - destruct conf as [| | | | | |c ref]; try (intros E; simplify_eq; apply Hrefl).
    destruct c; try (intros E; simplify_eq; apply Hrefl).
    set (st1 := if bool_decide _ then st else _).
    assert (H1 : used_kept st st1 /\ frozen_kept st st1).
    { subst st1. destruct (bool_decide _); [apply Hrefl|].
      split; [apply used_kept_same_heap; reflexivity|].
      unfold frozen_kept. simpl. auto. }
    destruct (os.makedirs (fs st1) _) as [fs1|e].
    2:{ intros E. simplify_eq. exact H1. }
    assert (H2 : used_kept st (with_fs fs1 st1) /\ frozen_kept st (with_fs fs1 st1)).
    { destruct H1 as [Hu Hf]. destruct (with_fs_kept st1 fs1) as [Hu' Hf'].
      split; etransitivity; eauto. }
    destruct (holder_at (with_fs fs1 st1) ref) as [[u held]|].
    2:{ intros E. unfold dangling, throw in E. simplify_eq. exact H2. }
    destruct (mesonlib.do_conf_file _ _ _ _ _) as [[fs2 [[]|e]]|]; [| |discriminate].
    + intros E. injection E as E.
      assert (H3 : used_kept st (with_fs fs2 (with_fs fs1 st1)) /\
                   frozen_kept st (with_fs fs2 (with_fs fs1 st1))).
      { destruct H2 as [Hu Hf].
        destruct (with_fs_kept (with_fs fs1 st1) fs2) as [Hu' Hf'].
        split; etransitivity; eauto. }
      destruct H3 as [Hu Hf].
      pose proof (configure_file_finish_kept (pyval.str_value output) kwargs) as [Hcu Hcf].
      split; (etransitivity; [eassumption|]).
      * eapply (preserves_bind used_kept); [apply used_kept_mark_used| |exact E].
        intros ?. exact Hcu.
      * eapply (preserves_bind frozen_kept); [apply frozen_kept_mark_used| |exact E].
        intros ?. exact Hcf.
    + intros E. simplify_eq.
      destruct H2 as [Hu Hf].
      destruct (with_fs_kept (with_fs fs1 st1) fs2) as [Hu' Hf'].
      split; etransitivity; eauto.
  - destruct (kwargs !! "command") as [command|]; [|intros E; simplify_eq; apply Hrefl].
    intros E. injection E as E.
    pose proof (func_run_command_kept command) as [Hru Hrf].
    pose proof (configure_file_finish_kept (pyval.str_value output) kwargs) as [Hcu Hcf].
    split.
    + eapply (preserves_bind used_kept); [exact Hru| |exact E].
      intros rc. simpl. destruct (negb (rc =? 0));
        [apply preserves_throw; apply _|exact Hcu].
    + eapply (preserves_bind frozen_kept); [exact Hrf| |exact E].
      intros rc. simpl. destruct (negb (rc =? 0));
        [apply preserves_throw; apply _|exact Hcf].
Qed.

Lemma run_as_kept subi run :
  (preserves used_kept run -> preserves used_kept (run_as subi run)) /\
  preserves frozen_kept (run_as subi run).
Proof.
  split.
  - intros Hrun st st' r. unfold run_as.
    destruct (run (with_self subi st)) as [st1 r1] eqn:E.
    intros E'. injection E' as <- _.
    apply Hrun in E.
    transitivity (with_self subi st); [apply used_kept_same_heap; reflexivity|].
    transitivity st1; [exact E|apply used_kept_same_heap; reflexivity].
  - intros st st' r. unfold run_as.
    destruct (run (with_self subi st)) as [st1 r1].
    intros E'. injection E' as <- _. apply frozen_kept_same_self. reflexivity.
Qed.

Lemma func_subproject_kept init run args kwargs :
  (preserves used_kept run ->
   preserves used_kept (func_subproject init run args kwargs)) /\
  preserves frozen_kept (func_subproject init run args kwargs).
Proof.
  unfold func_subproject.
  pose proof resolve_kept as Hres. pose proof makedirs_kept as Hmk.
  pose proof (fun subi => proj1 (run_as_kept subi run)) as Hru.
  pose proof (fun subi => proj2 (run_as_kept subi run)) as Hrf.
  split; [intros Hrun|]; pres;
    first [apply Hres | apply Hmk | apply Hru; exact Hrun | apply Hrf].
Qed.

Lemma perform_kept init run fuel c st st' o :
  preserves used_kept run ->
  perform init run fuel c st = Some (st', o) ->
  used_kept st st' /\ frozen_kept st st'.
Proof.
  intros Hrun. unfold perform, total.
  assert (Hboth : forall (m : M Value),
    preserves used_kept m /\ preserves frozen_kept m ->
    Some (m st) = Some (st', o) -> used_kept st st' /\ frozen_kept st st').
  { intros m [Hu Hf] E. injection E as E. split; [eapply Hu|eapply Hf]; eauto. }
  destruct c as [func_name posargs kwargs|ref method_name args kwargs|returned].
  - repeat match goal with
           | |- context [if String.eqb func_name ?s then _ else _] =>
               destruct (String.eqb func_name s)
           end;
      try (apply Hboth;
           first [ apply build_target_kept | apply func_build_target_kept
                 | apply func_custom_target_kept | apply func_run_target_kept
                 | apply func_add_global_arguments_kept
                 | apply func_configuration_data_kept
                 | split; apply preserves_throw; apply _ ]).
    + apply func_configure_file_kept.
    + apply Hboth. split; [apply func_subproject_kept; exact Hrun
                          |apply func_subproject_kept].
  - apply Hboth. apply method_call_kept.
  - apply Hboth. apply module_method_callback_kept.
Qed.

(** Across any calls of the running interpreter, the build files of
    subprojects included, a used configuration holder stays used with its
    values, and the freeze of the global arguments stays. *)
Lemma steps_kept st st' :
  steps st st' -> used_kept st st' /\ frozen_kept st st'.
Proof.
  induction 1 as [st|init run fuel c st st1 st2 o _ [IHu IHf] _ IHrun Hperform].
  - split; reflexivity.
  - assert (Hrun : preserves used_kept run).
    { intros s s' r E. apply (IHrun s s' r E). }
    destruct (perform_kept init run fuel c st1 st2 o Hrun Hperform) as [Hu Hf].
    split; etransitivity; eauto.
Qed.

(** ** Used configuration data *)

Lemma mark_used_sets ref st st' :
  mark_used ref st = (st', Return tt) ->
  exists held, holder_at st' ref = Some (true, held).
Proof.
  unfold mark_used, dangling, throw.
  destruct (holder_at st ref) as [[u held]|] eqn:Eh; [|discriminate].
  intros E. injection E as <-. exists held. unfold holder_at in *. simpl.
  destruct (heap st !! ref) as [o|] eqn:El; [|discriminate].
  rewrite list_lookup_insert_eq by (eapply lookup_lt_Some; eauto). reflexivity.
Qed.

Lemma func_configure_file_marks fuel args kwargs st st' v ref :
  kwargs !! "configuration" = Some (VObj ConfigurationDataHolder ref) ->
  func_configure_file fuel args kwargs st = Some (st', Return v) ->
  is_used st' ref = true.
Proof.
  intros Hconf. unfold func_configure_file.
  destruct (0 <? length args)%nat; [discriminate|].
  destruct (kwargs !! "input") as [inputfile|]; [|discriminate].
  destruct (kwargs !! "output") as [output|]; [|discriminate].
  destruct (negb (pyval.is_str inputfile)); [discriminate|].
  destruct (negb (pyval.is_str output)); [discriminate|].
  rewrite Hconf.
  set (st1 := if bool_decide _ then st else _).
  destruct (os.makedirs (fs st1) _) as [fs1|e]; [|discriminate].
  destruct (holder_at (with_fs fs1 st1) ref) as [[u held]|]; [|discriminate].
  destruct (mesonlib.do_conf_file _ _ _ _ _) as [[fs2 [[]|e]]|]; try discriminate.
  intros E. injection E as E. revert E. unfold mbind, M_bind.
  destruct (mark_used ref (with_fs fs2 (with_fs fs1 st1))) as [st2 [[]|e]] eqn:Em;
    [|discriminate].
  apply mark_used_sets in Em as (held' & Eh).
  intros E.
  destruct (configure_file_finish_kept (pyval.str_value output) kwargs) as [Hcu _].
  apply Hcu in E. apply E in Eh.
  unfold is_used. rewrite Eh. reflexivity.
Qed.

(** C4: a configuration-data object, once consumed by [configure_file] with
    [configuration: c], no longer accepts [set] and [set10].
    (1) When [configure_file] returns, [c] is marked used.
    (2) On a used object, [c.set(...)] and [c.set10(...)] raise, whatever
    the arguments, and leave the whole state, the stored values included, as
    it was.
    (3) A used object stays used, with the same values, across every later
    call of the interpreter, the build files of subprojects included.
    (4) Before its use, [set] with a string key and a second argument
    returns and stores the value under the key. *)
Theorem used_configuration_is_immutable :
  (forall fuel args kwargs st st' v ref,
     kwargs !! "configuration" = Some (VObj ConfigurationDataHolder ref) ->
     func_configure_file fuel args kwargs st = Some (st', Return v) ->
     is_used st' ref = true) /\
  (forall st ref args kwargs,
     is_used st ref = true ->
     (exists msg,
        ConfigurationDataHolder_method_call ref "set" args kwargs st
        = (st, raise InterpreterException msg)) /\
     (exists msg,
        ConfigurationDataHolder_method_call ref "set10" args kwargs st
        = (st, raise InterpreterException msg))) /\
  (forall st st' ref held,
     steps st st' ->
     holder_at st ref = Some (true, held) ->
     holder_at st' ref = Some (true, held) /\ is_used st' ref = true) /\
  (forall st ref name val kwargs,
     (exists held, holder_at st ref = Some (false, held)) ->
     exists st' held',
       ConfigurationDataHolder_method_call ref "set" [VStr name; val] kwargs st
       = (st', Return VNone) /\
       holder_at st' ref = Some (false, held') /\
       mesonlib.values held' !! name = Some val).
Proof.
  split; [|split; [|split]].
  - intros. eapply func_configure_file_marks; eauto.
  - intros st ref args kwargs Hused.
    assert (Hh : exists held, holder_at st ref = Some (true, held)).
    { unfold is_used in Hused. destruct (holder_at st ref) as [[[] held]|];
        try discriminate. eauto. }
    destruct Hh as (held & Hh).
    destruct (validate_args_used ref args st held Hh) as (msg & Hv).
    split; exists msg; unfold ConfigurationDataHolder_method_call; simpl;
      unfold set_method, set10_method, mbind, M_bind; rewrite Hv; reflexivity.
  - intros st st' ref held Hsteps Hh.
    apply steps_kept in Hsteps as [Hu _]. apply Hu in Hh.
    split; [exact Hh|]. unfold is_used. rewrite Hh. reflexivity.
  - intros st ref name val kwargs (held & Hh).
    unfold ConfigurationDataHolder_method_call. simpl.
    unfold set_method, mbind, M_bind, validate_args. rewrite Hh. simpl.
    destruct (store_value ref name val st) as [st1 r1] eqn:Es.
    destruct (store_value_unused _ _ _ _ _ _ _ Hh Es) as (_ & _ & Hh1).
    unfold store_value in Es. rewrite Hh in Es. injection Es as <- <-.
    eexists. eexists. split; [reflexivity|]. split; [exact Hh1|].
    simpl. apply lookup_insert_eq.
Qed.

(** ** The freeze of the global arguments *)

Lemma ensures_bind {A B} Q (m : M A) (f : A -> M B) :
  (forall a, ensures Q (f a)) -> ensures Q (m ≫= f).
Proof.
  intros Hf st st' v. unfold mbind, M_bind.
  destruct (m st) as [st1 [a|e]]; [apply Hf|discriminate].
Qed.

Lemma ensures_throw {A} Q c msg : ensures Q (@throw A c msg).
Proof. intros st st' v E. discriminate. Qed.

Ltac ensures_step :=
  match goal with
  | |- ensures _ (throw _ _) => apply ensures_throw
  | |- ensures _ (?m ≫= _) =>
      lazymatch m with
      | modify _ => fail
      | _ => apply ensures_bind; intros
      end
  | |- ensures _ (if ?b then _ else _) => destruct b
  | |- ensures _ (match ?x with _ => _ end) => destruct x
  end.

Lemma build_target_freezes args kwargs targetholder :
  ensures (fun st => global_args_frozen (self st) = true)
          (build_target args kwargs targetholder).
Proof.
  unfold build_target. repeat ensures_step.
  intros s0 s1 v0 E. unfold mbind, M_bind, modify, mret, M_ret in E.
  injection E as <- _. reflexivity.
Qed.

Lemma stringArgs_ok args st :
  forallb pyval.is_str args = true -> stringArgs args st = (st, Return tt).
Proof.
  intros Hs. unfold stringArgs, lift, check_stringlist. rewrite Hs. reflexivity.
Qed.

Lemma stringArgs_bad args st :
  forallb pyval.is_str args = false ->
  stringArgs args st = (st, raise InvalidArguments "Arguments must be strings.").
Proof.
  intros Hs. unfold stringArgs, lift, check_stringlist. rewrite Hs. reflexivity.
Qed.

Lemma noKwargs_empty st : noKwargs ∅ st = (st, Return tt).
Proof. unfold noKwargs. rewrite map_size_empty. reflexivity. Qed.

Lemma module_method_callback_same_self invalues :
  preserves same_self (module_method_callback invalues).
Proof.
  apply module_method_callback_preserves; try apply _.
  - intros c o st st' r E. injection E as <- _. reflexivity.
  - intros t st st' r. unfold register_by_name.
    destruct (bool_decide _); intros E; injection E as <- _; reflexivity.
  - intros f Hf. apply preserves_modify. intros st. apply Hf.
Qed.

Lemma module_executable_registered t st :
  target_type t = Executable ->
  target_name t ∉ (fst <$> targets (build st)) ->
  exists st' ref,
    module_method_callback (MTarget t) st
    = (st', Return (VObj ExecutableHolder ref))
    /\ targets (build st') = targets (build st) ++ [(target_name t, t)]
    /\ self st' = self st.
Proof.
  intros Hty Hfresh. cbn [module_method_callback callback_item]. rewrite Hty.
  unfold mbind, M_bind, register_by_name.
  rewrite bool_decide_eq_false_2 by assumption.
  unfold alloc. cbn. eexists. eexists. split; [reflexivity|]. split; reflexivity.
Qed.

Lemma func_build_target_freezes args kwargs :
  ensures (fun st => global_args_frozen (self st) = true)
          (func_build_target args kwargs).
Proof.
  unfold func_build_target, func_executable, func_shared_lib, func_static_lib,
    func_jar.
  destruct (kwargs !! "target_type") as [target_type|]; [|apply ensures_throw].
  repeat match goal with
         | |- ensures _ (if ?b then _ else _) => destruct b
         end;
    first [apply build_target_freezes|apply ensures_throw].
Qed.

Lemma frozen_after_modify {A} (m : M A) st st' r :
  preserves frozen_kept m ->
  (modify (fun st => with_self (with_global_args_frozen true (self st)) st)
     ≫= fun _ => m) st = (st', r) ->
  global_args_frozen (self st') = true.
Proof.
  intros Hm E. unfold mbind, M_bind, modify in E.
  apply (Hm _ _ _ E). reflexivity.
Qed.

Lemma func_subproject_freezes init run args kwargs st st' v :
  func_subproject init run args kwargs st = (st', Return v) ->
  global_args_frozen (self st') = true
  \/ (st' = st
      /\ subprojects st !! pyval.str_value (nth 0 args VNone) = Some v).
Proof.
  unfold func_subproject.
  unfold mbind at 1. unfold M_bind at 1. unfold stringArgs at 1. unfold lift at 1.
  destruct (check_stringlist args _) as [[]|e]; [|discriminate].
  unfold mbind at 1. unfold M_bind at 1. unfold noKwargs at 1.
  destruct (negb (size kwargs =? 0)%nat); [discriminate|].
  cbn [mret M_ret].
  destruct (negb (length args =? 1)%nat); [discriminate|].
  unfold mbind at 1. unfold M_bind at 1. unfold get_state at 1.
  destruct (negb _ && negb _); [discriminate|].
  destruct (bool_decide _); [discriminate|].
  destruct (subprojects st !! pyval.str_value (nth 0 args VNone)) as [holder|].
  { intros [= <- <-]. right. auto. }
  unfold mbind at 1. unfold M_bind at 1.
  destruct (resolve _ _ st) as [st1 [[resolved|]|e]]; [|discriminate|discriminate].
  unfold mbind at 1. unfold M_bind at 1.
  destruct (makedirs _ st1) as [st2 [[]|e]]; [|discriminate].
  intros E. left. revert E. apply frozen_after_modify.
  pose proof (fun subi => proj2 (run_as_kept subi run)) as Hrf.
  pres; apply Hrf.
Qed.

Lemma add_global_arguments_in_subproject st args kwargs :
  subproject (self st) <> EmptyString ->
  (exists e, func_add_global_arguments args kwargs st = (st, Raise e))
  /\ (forallb pyval.is_str args = true ->
      func_add_global_arguments args kwargs st
      = (st, raise InvalidCode
               "Global arguments can not be set in subprojects because there is no way to make that reliable.")).
Proof.
  intros Hsub.
  assert (Hne : String.eqb (subproject (self st)) EmptyString = false)
    by (apply String.eqb_neq; exact Hsub).
  assert (Hstr : forallb pyval.is_str args = true ->
      func_add_global_arguments args kwargs st
      = (st, raise InvalidCode
               "Global arguments can not be set in subprojects because there is no way to make that reliable.")).
  { intros Hs. unfold func_add_global_arguments.
    rewrite (bind_return _ _ _ _ _ (stringArgs_ok args st Hs)).
    unfold mbind, M_bind, get_state. rewrite Hne. reflexivity. }
  split; [|exact Hstr].
  destruct (forallb pyval.is_str args) eqn:Hs.
  - eexists. apply Hstr. reflexivity.
  - unfold func_add_global_arguments.
    rewrite (bind_raise _ _ _ _ _ (stringArgs_bad args st Hs)).
    eexists. reflexivity.
Qed.

(** C5, as amended: the freeze of the global arguments.
    (1) When [executable], [static_library], [shared_library], [jar] or
    [build_target] has declared a build target, that is when [build_target]
    or [func_build_target] returns, the interpreter's global arguments are
    frozen.
    (2) Once frozen they stay frozen across every later call of that
    interpreter.
    (3) While they are frozen, every call of [add_global_arguments] raises
    and changes nothing; in the root project and with string arguments the
    error is [InvalidCode] "Tried to set global arguments after a build
    target has been declared." followed by the advice to declare them first.
    (4) While they are not frozen, a call in the root project with string
    arguments and a string [language] keyword returns and appends the
    arguments to those of the language.
    (5) A call of [subproject] that returns has either returned the holder
    that was stored for the name and changed nothing, or has frozen the
    global arguments.
    (6) In a subproject every call of [add_global_arguments] raises and
    changes nothing; with string arguments the error is [InvalidCode]
    "Global arguments can not be set in subprojects because there is no way
    to make that reliable."
    (7) What a module method returns never changes the attributes of the
    interpreter: an executable that a module returns under a free name is
    registered in the build under that name, and the global arguments are
    frozen afterwards only if they were before. *)
Theorem global_arguments_freeze :
  (forall args kwargs targetholder st st' v,
     build_target args kwargs targetholder st = (st', Return v) ->
     global_args_frozen (self st') = true) /\
  (forall args kwargs st st' v,
     func_build_target args kwargs st = (st', Return v) ->
     global_args_frozen (self st') = true) /\
  (forall st st',
     steps st st' ->
     global_args_frozen (self st) = true ->
     global_args_frozen (self st') = true) /\
  (forall st args kwargs,
     global_args_frozen (self st) = true ->
     (exists e, func_add_global_arguments args kwargs st = (st, Raise e)) /\
     (forallb pyval.is_str args = true ->
      subproject (self st) = EmptyString ->
      exists rest,
        func_add_global_arguments args kwargs st
        = (st, raise InvalidCode
                 ("Tried to set global arguments after a build target has been declared."
                  +:+ rest)))) /\
  (forall st args kwargs language,
     global_args_frozen (self st) = false ->
     subproject (self st) = EmptyString ->
     forallb pyval.is_str args = true ->
     kwargs !! "language" = Some (VStr language) ->
     exists st',
       func_add_global_arguments args kwargs st = (st', Return VNone) /\
       global_args (build st') !! pystr.lower language
       = Some (default [] (global_args (build st) !! pystr.lower language) ++ args) /\
       global_args_frozen (self st') = false) /\
  (forall init run args kwargs st st' v,
     func_subproject init run args kwargs st = (st', Return v) ->
     global_args_frozen (self st') = true
     \/ (st' = st
         /\ subprojects st !! pyval.str_value (nth 0 args VNone) = Some v)) /\
  (forall st args kwargs,
     subproject (self st) <> EmptyString ->
     (exists e, func_add_global_arguments args kwargs st = (st, Raise e))
     /\ (forallb pyval.is_str args = true ->
         func_add_global_arguments args kwargs st
         = (st, raise InvalidCode
                  "Global arguments can not be set in subprojects because there is no way to make that reliable."))) /\
  (forall invalues st st' r,
     module_method_callback invalues st = (st', r) -> self st' = self st) /\
  (forall t st,
     target_type t = Executable ->
     target_name t ∉ (fst <$> targets (build st)) ->
     exists st' ref,
       module_method_callback (MTarget t) st
       = (st', Return (VObj ExecutableHolder ref))
       /\ targets (build st') = targets (build st) ++ [(target_name t, t)]
       /\ global_args_frozen (self st') = global_args_frozen (self st)).
Proof.
  split; [|split; [|split; [|split; [|split; [|split; [|split; [|split]]]]]]].
  - intros args kwargs targetholder st st' v E.
    exact (build_target_freezes args kwargs targetholder st st' v E).
  - intros args kwargs st st' v E.
    exact (func_build_target_freezes args kwargs st st' v E).
  - intros st st' Hsteps. apply steps_kept in Hsteps as [_ Hf]. exact Hf.
  - intros st args kwargs Hfrozen.
    assert (Hstr : forallb pyval.is_str args = true ->
      subproject (self st) = EmptyString ->
      exists rest,
        func_add_global_arguments args kwargs st
        = (st, raise InvalidCode
                 ("Tried to set global arguments after a build target has been declared."
                  +:+ rest))).
    { intros Hs Hroot. unfold func_add_global_arguments.
      rewrite (bind_return _ _ _ _ _ (stringArgs_ok args st Hs)).
      unfold mbind, M_bind, get_state. rewrite Hroot, Hfrozen. simpl.
      eexists. reflexivity. }
    split; [|exact Hstr].
    destruct (forallb pyval.is_str args) eqn:Hs.
    + destruct (String.eqb (subproject (self st)) EmptyString) eqn:Hroot.
      * apply String.eqb_eq in Hroot. destruct (Hstr eq_refl Hroot) as (rest & E).
        eexists. exact E.
      * unfold func_add_global_arguments.
        rewrite (bind_return _ _ _ _ _ (stringArgs_ok args st Hs)).
        unfold mbind, M_bind, get_state. rewrite Hroot. simpl.
        eexists. reflexivity.
    + unfold func_add_global_arguments.
      rewrite (bind_raise _ _ _ _ _ (stringArgs_bad args st Hs)).
      eexists. reflexivity.
  - intros st args kwargs language Hfrozen Hroot Hs Hlang.
    unfold func_add_global_arguments.
    rewrite (bind_return _ _ _ _ _ (stringArgs_ok args st Hs)).
    unfold mbind, M_bind, get_state. rewrite Hroot, Hfrozen, Hlang. simpl.
    eexists. split; [reflexivity|]. simpl. split; [|exact Hfrozen].
    apply lookup_insert_eq.
  - intros init run args kwargs st st' v E.
    exact (func_subproject_freezes init run args kwargs st st' v E).
  - intros st args kwargs Hsub.
    exact (add_global_arguments_in_subproject st args kwargs Hsub).
  - intros invalues st st' r E.
    exact (module_method_callback_same_self invalues st st' r E).
  - intros t st Hty Hfresh.
    destruct (module_executable_registered t st Hty Hfresh)
      as (st' & ref & E & Ht & Hs).
    exists st', ref. split; [exact E|]. split; [exact Ht|].
    rewrite Hs. reflexivity.
Qed.

(** ** Subprojects *)

Lemma func_subproject_not_at_root init run st dirname :
  subdir (self st) <> EmptyString ->
  fst (os.split (subdir (self st))) <> subproject_dir (self st) ->
  func_subproject init run [VStr dirname] ∅ st
  = (st, raise InterpreterException
           "Subprojects must be defined at the root directory.").
Proof.
  intros H1 H2. unfold func_subproject.
  rewrite (bind_return _ _ _ _ _ (stringArgs_ok [VStr dirname] st eq_refl)).
  rewrite (bind_return (noKwargs ∅) _ st st tt (noKwargs_empty st)).
  cbn [length Nat.eqb negb nth pyval.str_value].
  rewrite (bind_return get_state _ st st st eq_refl).
  apply String.eqb_neq in H1, H2. rewrite H1, H2. reflexivity.
Qed.

(** C9, as amended: [subproject(name)] called with its one string argument
    and no keyword.
    From the root directory of the running project (its [subdir] is empty
    or lies directly in the subprojects directory):
    (1) when [name] is on the stack of subprojects being evaluated, the call
    raises "Recursive include of subprojects:" followed by the stack and the
    name, joined by [" => "], and a full stop; the state is unchanged;
    (2) when [name] is not on the stack and has been loaded, the call
    returns the holder stored for it and leaves the state unchanged, whatever
    evaluating its build file again would have done.
    (3) From any other directory the call raises "Subprojects must be
    defined at the root directory." and leaves the state unchanged, whether
    or not [name] is on the stack or has been loaded. *)
Theorem subproject_cycle_and_cache init run st dirname :
  (subdir (self st) = EmptyString \/
   fst (os.split (subdir (self st))) = subproject_dir (self st) ->
   (dirname ∈ subproject_stack (self st) ->
    func_subproject init run [VStr dirname] ∅ st
    = (st, raise InterpreterException
             ("Recursive include of subprojects: "
              +:+ pystr.join " => " (subproject_stack (self st) ++ [dirname])
              +:+ "."))) /\
   (dirname ∉ subproject_stack (self st) ->
    forall holder,
      subprojects st !! dirname = Some holder ->
      func_subproject init run [VStr dirname] ∅ st = (st, Return holder))) /\
  (subdir (self st) <> EmptyString ->
   fst (os.split (subdir (self st))) <> subproject_dir (self st) ->
   func_subproject init run [VStr dirname] ∅ st
   = (st, raise InterpreterException
            "Subprojects must be defined at the root directory.")).
Proof.
  split; [|apply func_subproject_not_at_root].
  intros Hroot.
  assert (Hguard :
    negb (String.eqb (subdir (self st)) EmptyString)
    && negb (String.eqb (fst (os.split (subdir (self st))))
                        (subproject_dir (self st))) = false).
  { destruct Hroot as [-> | ->].
    - reflexivity.
    - rewrite String.eqb_refl. apply andb_false_r. }
  split.
  - intros Hin. unfold func_subproject.
    rewrite (bind_return _ _ _ _ _ (stringArgs_ok [VStr dirname] st eq_refl)).
    rewrite (bind_return (noKwargs ∅) _ st st tt (noKwargs_empty st)).
    cbn [length Nat.eqb negb nth pyval.str_value].
    rewrite (bind_return get_state _ st st st eq_refl).
    rewrite Hguard. rewrite bool_decide_eq_true_2 by assumption. reflexivity.
  - intros Hnin holder Hh. unfold func_subproject.
    rewrite (bind_return _ _ _ _ _ (stringArgs_ok [VStr dirname] st eq_refl)).
    rewrite (bind_return (noKwargs ∅) _ st st tt (noKwargs_empty st)).
    cbn [length Nat.eqb negb nth pyval.str_value].
    rewrite (bind_return get_state _ st st st eq_refl).
    rewrite Hguard. rewrite bool_decide_eq_false_2 by assumption.
    rewrite Hh. reflexivity.
Qed.

(** ** Registration of targets *)

Lemma add_target_reserved s tobj st :
  s ∈ forbidden_target_names ->
  exists msg, add_target (VStr s) tobj st = (st, raise InvalidArguments msg).
Proof.
  intros Hin. unfold add_target, mbind, M_bind, lift, name_in.
  rewrite bool_decide_eq_true_2 by assumption. eexists. reflexivity.
Qed.

Lemma add_target_duplicate s tobj st :
  s ∉ forbidden_target_names ->
  get_id tobj ∈ fst <$> targets (build st) ->
  exists msg, add_target (VStr s) tobj st = (st, raise InvalidCode msg).
Proof.
  intros Hnin Hdup. unfold add_target, mbind, M_bind, lift, name_in, get_state.
  rewrite bool_decide_eq_false_2 by assumption.
  rewrite bool_decide_eq_true_2 by assumption. eexists. reflexivity.
Qed.

Lemma add_target_fresh s tobj st :
  s ∉ forbidden_target_names ->
  get_id tobj ∉ fst <$> targets (build st) ->
  exists st',
    add_target (VStr s) tobj st = (st', Return tt) /\
    targets (build st') = targets (build st) ++ [(get_id tobj, tobj)].
Proof.
  intros Hnin Hfresh. unfold add_target, mbind, M_bind, lift, name_in, get_state.
  rewrite bool_decide_eq_false_2 by assumption.
  rewrite bool_decide_eq_false_2 by assumption. simpl.
  destruct (target_guids st !! get_id tobj); eexists; split; reflexivity.
Qed.

(** What [add_target] maintains: every entry of the targets dictionary is
    stored under the id of its target, and no key occurs twice. *)
Lemma add_target_keyed name tobj st st' r :
  keyed_by_id (targets (build st)) ->
  add_target name tobj st = (st', r) ->
  keyed_by_id (targets (build st')).
Proof.
  intros [Hk Hnd]. unfold add_target, mbind, M_bind, lift, get_state.
  destruct (name_in name forbidden_target_names) as [[]|e];
    try (intros E; injection E as <- _; split; assumption).
  destruct (bool_decide _) eqn:Hd;
    [intros E; injection E as <- _; split; assumption|].
  apply bool_decide_eq_false in Hd. simpl.
  assert (Hnew : keyed_by_id (targets (build st) ++ [(get_id tobj, tobj)])).
  { split.
    - apply Forall_app. split; [exact Hk|]. constructor; [reflexivity|constructor].
    - rewrite fmap_app. apply NoDup_app. split; [exact Hnd|]. split.
      + intros k Hin Hin'. simpl in Hin'. apply list_elem_of_singleton in Hin'.
        subst. contradiction.
      + simpl. apply NoDup_singleton. }
  destruct (target_guids st !! get_id tobj);
    intros E; injection E as <- _; exact Hnew.
Qed.

(** Under that invariant, two entries at different places hold targets with
    different ids. *)
Lemma keyed_by_id_unique l i j k1 t1 k2 t2 :
  keyed_by_id l ->
  l !! i = Some (k1, t1) -> l !! j = Some (k2, t2) -> i <> j ->
  get_id t1 <> get_id t2.
Proof.
  intros [Hk Hnd] Hi Hj Hne Heq.
  pose proof (proj1 (Forall_lookup _ _) Hk i _ Hi) as E1.
  pose proof (proj1 (Forall_lookup _ _) Hk j _ Hj) as E2.
  simpl in E1, E2.
  apply Hne. eapply NoDup_lookup; [exact Hnd| |].
  - rewrite list_lookup_fmap, Hi. reflexivity.
  - rewrite list_lookup_fmap, Hj. simpl. congruence.
Qed.

End Builtins.

Lemma used_configuration_is_immutable_witness :
  exists st' v,
    func_configure_file 10 [] samples.configure_kwargs samples.with_config
    = Some (st', Return v) /\
    is_used st' 0 = true.
Proof.
  destruct (func_configure_file 10 [] samples.configure_kwargs samples.with_config)
    as [[st' [v|e]]|] eqn:E; try (vm_compute in E; discriminate).
  exists st', v. split; [reflexivity|].
  eapply (proj1 used_configuration_is_immutable); [|exact E]. reflexivity.
Defined.

(** C5, counterexample: calls made before any target is declared that fail.
    A root build file includes the subproject [a], which declares no target,
    and then calls [add_global_arguments('-DX', language : 'c')]: no target
    is in the build graph, yet the call raises the freeze error, because
    [subproject()] freezes the global arguments too.  And in the interpreter
    of a subproject the call raises before any target is declared, because
    global arguments can not be set in subprojects. *)
Lemma add_global_arguments_fails_before_any_target :
  (targets (build (fst samples.subproject_then_global_args_run)) = [] /\
   raises_class InvalidCode (snd samples.subproject_then_global_args_run)) /\
  (targets (build samples.inside_a) = [] /\
   global_args_frozen (self samples.inside_a) = false /\
   raises_class InvalidCode
     (snd (func_add_global_arguments [VStr "-DX"] samples.language_c
             samples.inside_a))).
Proof. vm_compute. repeat split; reflexivity. Qed.

Lemma global_arguments_freeze_witness :
  exists st' v,
    build_target [VStr "x"; VStr "x.c"] ∅ ExecutableHolder example.initial
    = (st', Return v) /\
    global_args_frozen (self st') = true.
Proof.
  destruct (build_target [VStr "x"; VStr "x.c"] ∅ ExecutableHolder example.initial)
    as [st' [v|e]] eqn:E; try (vm_compute in E; discriminate).
  exists st', v. split; [reflexivity|].
  eapply (proj1 global_arguments_freeze). exact E.
Defined.

(** A module method hands back the executable [prog] in a root project
    that has declared nothing: the executable is in the build graph, and
    [add_global_arguments] still succeeds afterwards. *)
Example module_executable_does_not_freeze :
  snd (module_method_callback (MTarget inputs.prog) example.initial)
  = Return (VObj ExecutableHolder 0)
  /\ targets (build (fst (module_method_callback (MTarget inputs.prog)
                            example.initial)))
     = [("prog", inputs.prog)]
  /\ snd (func_add_global_arguments [VStr "-DX"] samples.language_c
            (fst (module_method_callback (MTarget inputs.prog) example.initial)))
     = Return VNone.
Proof. vm_compute. repeat split; reflexivity. Qed.

(** C9, counterexample: a name on the stack, or loaded, that does not get
    the claimed answer.  The root interpreter has entered [src] with
    [subdir('src')] and [a] is loaded: [subproject('a')] does not return the
    cached holder but raises.  The interpreter of [a] has entered
    [subprojects/a/src] and [a] is on its stack: [subproject('a')] raises,
    but not the recursive-include error. *)
Lemma subproject_outside_root_directory :
  ((subprojects samples.root_in_src !! "a" = Some (VObj SubprojectHolder 0)) /\
   ("a" ∉ subproject_stack (self samples.root_in_src)) /\
   func_subproject example.Interpreter__init__ (mret tt) [VStr "a"] ∅
     samples.root_in_src
   = (samples.root_in_src,
      raise InterpreterException
        "Subprojects must be defined at the root directory.")) /\
  (("a" ∈ subproject_stack (self samples.a_in_src)) /\
   func_subproject example.Interpreter__init__ (mret tt) [VStr "a"] ∅
     samples.a_in_src
   = (samples.a_in_src,
      raise InterpreterException
        "Subprojects must be defined at the root directory.")).
Proof.
  split; [split; [|split]|split].
  - vm_compute. reflexivity.
  - simpl. apply not_elem_of_nil.
  - vm_compute. reflexivity.
  - simpl. apply list_elem_of_here.
  - vm_compute. reflexivity.
Qed.

Lemma subproject_cycle_and_cache_witness :
  func_subproject example.Interpreter__init__ (mret tt) [VStr "a"] ∅
    samples.inside_b
  = (samples.inside_b,
     raise InterpreterException
       "Recursive include of subprojects: a => b => a.").
Proof.
  refine (proj1 (proj1 (subproject_cycle_and_cache example.Interpreter__init__
                          (mret tt) samples.inside_b "a") _) _).
  - right. reflexivity.
  - simpl. apply list_elem_of_here.
Defined.

(** The third scenario of the specification, run from the root: the root
    includes [a], [a] includes [b], and [b] includes [a]. *)
Example subproject_cycle_scenario :
  snd (example.run example.cyclic 4 example.with_subprojects_tree)
  = raise InterpreterException "Recursive include of subprojects: a => b => a.".
Proof. vm_compute. reflexivity. Qed.

(** C1, the failing input: a build file declares [custom_target('res_c')]
    and then calls [gnome.compile_resources('res', ...)].  Both calls
    return.  The module's targets were stored by [module_method_callback]
    under their names, not their ids, and without the checks of
    [add_target]: the build graph now holds two targets named [res_c] with
    the same id, and its dictionary is no longer keyed by id. *)
Theorem module_targets_bypass_registration :
  snd samples.custom_then_module_run = Return tt /\
  targets (build (fst samples.custom_then_module_run))
  = [("res_c@cus", samples.res_c); ("res_c", samples.res_c);
     ("res_h", samples.res_h)] /\
  (exists i j k1 t1 k2 t2,
     i <> j /\
     targets (build (fst samples.custom_then_module_run)) !! i = Some (k1, t1) /\
     targets (build (fst samples.custom_then_module_run)) !! j = Some (k2, t2) /\
     get_id t1 = get_id t2) /\
  ~ keyed_by_id (targets (build (fst samples.custom_then_module_run))).
Proof.
  assert (E : targets (build (fst samples.custom_then_module_run))
    = [("res_c@cus", samples.res_c); ("res_c", samples.res_c);
       ("res_h", samples.res_h)]) by (vm_compute; reflexivity).
  rewrite E. split; [vm_compute; reflexivity|]. split; [reflexivity|].
  split.
  - exists 0%nat, 1%nat, "res_c@cus", samples.res_c, "res_c", samples.res_c.
    repeat split; try reflexivity. discriminate.
  - intros [Hk _]. apply Forall_cons in Hk as [_ Hk].
    apply Forall_cons in Hk as [Hk _]. vm_compute in Hk. discriminate.
Qed.

End interpreter_facts.

(* ===================================================================== *)
(** * Properties of the string helpers                                    *)
(* ===================================================================== *)

Module pytext_facts.

Lemma contains_char_app c a b :
  pystr.contains_char c (a +:+ b)
  = pystr.contains_char c a || pystr.contains_char c b.
Proof.
  induction a as [|x a IH]; simpl; [reflexivity|].
  rewrite IH. destruct (Ascii.eqb x c); reflexivity.
Qed.

Lemma split_absent c s :
  pystr.contains_char c s = false -> pytext.split c s = [s].
Proof.
  induction s as [|a s IH]; simpl; [reflexivity|].
  destruct (Ascii.eqb a c); simpl; [discriminate|].
  intros E. rewrite (IH E). reflexivity.
Qed.

Lemma split_app c a b :
  pystr.contains_char c a = false ->
  pytext.split c (a +:+ String c b) = a :: pytext.split c b.
Proof.
  induction a as [|x a IH]; simpl.
  - intros _. rewrite Ascii.eqb_refl. reflexivity.
  - destruct (Ascii.eqb x c); simpl; [discriminate|].
    intros E. rewrite (IH E). reflexivity.
Qed.

Lemma count_absent c s :
  pystr.contains_char c s = false -> pytext.count c s = 0%nat.
Proof.
  induction s as [|a s IH]; simpl; [reflexivity|].
  destruct (Ascii.eqb a c); simpl; [discriminate|]. exact IH.
Qed.

Lemma split_once_spec c s l r :
  pystr.split_once c s = Some (l, r) ->
  s = l +:+ String c r /\ pystr.contains_char c l = false.
Proof.
  revert l r. induction s as [|a s IH]; simpl; intros l r; [discriminate|].
  destruct (Ascii.eqb a c) eqn:E.
  - intros [= <- <-]. apply Ascii.eqb_eq in E. subst. auto.
  - destruct (pystr.split_once c s) as [[l' r']|]; [|discriminate].
    intros [= <- <-]. destruct (IH _ _ eq_refl) as [-> C].
    simpl. rewrite E, C. auto.
Qed.

Lemma split_once_present c s :
  pystr.contains_char c s = true ->
  exists l r, pystr.split_once c s = Some (l, r).
Proof.
  induction s as [|a s IH]; simpl; [discriminate|].
  destruct (Ascii.eqb a c); simpl; [eauto|].
  intros E. destruct (IH E) as (l & r & ->). eauto.
Qed.

(** The first piece of [s.split(c)] is the text before the first [c]. *)
Lemma split_head c s l r :
  pystr.split_once c s = Some (l, r) ->
  exists rest, pytext.split c s = l :: rest.
Proof.
  revert l r. induction s as [|a s IH]; simpl; intros l r; [discriminate|].
  destruct (Ascii.eqb a c).
  - intros [= <- <-]. eauto.
  - destruct (pystr.split_once c s) as [[l' r']|]; [|discriminate].
    intros [= <- <-]. destruct (IH _ _ eq_refl) as [rest ->]. eauto.
Qed.

Lemma append_cons a s t : String a s +:+ t = String a (s +:+ t).
Proof. reflexivity. Qed.

Lemma append_assoc a b c : (a +:+ b) +:+ c = a +:+ (b +:+ c).
Proof.
  induction a as [|x a IH]; [reflexivity|].
  rewrite !append_cons, IH. reflexivity.
Qed.

Lemma append_nil_r s : s +:+ EmptyString = s.
Proof.
  induction s as [|x s IH]; [reflexivity|]. rewrite append_cons, IH. reflexivity.
Qed.

Lemma length_append a b :
  String.length (a +:+ b) = (String.length a + String.length b)%nat.
Proof.
  induction a as [|x a IH]; [reflexivity|].
  rewrite append_cons. simpl. rewrite IH. reflexivity.
Qed.

Lemma prefix_app p s : String.prefix p (p +:+ s) = true.
Proof.
  induction p as [|a p IH]; simpl; [destruct s; reflexivity|].
  destruct (ascii_dec a a); [exact IH|congruence].
Qed.

Lemma prefix_split p s :
  String.prefix p s = true -> exists r, s = p +:+ r.
Proof.
  revert s. induction p as [|a p IH]; intros s; simpl.
  - eauto.
  - destruct s as [|b s]; simpl; [discriminate|].
    destruct (ascii_dec a b) as [->|]; [|discriminate].
    intros E. destruct (IH _ E) as [r ->]. eauto.
Qed.

Lemma lower_char_idem c : pystr.lower_char (pystr.lower_char c) = pystr.lower_char c.
Proof. destruct c as [[] [] [] [] [] [] [] []]; reflexivity. Qed.

Lemma lower_idem s : pystr.lower (pystr.lower s) = pystr.lower s.
Proof.
  induction s as [|c s IH]; simpl; [reflexivity|].
  rewrite lower_char_idem, IH. reflexivity.
Qed.

End pytext_facts.

(* ===================================================================== *)
(** * Properties of the other methods of OptionKey                        *)
(* ===================================================================== *)

Module optionkey_facts.
Import options optionkey pytext_facts.

Lemma init_ok hash n s m :
  pystr.contains_char ":" n = false ->
  __init__ hash n s m
  = Return (mkOptionKey n s m (hash [CStr n; of_subproject s; CMachine m])).
Proof. unfold __init__. intros ->. reflexivity. Qed.

Lemma init_inv hash n s m k :
  __init__ hash n s m = Return k ->
  pystr.contains_char ":" n = false /\
  k = mkOptionKey n s m (hash [CStr n; of_subproject s; CMachine m]).
Proof.
  unfold __init__. destruct (pystr.contains_char ":" n); [discriminate|].
  intros [= <-]. auto.
Qed.

(** The two steps of [from_string] on a text without colon: the machine
    prefix. *)
Lemma from_string_plain out s :
  pystr.contains_char ":" out = false ->
  (forall x, s = Some x -> pystr.contains_char ":" x = false) ->
  pytext.split ":" (match s with Some x => x +:+ ":" +:+ out | None => out end)
  = match s with Some x => [x; out] | None => [out] end.
Proof.
  intros Hout Hs. destruct s as [x|].
  - change (x +:+ ":" +:+ out) with (x +:+ String ":" out).
    rewrite split_app by auto. rewrite split_absent by assumption. reflexivity.
  - apply split_absent, Hout.
Qed.

(** [from_string] on a text [sub:out] or [out] whose part [out] has no
    colon: the result is built from what the machine prefix leaves. *)
Lemma from_string_parts hash s out m n :
  pystr.contains_char ":" out = false ->
  (forall x, s = Some x -> pystr.contains_char ":" x = false) ->
  match pytext.split "." out with
  | [prefix; raw3] =>
      if String.eqb prefix "build" then (BUILD, raw3) else (HOST, out)
  | _ => (HOST, out)
  end = (m, n) ->
  pystr.contains_char "." n = false ->
  pystr.contains_char ":" n = false ->
  from_string hash (match s with Some x => x +:+ ":" +:+ out | None => out end)
  = __init__ hash n s m.
Proof.
  intros Hout Hs Hparse Hdot Hcolon. unfold from_string.
  rewrite (from_string_plain out s Hout Hs).
  destruct s as [x|]; rewrite Hparse, Hcolon, (count_absent "." n Hdot);
    reflexivity.
Qed.

Lemma parse_build n :
  pystr.contains_char "." n = false ->
  match pytext.split "." ("build." +:+ n) with
  | [prefix; raw3] =>
      if String.eqb prefix "build" then (BUILD, raw3) else (HOST, "build." +:+ n)
  | _ => (HOST, "build." +:+ n)
  end = (BUILD, n).
Proof.
  intros Hdot. change ("build." +:+ n) with ("build" +:+ String "." n).
  rewrite split_app by reflexivity.
  rewrite (split_absent "." n Hdot). reflexivity.
Qed.

Lemma parse_host n :
  pystr.contains_char "." n = false ->
  match pytext.split "." n with
  | [prefix; raw3] =>
      if String.eqb prefix "build" then (BUILD, raw3) else (HOST, n)
  | _ => (HOST, n)
  end = (HOST, n).
Proof. intros Hdot. rewrite (split_absent "." n Hdot). reflexivity. Qed.

(** X1. Printing a key and parsing the text back gives the key again:
    for every key built by the constructor whose name has no dot and
    whose subproject, if any, has no colon,
    [from_string(str(k))] returns [k]. *)
Theorem from_string_inverts_str hash n s m k :
  __init__ hash n s m = Return k ->
  pystr.contains_char "." n = false ->
  (forall x, s = Some x -> pystr.contains_char ":" x = false) ->
  from_string hash (__str__ k) = Return k.
Proof.
  intros Hk Hdot Hs. apply init_inv in Hk as [Hcolon ->].
  unfold __str__. cbn [name machine subproject].
  destruct m.
  - rewrite bool_decide_true by reflexivity.
    rewrite (from_string_parts hash s ("build." +:+ n) BUILD n);
      auto using parse_build, init_ok.
  - rewrite bool_decide_false by discriminate.
    rewrite (from_string_parts hash s n HOST n);
      auto using parse_host, init_ok.
Qed.

(** X2. The text of a key does not tell a build-machine key from a
    host-machine key whose name starts with [build.]: for a name [n]
    without dot, the host key named [build.n] prints like the build key
    named [n], [from_string] reads that text as the build key, and the
    two keys are not equal. *)
Theorem str_of_build_prefixed_name hash n s k :
  __init__ hash ("build." +:+ n) s HOST = Return k ->
  pystr.contains_char "." n = false ->
  (forall x, s = Some x -> pystr.contains_char ":" x = false) ->
  exists k', __init__ hash n s BUILD = Return k'
             /\ __str__ k' = __str__ k
             /\ from_string hash (__str__ k) = Return k'
             /\ __eq__ k' k = false.
Proof.
  intros Hk Hdot Hs. apply init_inv in Hk as [Hcolon ->].
  assert (Hn : pystr.contains_char ":" n = false).
  { change ("build." +:+ n) with ("build." +:+ n) in Hcolon.
    rewrite contains_char_app in Hcolon.
    apply orb_false_iff in Hcolon as [_ Hn]. exact Hn. }
  eexists. split; [apply init_ok, Hn|].
  split; [|split].
  - unfold __str__. cbn [name machine subproject].
    rewrite bool_decide_true by reflexivity.
    rewrite bool_decide_false by discriminate. reflexivity.
  - unfold __str__. cbn [name machine subproject].
    rewrite bool_decide_false by discriminate.
    rewrite (from_string_parts hash s ("build." +:+ n) BUILD n);
      auto using parse_build, init_ok.
  - unfold __eq__, tuple_eq, _to_tuple. cbn [name machine subproject].
    apply bool_decide_eq_false. intros E. discriminate E.
Qed.

(** X3. A key with a module prefix splits into the prefix and the rest of
    its name: [get_module_prefix] returns the text before the first dot,
    which has no dot itself, and [without_module_prefix] returns the key
    named by the text after it, with the same subproject and machine --
    unless that text is the sentinel of [evolve], in which case the key
    keeps its whole name. *)
Theorem module_prefix_splits_name hash k :
  has_module_prefix k = true ->
  pystr.contains_char ":" (name k) = false ->
  exists p rest k',
    name k = p +:+ "." +:+ rest
    /\ pystr.contains_char "." p = false
    /\ get_module_prefix k = Return (Some p)
    /\ without_module_prefix hash k = Return k'
    /\ subproject k' = subproject k /\ machine k' = machine k
    /\ name k' = (if String.eqb rest _BAD_VALUE then name k else rest).
Proof.
  intros Hp Hcolon. unfold has_module_prefix in Hp.
  destruct (split_once_present _ _ Hp) as (p & rest & Hsplit).
  destruct (split_once_spec _ _ _ _ Hsplit) as [Hname Hdot].
  assert (Hrest : pystr.contains_char ":" rest = false).
  { rewrite Hname, contains_char_app in Hcolon.
    apply orb_false_iff in Hcolon as [_ Hc]. simpl in Hc. exact Hc. }
  set (n' := if String.eqb rest _BAD_VALUE then name k else rest).
  assert (Hn' : pystr.contains_char ":" n' = false).
  { unfold n'. destruct (String.eqb rest _BAD_VALUE); assumption. }
  exists p, rest,
    (mkOptionKey n' (subproject k) (machine k)
       (hash [CStr n'; of_subproject (subproject k); CMachine (machine k)])).
  split; [exact Hname|]. split; [exact Hdot|]. split.
  - unfold get_module_prefix, has_module_prefix, pytext.split1.
    rewrite Hp, Hsplit. reflexivity.
  - split; [|auto].
    unfold without_module_prefix, has_module_prefix, pytext.split1.
    rewrite Hp, Hsplit. unfold evolve.
    change (pytext.item [p; rest] 1) with (@Return string rest).
    unfold mbind, outcome_bind.
    rewrite bool_decide_true by reflexivity. cbn [negb].
    unfold n' in *. clear n'.
    destruct (String.eqb rest _BAD_VALUE) eqn:E; cbn [negb];
      apply init_ok; assumption.
Qed.

End optionkey_facts.

(* ===================================================================== *)
(** * Properties of OptionStore                                           *)
(* ===================================================================== *)

Module optionstore_facts.
Import options optionstore pytext_facts optionkey_facts.

(** X4. In a store that is not for a cross build, no key that
    [ensure_and_validate_key] returns is for the build machine, whether
    the key was given as a name or as an [OptionKey]; validating the
    returned key again returns it unchanged. *)
Theorem ensure_and_validate_key_host hash self key k :
  is_cross self = false ->
  ensure_and_validate_key hash self key = Return k ->
  machine k = HOST
  /\ ensure_and_validate_key hash self (inr k) = Return k.
Proof.
  intros Hcross Hk.
  assert (Hm : machine k = HOST).
  { destruct key as [s|key]; simpl in Hk.
    - apply init_inv in Hk as [_ ->]. reflexivity.
    - rewrite Hcross in Hk. cbn [negb andb] in Hk.
      destruct (bool_decide (machine key = BUILD)) eqn:E.
      + unfold optionkey.evolve in Hk.
        apply init_inv in Hk as [_ ->]. reflexivity.
      + injection Hk as <-. apply bool_decide_eq_false in E.
        destruct (machine key); congruence. }
  split; [exact Hm|].
  simpl. rewrite Hm, bool_decide_false by discriminate.
  rewrite andb_false_r. reflexivity.
Qed.

Lemma first_piece c p r :
  pystr.contains_char c p = false ->
  pytext.item (pytext.split c (p +:+ String c r)) 0 = Return p.
Proof. intros Hp. rewrite split_app by exact Hp. reflexivity. Qed.

Lemma startswith_first_piece name p :
  pystr.startswith name (p +:+ "_") = true ->
  pystr.contains_char "_" p = false ->
  pystr.contains_char "_" name = true
  /\ pytext.item (pytext.split "_" name) 0 = Return p.
Proof.
  intros Hs Hp. destruct (prefix_split _ _ Hs) as [rest ->].
  replace ((p +:+ "_") +:+ rest) with (p +:+ String "_" rest).
  - split; [|apply first_piece, Hp].
    rewrite contains_char_app. simpl. apply orb_true_r.
  - symmetry. apply (append_assoc p "_" rest).
Qed.

(** X5. Base options, backend options and compiler options all have
    reserved names: a key whose name starts with [b_] or [backend_], or
    whose text before the first underscore is one of the store's
    languages, is answered [True] by [is_reserved_name]. *)
Theorem reserved_names_cover self k :
  is_base_option self k = true
  \/ is_backend_option self (inr k) = true
  \/ is_compiler_option self k = Return true ->
  is_reserved_name self k = Return true.
Proof.
  intros H. unfold is_reserved_name.
  destruct (bool_decide (name k ∈ _BUILTIN_NAMES)); [reflexivity|].
  destruct H as [H|[H|H]].
  - destruct (startswith_first_piece (name k) "b" H eq_refl) as [-> ->].
    reflexivity.
  - destruct (startswith_first_piece (name k) "backend" H eq_refl) as [-> ->].
    reflexivity.
  - unfold is_compiler_option in H.
    destruct (pystr.contains_char "_" (name k)); [|discriminate].
    cbn [negb] in *.
    destruct (pytext.item (pytext.split "_" (name k)) 0) as [prefix|e];
      [|discriminate].
    unfold mbind, outcome_bind in *.
    destruct (bool_decide (prefix ∈ ["b"; "backend"])); [reflexivity|].
    destruct (bool_decide (prefix ∈ all_languages self)); [reflexivity|].
    discriminate.
Qed.

Lemma add_augments_keeps subproject opts a a' r key v :
  add_augments subproject opts a = (a', r) ->
  a !! key = Some v -> a' !! key = Some v.
Proof.
  revert a. induction opts as [|o opts IH]; simpl; intros a.
  - intros [= <- _]. auto.
  - unfold pytext.split1. destruct (pystr.split_once "=" o) as [[ks vs]|].
    + intros E Hkey. apply (IH _ E).
      destruct (bool_decide (is_Some (a !! (subproject +:+ ":" +:+ ks)))) eqn:B;
        [exact Hkey|].
      apply bool_decide_eq_false in B.
      rewrite lookup_insert_ne; [exact Hkey|].
      intros <-. apply B. eauto.
    + intros [= <- _]. auto.
Qed.

Lemma add_augments_union subproject opts a a' :
  add_augments subproject opts a = (a', Return tt) ->
  a' = a ∪ list_to_map (omap (augment_of subproject) opts).
Proof.
  revert a. induction opts as [|o opts IH]; simpl; intros a.
  - intros [= <-]. rewrite (right_id_L ∅ (∪)). reflexivity.
  - unfold pytext.split1, augment_of.
    destruct (pystr.split_once "=" o) as [[ks vs]|]; [|discriminate].
    intros E. apply IH in E. rewrite E. clear E. cbn [list_to_map foldr uncurry].
    set (m := list_to_map (omap (augment_of subproject) opts)).
    destruct (bool_decide (is_Some (a !! (subproject +:+ ":" +:+ ks)))) eqn:B.
    + apply bool_decide_eq_true in B as [x Hx].
      apply map_eq. intros i. rewrite !lookup_union.
      destruct (decide (i = subproject +:+ ":" +:+ ks)) as [->|Hne].
      * rewrite Hx. simpl. rewrite lookup_insert_eq.
        destruct (m !! _); reflexivity.
      * rewrite lookup_insert_ne by (intros Heq; apply Hne; symmetry; exact Heq).
        reflexivity.
    + apply bool_decide_eq_false in B.
      rewrite <- insert_union_l. apply insert_union_r.
      destruct (a !! _) eqn:Ha; [exfalso; apply B; eauto|reflexivity].
Qed.

(** X6. [set_from_subproject_call] never overwrites an augment: every
    augment of the store is found unchanged afterwards, also when the
    call raises.  When it returns, the augments are those of the store
    plus, for each new key [subproject:key], the value of the first
    option [key=value] among the options of the call followed by the
    project's own defaults. *)
Theorem subproject_call_keeps_augments self subproject sp pd self' r :
  set_from_subproject_call self subproject sp pd = (self', r) ->
  (forall key v, augments self !! key = Some v -> augments self' !! key = Some v)
  /\ (r = Return tt ->
      augments self'
      = augments self
        ∪ list_to_map (omap (augment_of subproject)
                         (hacky_mchackface_back_to_list sp
                          ++ hacky_mchackface_back_to_list pd))).
Proof.
  unfold set_from_subproject_call.
  destruct (add_augments subproject _ (augments self)) as [a r'] eqn:E.
  intros [= <- <-]. split.
  - intros key v. apply (add_augments_keeps _ _ _ _ _ _ _ E).
  - intros ->. apply add_augments_union in E. exact E.
Qed.

End optionstore_facts.

(* ===================================================================== *)
(** * Properties of the user options                                      *)
(* ===================================================================== *)

Module useroption_facts.
Import useroption pytext_facts.

Section Facts.
Variable int_ : string -> option Z.
Variables str_ repr_ : Value -> string.

(** What one [set_value] does to the object. *)
Lemma set_value_cases validate o v :
  fst (set_value validate o v) = o
  \/ exists r, validate o v = Return r
               /\ fst (set_value validate o v) = with_value r o.
Proof.
  unfold set_value. destruct (validate o v) as [r|e]; simpl; eauto.
Qed.

Lemma set_values_inv validate (I : UserOption -> Prop) :
  (forall o v r, I o -> validate o v = Return r -> I (with_value r o)) ->
  forall vs o, I o -> I (set_values validate o vs).
Proof.
  intros Hstep vs. induction vs as [|v vs IH]; intros o Ho; [exact Ho|].
  unfold set_values. simpl. apply IH.
  destruct (set_value_cases validate o v) as [->|(r & Hr & ->)]; eauto.
Qed.

Lemma init_value validate o v o' :
  match set_value validate o v with
  | (o', Return _) => Return o'
  | (_, Raise e) => Raise e
  end = Return o' ->
  exists r, validate o v = Return r /\ o' = with_value r o.
Proof.
  unfold set_value. destruct (validate o v) as [r|e]; [|discriminate].
  destruct (pyops.ne r _); [|discriminate]. intros [= <-]. eauto.
Qed.

Lemma boolean_validate_bool o v r :
  UserBooleanOption_validate_value str_ o v = Return r -> pyval.is_bool r = true.
Proof.
  unfold UserBooleanOption_validate_value.
  destruct (pyval.is_bool v) eqn:B; [intros [= <-]; exact B|].
  destruct (pyval.is_str v); [|discriminate]. cbn [negb].
  repeat match goal with |- context [String.eqb ?a ?b] => destruct (String.eqb a b) end;
    try discriminate; intros [= <-]; reflexivity.
Qed.

(** X7. A boolean option always holds a boolean: whatever value the
    option is created with and whatever values are set afterwards (some
    attempts may raise), its value is [True] or [False].  Strings are
    accepted by their lower-case spelling: a string and its lower-case
    form validate to the same boolean. *)
Theorem boolean_option_holds_bool name v0 o0 vs :
  UserBooleanOption__init__ str_ name v0 = Return o0 ->
  (exists b, value (set_values (UserBooleanOption_validate_value str_) o0 vs)
             = Some (VBool b))
  /\ (forall o s r,
        UserBooleanOption_validate_value str_ o (VStr s) = Return r ->
        UserBooleanOption_validate_value str_ o (VStr (pystr.lower s)) = Return r).
Proof.
  intros Hinit. split.
  - apply init_value in Hinit as (r & Hr & ->).
    apply (set_values_inv _ (fun o => exists b, value o = Some (VBool b))).
    + intros o v r' _ Hv. apply boolean_validate_bool in Hv.
      destruct r'; try discriminate. simpl. eauto.
    + apply boolean_validate_bool in Hr. destruct r; try discriminate.
      simpl. eauto.
  - intros o s r. unfold UserBooleanOption_validate_value. simpl.
    rewrite lower_idem.
    repeat match goal with |- context [String.eqb ?a ?b] => destruct (String.eqb a b) end;
      auto; discriminate.
Qed.

Lemma integer_validate_within o v r :
  UserIntegerOption_validate_value int_ str_ repr_ o v = Return r -> within o r.
Proof.
  unfold UserIntegerOption_validate_value.
  destruct (if pyval.is_str v then toint int_ o (pyval.str_value v) else Return v)
    as [v'|e]; [|discriminate].
  unfold mbind, outcome_bind.
  destruct (pyval.int_value v') as [z|] eqn:Hz; [|discriminate].
  destruct (match min_value o with Some m => z <? m | None => false end) eqn:Hmin;
    [discriminate|].
  destruct (match max_value o with Some m => m <? z | None => false end) eqn:Hmax;
    [discriminate|].
  intros [= <-]. exists z. split; [exact Hz|]. split.
  - intros m Hm. rewrite Hm in Hmin. lia.
  - intros m Hm. rewrite Hm in Hmax. lia.
Qed.

Lemma integer_validate_fixpoint o v r :
  UserIntegerOption_validate_value int_ str_ repr_ o v = Return r ->
  UserIntegerOption_validate_value int_ str_ repr_ o r = Return r.
Proof.
  intros H. destruct (integer_validate_within o v r H) as (z & Hz & Hmin & Hmax).
  unfold UserIntegerOption_validate_value.
  assert (Hs : pyval.is_str r = false) by (destruct r; try discriminate; reflexivity).
  rewrite Hs. unfold mbind, outcome_bind. rewrite Hz.
  destruct (min_value o) as [m|] eqn:Em.
  - specialize (Hmin m eq_refl). destruct (z <? m) eqn:C; [lia|].
    destruct (max_value o) as [m'|] eqn:Em'; [|reflexivity].
    specialize (Hmax m' eq_refl). destruct (m' <? z) eqn:C'; [lia|reflexivity].
  - destruct (max_value o) as [m'|] eqn:Em'; [|reflexivity].
    specialize (Hmax m' eq_refl). destruct (m' <? z) eqn:C'; [lia|reflexivity].
Qed.

(** X8. An integer option always holds an integer within its bounds:
    whatever default it is created with and whatever values are set
    afterwards (some attempts may raise), its value is an integer [z]
    with [min_value <= z <= max_value] for the bounds that are not
    [None]; and validating a validated value returns it unchanged. *)
Theorem integer_option_stays_in_range name mn mx v0 o0 vs :
  UserIntegerOption__init__ int_ str_ repr_ name mn mx v0 = Return o0 ->
  let o := set_values (UserIntegerOption_validate_value int_ str_ repr_) o0 vs in
  exists v z,
    value o = Some v /\ pyval.int_value v = Some z
    /\ (forall m, mn = Some m -> m <= z) /\ (forall m, mx = Some m -> z <= m)
    /\ UserIntegerOption_validate_value int_ str_ repr_ o v = Return v.
Proof.
  intros Hinit o. unfold UserIntegerOption__init__ in Hinit.
  apply init_value in Hinit as (r & Hr & ->).
  set (I := fun o : UserOption =>
              min_value o = mn /\ max_value o = mx
              /\ exists v, value o = Some v /\ within o v
                 /\ UserIntegerOption_validate_value int_ str_ repr_ o v = Return v).
  assert (HI : I o).
  { apply (set_values_inv _ I).
    - intros o1 v r' (Hmn & Hmx & _) Hv. unfold I. simpl.
      split; [exact Hmn|]. split; [exact Hmx|]. exists r'. split; [reflexivity|].
      split.
      + exact (integer_validate_within o1 v r' Hv).
      + exact (integer_validate_fixpoint o1 v r' Hv).
    - unfold I. simpl. split; [reflexivity|]. split; [reflexivity|].
      exists r. split; [reflexivity|]. split.
      + exact (integer_validate_within _ _ _ Hr).
      + exact (integer_validate_fixpoint _ _ _ Hr). }
  destruct HI as (Hmn & Hmx & v & Hv & (z & Hz & Hmin & Hmax) & Hfix).
  exists v, z. rewrite Hmn in Hmin. rewrite Hmx in Hmax. auto 10.
Qed.

Lemma eq_str_inv c v :
  pyops.eq (VStr c) v = Return true -> v = VStr c.
Proof.
  destruct v; simpl; try discriminate.
  intros [= E]. apply String.eqb_eq in E. congruence.
Qed.

Lemma contains_strings l v :
  forallb pyval.is_str l = true ->
  pyops.contains l v = Return true -> v ∈ l.
Proof.
  induction l as [|e l IH]; simpl; [discriminate|].
  intros Hl. apply andb_true_iff in Hl as [He Hl].
  destruct e; try discriminate.
  destruct (pyops.eq (VStr s) v) as [[]|] eqn:E; unfold mbind, outcome_bind.
  - intros _. apply eq_str_inv in E. subst. apply list_elem_of_here.
  - intros H. apply list_elem_of_further, IH; assumption.
  - discriminate.
Qed.

Lemma combo_validate_choice o v r l :
  choices o = VList l -> forallb pyval.is_str l = true ->
  UserComboOption_validate_value str_ o v = Return r -> r ∈ l.
Proof.
  intros Hc Hl. unfold UserComboOption_validate_value. rewrite Hc.
  destruct (pyops.contains l v) as [[]|] eqn:E; unfold mbind, outcome_bind;
    cbn [negb]; try discriminate.
  intros [= <-]. exact (contains_strings l v Hl E).
Qed.

(** X9. A feature option is always in exactly one of its three states:
    whatever value it is created with and whatever values are set
    afterwards (some attempts may raise), exactly one of [is_enabled],
    [is_disabled] and [is_auto] answers [True] and the other two answer
    [False]. *)
Theorem feature_option_has_one_state name v0 o0 vs :
  UserFeatureOption__init__ str_ name v0 = Return o0 ->
  let o := set_values (UserComboOption_validate_value str_) o0 vs in
  (is_enabled o = Return true /\ is_disabled o = Return false
   /\ is_auto o = Return false)
  \/ (is_enabled o = Return false /\ is_disabled o = Return true
      /\ is_auto o = Return false)
  \/ (is_enabled o = Return false /\ is_disabled o = Return false
      /\ is_auto o = Return true).
Proof.
  intros Hinit o.
  unfold UserFeatureOption__init__, UserComboOption__init__, static_choices in Hinit.
  cbn [forallb pyval.is_str andb negb] in Hinit.
  apply init_value in Hinit as (r & Hr & ->).
  set (l := [VStr "enabled"; VStr "disabled"; VStr "auto"]) in *.
  set (I := fun o : UserOption =>
              choices o = VList l /\ exists v, value o = Some v /\ v ∈ l).
  assert (HI : I o).
  { apply (set_values_inv _ I).
    - intros o1 v r' (Hc & _) Hv. unfold I. simpl. split; [exact Hc|].
      exists r'. split; [reflexivity|].
      exact (combo_validate_choice o1 v r' l Hc eq_refl Hv).
    - unfold I. simpl. split; [reflexivity|]. exists r. split; [reflexivity|].
      eapply combo_validate_choice; [| |exact Hr]; reflexivity. }
  destruct HI as (_ & v & Hv & Hin).
  unfold is_enabled, is_disabled, is_auto, value_of. rewrite Hv.
  unfold l in Hin.
  apply elem_of_cons in Hin as [->|Hin]; [left; auto|].
  apply elem_of_cons in Hin as [->|Hin]; [right; left; auto|].
  apply list_elem_of_singleton in Hin as ->. right; right; auto.
Qed.

End Facts.

Lemma replace_char_absent c n s :
  Ascii.eqb c n = false ->
  pystr.contains_char c
    (pystr.replace_go (String c EmptyString) (String n EmptyString) 0 s) = false.
Proof.
  intros Hcn. induction s as [|a s IH]; [reflexivity|].
  cbn [pystr.replace_go String.prefix].
  destruct (ascii_dec c a) as [->|Hne].
  - assert (String.prefix EmptyString s = true) as -> by (destruct s; reflexivity).
    cbn [String.length Nat.sub]. rewrite append_cons. simpl.
    rewrite Ascii.eqb_sym, Hcn. exact IH.
  - simpl. rewrite IH.
    destruct (Ascii.eqb a c) eqn:E; [|reflexivity].
    apply Ascii.eqb_eq in E. congruence.
Qed.

(** X10. The command-line form of an option name has no underscore: for
    every name, [argparse_name_to_arg] returns a text that starts with
    two dashes and contains no [_]. *)
Theorem argparse_name_has_no_underscore name :
  pystr.startswith (argparse_name_to_arg name) "--" = true
  /\ pystr.contains_char "_" (argparse_name_to_arg name) = false.
Proof.
  unfold argparse_name_to_arg.
  destruct (String.eqb name "warning_level"); [split; reflexivity|].
  split.
  - unfold pystr.startswith. apply prefix_app.
  - rewrite contains_char_app. simpl.
    unfold pystr.replace. apply (replace_char_absent "_" "-"). reflexivity.
Qed.

End useroption_facts.

(* ===================================================================== *)
(** * Properties of flatten and version_compare                           *)
(* ===================================================================== *)

Module mesonlib_util_facts.
Import mesonlib_util pytext_facts.

(** Induction on values that goes into the items of a list. *)
Lemma Value_nested_ind (P : Value -> Prop) :
  P VNone -> (forall b, P (VBool b)) -> (forall z, P (VInt z)) ->
  (forall s, P (VStr s)) ->
  (forall l, Forall P l -> P (VList l)) ->
  (forall b s f, P (VFile b s f)) -> (forall c r, P (VObj c r)) ->
  forall v, P v.
Proof.
  intros HN HB HI HS HL HF HO. fix IH 1.
  intros [| | | |l| |];
    [apply HN|apply HB|apply HI|apply HS| |apply HF|apply HO].
  apply HL. induction l as [|x l IHl]; constructor; [apply IH|exact IHl].
Qed.

Lemma flatten_items_cons i rest :
  flatten_items (VList (i :: rest))
  = (match i with VList _ => flatten_items i | _ => [i] end)
    ++ flatten_items (VList rest).
Proof. reflexivity. Qed.

Lemma flatten_items_scalars item : Forall scalar (flatten_items item).
Proof.
  induction item as [| | | |l IH| |] using Value_nested_ind; try constructor.
  induction IH as [|i rest Hi _ IHrest]; [constructor|].
  rewrite flatten_items_cons. apply Forall_app. split; [|exact IHrest].
  destruct i; try (constructor; [reflexivity|constructor]). exact Hi.
Qed.

Lemma flatten_items_of_scalars l :
  Forall scalar l -> flatten_items (VList l) = l.
Proof.
  induction 1 as [|i rest Hi _ IH]; [reflexivity|].
  rewrite flatten_items_cons, IH. destruct i; try reflexivity. discriminate.
Qed.

Lemma flatten_value_items item :
  interpreter.flatten_value item
  = match item with VList _ => flatten_items item | _ => [item] end.
Proof.
  induction item as [| | | |l IH| |] using Value_nested_ind; try reflexivity.
  induction IH as [|i rest Hi _ IHrest]; [reflexivity|].
  rewrite flatten_items_cons. rewrite <- IHrest, <- Hi. reflexivity.
Qed.

(** X11. Flattening leaves no list inside a list and is idempotent: the
    items of [flatten(item)] for a list [item] are not lists,
    [flatten(flatten(item)) = flatten(item)] for every value, and the
    interpreter's own [flatten], which [function_call] applies to the
    positional arguments, returns the same list as [mesonlib.flatten]. *)
Theorem flatten_is_flat_and_idempotent item :
  (forall l, flatten item = VList l -> Forall scalar l)
  /\ flatten (flatten item) = flatten item
  /\ (forall l, item = VList l ->
        interpreter.flatten item = Return (flatten item)
        /\ interpreter.flatten_list l = flatten_items item).
Proof.
  split; [|split].
  - intros l. destruct item as [| | | |l0| |]; try discriminate.
    intros [= <-]. exact (flatten_items_scalars (VList l0)).
  - destruct item; try reflexivity. unfold flatten at 2 3.
    cbn [flatten]. f_equal. apply flatten_items_of_scalars, flatten_items_scalars.
  - intros l ->. unfold interpreter.flatten, interpreter.flatten_list.
    rewrite flatten_value_items. split; reflexivity.
Qed.

Lemma richcompare_negb op1 op2 a b :
  (forall x y, op1 x y = negb (op2 x y)) ->
  list_richcompare op1 a b = negb (list_richcompare op2 a b).
Proof.
  intros Hop. revert b. induction a as [|x a IH]; intros [|y b]; simpl; auto.
  destruct (x =? y); auto.
Qed.

Lemma richcompare_ge a b :
  list_richcompare Z.geb a b = negb (list_richcompare Z.ltb a b).
Proof.
  apply richcompare_negb. intros x y.
  rewrite Z.geb_leb, Z.leb_antisym. reflexivity.
Qed.

Lemma richcompare_le a b :
  list_richcompare Z.leb a b = negb (list_richcompare Z.gtb a b).
Proof.
  apply richcompare_negb. intros x y.
  rewrite Z.gtb_ltb, Z.leb_antisym. reflexivity.
Qed.

Lemma richcompare_ne a b :
  list_richcompare (fun x y => negb (x =? y)) a b
  = negb (list_richcompare Z.eqb a b).
Proof. apply richcompare_negb. reflexivity. Qed.

Lemma richcompare_trichotomy a b :
  let lt := list_richcompare Z.ltb a b in
  let eq := list_richcompare Z.eqb a b in
  let gt := list_richcompare Z.gtb a b in
  (lt = true /\ eq = false /\ gt = false)
  \/ (lt = false /\ eq = true /\ gt = false)
  \/ (lt = false /\ eq = false /\ gt = true).
Proof.
  revert b. induction a as [|x a IH]; intros [|y b]; simpl.
  - right; left; auto.
  - left. repeat split.
  - right; right. repeat split.
  - destruct (x =? y) eqn:E; [apply IH|].
    rewrite Z.gtb_ltb. apply Z.eqb_neq in E.
    destruct (x <? y) eqn:L, (y <? x) eqn:G; try lia; auto.
Qed.

Section Facts.
Variable int_ : string -> option Z.

Lemma not_operator c rest :
  starts_with_operator (String c rest) = false ->
  c <> "<"%char /\ c <> ">"%char /\ c <> "="%char /\ c <> "!"%char.
Proof.
  unfold starts_with_operator. intros H. apply bool_decide_eq_false in H.
  repeat split; intros ->; apply H; repeat constructor.
Qed.

Ltac operator_free H :=
  repeat match goal with
  | |- context [ascii_dec ?a ?b] =>
      destruct (ascii_dec a b) as [?|?]; try congruence; try discriminate
  end.

Lemma version_compare_operators a b :
  starts_with_operator b = false ->
  version_compare int_ a b = compare_with int_ Z.eqb a b
  /\ version_compare int_ a ("==" +:+ b) = compare_with int_ Z.eqb a b
  /\ version_compare int_ a ("=" +:+ b) = compare_with int_ Z.eqb a b
  /\ version_compare int_ a ("!=" +:+ b)
     = compare_with int_ (fun x y => negb (x =? y)) a b
  /\ version_compare int_ a ("<" +:+ b) = compare_with int_ Z.ltb a b
  /\ version_compare int_ a ("<=" +:+ b) = compare_with int_ Z.leb a b
  /\ version_compare int_ a (">" +:+ b) = compare_with int_ Z.gtb a b
  /\ version_compare int_ a (">=" +:+ b) = compare_with int_ Z.geb a b.
Proof.
  intros Hb. unfold version_compare, compare_with, pystr.startswith.
  destruct b as [|c rest].
  - repeat split; reflexivity.
  - destruct (not_operator c rest Hb) as (H1 & H2 & H3 & H4).
    repeat split;
      cbv beta iota delta [append String.prefix pytext.drop];
      operator_free Hb; reflexivity.
Qed.

Lemma compare_with_cases a b :
  (exists e, forall op, compare_with int_ op a b = Raise e)
  \/ (exists v1 v2,
        forall op, compare_with int_ op a b = Return (list_richcompare op v1 v2)).
Proof.
  destruct (if pystr.contains_char "-" a
            then pytext.item (pytext.split "-" a) 0 else Return a)
    as [a'|e] eqn:Ea.
  2:{ left. exists e. intros op. unfold compare_with. rewrite Ea. reflexivity. }
  destruct (ints int_ (pytext.split "." a')) as [v1|e] eqn:E1.
  2:{ left. exists e. intros op. unfold compare_with. rewrite Ea.
      unfold mbind, outcome_bind. rewrite E1. reflexivity. }
  destruct (ints int_ (pytext.split "." b)) as [v2|e] eqn:E2.
  2:{ left. exists e. intros op. unfold compare_with. rewrite Ea.
      unfold mbind, outcome_bind. rewrite E1, E2. reflexivity. }
  right. exists v1, v2. intros op. unfold compare_with. rewrite Ea.
  unfold mbind, outcome_bind. rewrite E1, E2. reflexivity.
Qed.

(** X12. The comparison operators of [version_compare] are consistent
    with each other.  For a version [b] that does not itself start with
    an operator character and any version [a]: either every comparison
    of [a] with [b] raises (a component is not a number), or all return,
    and then exactly one of [<b], [==b], [>b] is true, [=b] and the
    bare [b] mean [==b], and [>=b], [<=b], [!=b] are the negations of
    [<b], [>b], [==b]. *)
Theorem version_compare_operators_agree a b :
  starts_with_operator b = false ->
  (exists e, forall op, op ∈ [""; "=="; "="; "!="; "<"; "<="; ">"; ">="] ->
                        version_compare int_ a (op +:+ b) = Raise e)
  \/ (exists lt eq gt : bool,
        version_compare int_ a ("<" +:+ b) = Return lt
        /\ version_compare int_ a ("==" +:+ b) = Return eq
        /\ version_compare int_ a (">" +:+ b) = Return gt
        /\ version_compare int_ a ("=" +:+ b) = Return eq
        /\ version_compare int_ a b = Return eq
        /\ version_compare int_ a (">=" +:+ b) = Return (negb lt)
        /\ version_compare int_ a ("<=" +:+ b) = Return (negb gt)
        /\ version_compare int_ a ("!=" +:+ b) = Return (negb eq)
        /\ ((lt = true /\ eq = false /\ gt = false)
            \/ (lt = false /\ eq = true /\ gt = false)
            \/ (lt = false /\ eq = false /\ gt = true))).
Proof.
  intros Hb.
  destruct (version_compare_operators a b Hb)
    as (E0 & E1 & E2 & E3 & E4 & E5 & E6 & E7).
  destruct (compare_with_cases a b) as [[e He]|(v1 & v2 & Hv)].
  - left. exists e. intros op Hop.
    repeat (apply elem_of_cons in Hop as [->|Hop];
            [first [rewrite E1|rewrite E2|rewrite E3|rewrite E4
                   |rewrite E5|rewrite E6|rewrite E7
                   |change (EmptyString +:+ b) with b; rewrite E0];
             apply He|]).
    inversion Hop.
  - right.
    exists (list_richcompare Z.ltb v1 v2), (list_richcompare Z.eqb v1 v2),
           (list_richcompare Z.gtb v1 v2).
    rewrite E1, E2, E3, E4, E5, E6, E7, E0, !Hv.
    rewrite richcompare_ge, richcompare_le, richcompare_ne.
    repeat (split; [reflexivity|]). apply richcompare_trichotomy.
Qed.

End Facts.

End mesonlib_util_facts.

(* ===================================================================== *)
(** * Properties of the template substitution                             *)
(* ===================================================================== *)

Module substitution_facts.
Import mesonlib pytext_facts.

Lemma do_replacement_unfold fuel line confdata :
  do_replacement fuel line confdata
  = match search line with
    | None => Some (Return line)
    | Some varname =>
        match fuel with
        | O => None
        | S fuel' =>
            match (if has_key confdata varname then
                     var ← get confdata varname;
                     if pyval.is_str var then Return (pyval.str_value var)
                     else if pyval.is_int var then Return (pyval.str_of_int var)
                     else raise RuntimeError
                       "Tried to replace a variable with something other than a string or int."
                   else Return EmptyString) with
            | Raise e => Some (Raise e)
            | Return var =>
                do_replacement fuel'
                  (pystr.replace line ("@" +:+ varname +:+ "@") var) confdata
            end
        end
    end.
Proof. destruct fuel; reflexivity. Qed.

Lemma do_replacement_clean fuel line confdata :
  search line = None -> do_replacement fuel line confdata = Some (Return line).
Proof. intros H. rewrite do_replacement_unfold, H. reflexivity. Qed.

Lemma do_replacement_done fuel line confdata line' :
  do_replacement fuel line confdata = Some (Return line') -> search line' = None.
Proof.
  revert line. induction fuel as [|fuel IH]; intros line;
    rewrite do_replacement_unfold; destruct (search line) eqn:E.
  - discriminate.
  - intros [= <-]. exact E.
  - match goal with |- context [match ?x with Return _ => _ | Raise _ => _ end] =>
      destruct x end; [apply IH|discriminate].
  - intros [= <-]. exact E.
Qed.

(** X13. What [do_replacement] returns has no pattern left, and
    substitution is idempotent: when it returns a line, that line has no
    [@name@] match any more, and running [do_replacement] on it again
    (with any configuration data) returns it unchanged, without using
    any round of the loop. *)
Theorem do_replacement_is_idempotent fuel line confdata line' :
  do_replacement fuel line confdata = Some (Return line') ->
  search line' = None
  /\ forall fuel' confdata',
       do_replacement fuel' line' confdata' = Some (Return line').
Proof.
  intros H. apply do_replacement_done in H. split; [exact H|].
  intros fuel' confdata'. apply do_replacement_clean, H.
Qed.

Lemma drop_append a b : pytext.drop (String.length a) (a +:+ b) = b.
Proof. induction a as [|x a IH]; [destruct b; reflexivity|exact IH]. Qed.

Lemma replace_go_skip old new k s :
  pystr.replace_go old new k s = pystr.replace_go old new 0 (pytext.drop k s).
Proof.
  revert s. induction k as [|k IH]; intros s; [destruct s; reflexivity|].
  destruct s as [|a s]; [reflexivity|]. simpl. apply IH.
Qed.

Lemma replace_go_same old n s :
  old <> EmptyString -> (String.length s <= n)%nat ->
  pystr.replace_go old old 0 s = s.
Proof.
  intros Hold. revert s. induction n as [|n IH]; intros s Hn.
  - destruct s; [reflexivity|simpl in Hn; lia].
  - destruct s as [|a s]; [reflexivity|].
    cbn [pystr.replace_go].
    destruct (String.prefix old (String a s)) eqn:P.
    + destruct (prefix_split _ _ P) as [t Ht].
      destruct old as [|x old']; [congruence|].
      rewrite append_cons in Ht. injection Ht as -> ->.
      cbn [String.length Nat.sub]. rewrite Nat.sub_0_r.
      rewrite replace_go_skip, drop_append, IH.
      * reflexivity.
      * simpl in Hn. rewrite length_append in Hn. lia.
    + rewrite IH; [reflexivity|simpl in Hn; lia].
Qed.

Lemma replace_same s old : old <> EmptyString -> pystr.replace s old old = s.
Proof. intros H. apply (replace_go_same old (String.length s)); auto. Qed.

(** X14. [do_replacement] does not terminate when a value brings its own
    pattern back: if the leftmost [@name@] match of a line names a
    variable whose value is the text [@name@] itself, then no number of
    rounds of the loop is enough for [do_replacement] to return. *)
Theorem self_reference_never_ends line confdata varname :
  search line = Some varname ->
  values confdata !! varname = Some (VStr ("@" +:+ varname +:+ "@")) ->
  forall fuel, do_replacement fuel line confdata = None.
Proof.
  intros Hs Hv fuel. induction fuel as [|fuel IH];
    rewrite do_replacement_unfold, Hs; [reflexivity|].
  unfold has_key, get. rewrite Hv.
  rewrite bool_decide_true by eauto.
  unfold mbind, outcome_bind. cbn [pyval.is_str pyval.str_value].
  rewrite replace_same by discriminate. exact IH.
Qed.

Lemma tilde_differs dst : dst <> dst +:+ "~".
Proof.
  intros E. apply (f_equal String.length) in E.
  rewrite length_append in E. simpl in E. lia.
Qed.

Lemma write_frame f p data f' q :
  os.write f p data = Return f' -> q <> p -> f' !! q = f !! q.
Proof.
  unfold os.write. destruct (os.isdir f p); [discriminate|].
  destruct (_ && _); [discriminate|]. intros [= <-] Hq.
  apply lookup_insert_ne. congruence.
Qed.

Lemma write_result f p data f' :
  os.write f p data = Return f' -> f' !! p = Some (os.FFile data).
Proof.
  unfold os.write. destruct (os.isdir f p); [discriminate|].
  destruct (_ && _); [discriminate|]. intros [= <-].
  apply lookup_insert_eq.
Qed.

Lemma replace_if_different_result f dst tmp data f' :
  dst <> tmp -> f !! tmp = Some (os.FFile data) ->
  replace_if_different f dst tmp = Return f' ->
  (exists content,
     f' !! dst = Some (os.FFile content)
     /\ pystr.universal_newlines content = pystr.universal_newlines data
     /\ (content = data \/ f !! dst = Some (os.FFile content)))
  /\ f' !! tmp = None
  /\ forall q, q <> dst -> q <> tmp -> f' !! q = f !! q.
Proof.
  intros Hne Htmp.
  assert (Hreplace : forall f0,
    os_replace f tmp dst = Return f0 ->
    f0 !! dst = Some (os.FFile data) /\ f0 !! tmp = None
    /\ forall q, q <> dst -> q <> tmp -> f0 !! q = f !! q).
  { intros f0. unfold os_replace. rewrite Htmp.
    destruct (f !! dst) as [[a|]|]; [| discriminate |];
      intros [= <-]; rewrite lookup_insert_eq;
      rewrite lookup_insert_ne by congruence; rewrite lookup_delete_eq;
      (split; [reflexivity|]); (split; [reflexivity|]);
      intros q Hq1 Hq2; rewrite lookup_insert_ne by congruence;
      apply lookup_delete_ne; congruence. }
  unfold replace_if_different, os.read_text, os.read. rewrite Htmp.
  destruct (f !! dst) as [[a|]|] eqn:Hdst; cbn [mbind outcome_bind raise exn_class_of].
  - destruct (String.eqb (pystr.universal_newlines a)
                         (pystr.universal_newlines data)) eqn:E.
    + intros [= <-]. apply String.eqb_eq in E.
      rewrite lookup_delete_ne by congruence. rewrite lookup_delete_eq.
      split; [exists a; auto|]. split; [reflexivity|].
      intros q _ Hq. apply lookup_delete_ne. congruence.
    + intros Hr. destruct (Hreplace f' Hr) as (Hd & Ht & Hq).
      split; [exists data; auto|]. auto.
  - discriminate.
  - intros Hr. destruct (Hreplace f' Hr) as (Hd & Ht & Hq).
    split; [exists data; auto|]. auto.
Qed.

(** X15. [do_conf_file] touches only its output.  Whatever the call does,
    every path other than [dst] and the temporary [dst~] holds afterwards
    what it held before.  When the call returns, no file [dst~] is left
    and [dst] holds the converted lines of the template, read in text
    mode: either exactly these lines, or what [dst] held before, which
    then reads as the same text.  When the template cannot be read or one
    of its lines raises, nothing at all has been written. *)
Theorem do_conf_file_touches_only_output fuel f src dst confdata f' r :
  do_conf_file fuel f src dst confdata = Some (f', r) ->
  (forall q, q <> dst -> q <> dst +:+ "~" -> f' !! q = f !! q)
  /\ (r = Return tt ->
      exists text result content,
        os.read_text f src = Return text
        /\ do_conf_lines fuel (pystr.readlines text) confdata = Some (Return result)
        /\ f' !! dst = Some (os.FFile content)
        /\ os.read_text f' dst
           = Return (pystr.universal_newlines (pystr.concat_lines result))
        /\ (content = pystr.concat_lines result
            \/ f !! dst = Some (os.FFile content))
        /\ f' !! (dst +:+ "~") = None)
  /\ (forall e, (os.read_text f src = Raise e
                 \/ exists text, os.read_text f src = Return text
                      /\ do_conf_lines fuel (pystr.readlines text) confdata
                         = Some (Raise e)) ->
                f' = f /\ r = Raise e).
Proof.
  unfold do_conf_file.
  destruct (os.read_text f src) as [text|e] eqn:Hread.
  2:{ intros [= <- <-]. split; [auto|]. split; [discriminate|].
      intros e' [[= ->]|(text & [= ] & _)]. auto. }
  destruct (do_conf_lines fuel (pystr.readlines text) confdata)
    as [[result|e]|] eqn:Hlines; [| |discriminate].
  2:{ intros [= <- <-]. split; [auto|]. split; [discriminate|].
      intros e' [[= ]|(text' & [= <-] & Hl)]. rewrite Hlines in Hl.
      injection Hl as ->. auto. }
  destruct (os.write f (dst +:+ "~") (pystr.concat_lines result))
    as [f1|e] eqn:Hwrite.
  2:{ intros [= <- <-]. split; [auto|]. split; [discriminate|].
      intros e' [[= ]|(text' & [= <-] & Hl)]. rewrite Hlines in Hl.
      discriminate. }
  pose proof (write_result _ _ _ _ Hwrite) as Htmp.
  destruct (replace_if_different f1 dst (dst +:+ "~")) as [f2|e] eqn:Hrep.
  - intros [= <- <-].
    destruct (replace_if_different_result _ _ _ _ _ (tilde_differs dst) Htmp Hrep)
      as ((content & Hdst & Hsame & Hwhich) & Hgone & Hframe).
    split; [|split].
    + intros q Hq1 Hq2. rewrite Hframe by assumption.
      exact (write_frame _ _ _ _ q Hwrite Hq2).
    + intros _. exists text, result, content.
      split; [first [reflexivity|assumption]|].
      split; [first [reflexivity|assumption]|]. split; [exact Hdst|].
      split; [|split; [|exact Hgone]].
      * unfold os.read_text, os.read. rewrite Hdst.
        cbn [mbind outcome_bind]. rewrite Hsame. reflexivity.
      * destruct Hwhich as [Hw|Hw]; [left; exact Hw|right].
        rewrite <- Hw. symmetry.
        exact (write_frame _ _ _ _ dst Hwrite (tilde_differs dst)).
    + intros e' [[= ]|(text' & [= <-] & Hl)]. rewrite Hlines in Hl. discriminate.
  - intros [= <- <-]. split; [|split].
    + intros q _ Hq2. exact (write_frame _ _ _ _ q Hwrite Hq2).
    + discriminate.
    + intros e' [[= ]|(text' & [= <-] & Hl)]. rewrite Hlines in Hl. discriminate.
Qed.

End substitution_facts.

(* ===================================================================== *)
(** * Reading a wrap file back                                            *)
(* ===================================================================== *)

Module wrapfile_facts.
Import wrap wrapfile pytext_facts.

Lemma rev_app_spec a b : String.rev_app a b = String.rev a +:+ b.
Proof.
  revert b. induction a as [|x a IH]; intros b; [reflexivity|].
  unfold String.rev. simpl. rewrite (IH (String x b)), (IH (String x EmptyString)).
  rewrite append_assoc. reflexivity.
Qed.

Lemma rev_cons x s : String.rev (String x s) = String.rev s +:+ String x EmptyString.
Proof. unfold String.rev at 1. simpl. apply rev_app_spec. Qed.

Lemma rev_append a b : String.rev (a +:+ b) = String.rev b +:+ String.rev a.
Proof.
  induction a as [|x a IH].
  - simpl. rewrite append_nil_r. reflexivity.
  - rewrite append_cons, !rev_cons, IH, append_assoc. reflexivity.
Qed.

Lemma rev_involutive s : String.rev (String.rev s) = s.
Proof.
  induction s as [|x s IH]; [reflexivity|].
  rewrite rev_cons, rev_append, IH. reflexivity.
Qed.

Lemma rev_empty s : String.rev s = EmptyString -> s = EmptyString.
Proof. intros E. rewrite <- (rev_involutive s), E. reflexivity. Qed.

Lemma readlines_go_line cur a rest :
  pystr.contains_char "010" a = false ->
  pystr.readlines_go cur (a +:+ String "010" rest)
  = (String.rev cur +:+ a +:+ mesonlib.newline) :: pystr.readlines_go EmptyString rest.
Proof.
  revert cur. induction a as [|x a IH]; intros cur Ha.
  - simpl. rewrite rev_cons. reflexivity.
  - simpl in Ha. apply orb_false_iff in Ha as [Hx Ha].
    rewrite append_cons. cbn [pystr.readlines_go]. rewrite Hx.
    rewrite (IH _ Ha), rev_cons, append_assoc. reflexivity.
Qed.

Lemma lstrip_length s : (String.length (pystr.lstrip s) <= String.length s)%nat.
Proof.
  induction s as [|c s IH]; simpl; [lia|].
  destruct (pystr.isspace c); simpl; lia.
Qed.

Lemma lstrip_fixed s :
  pystr.lstrip s = s -> s <> EmptyString ->
  exists c s', s = String c s' /\ pystr.isspace c = false.
Proof.
  destruct s as [|c s]; [congruence|]. intros E _. exists c, s.
  split; [reflexivity|]. simpl in E.
  destruct (pystr.isspace c); [|reflexivity].
  pose proof (lstrip_length s) as L. rewrite E in L. simpl in L. lia.
Qed.

Lemma lstrip_append s t :
  pystr.lstrip s = s -> s <> EmptyString -> pystr.lstrip (s +:+ t) = s +:+ t.
Proof.
  intros E Hs. destruct (lstrip_fixed s E Hs) as (c & s' & -> & Hc).
  rewrite append_cons. simpl. rewrite Hc. reflexivity.
Qed.

Lemma rstrip_fixed_rev t :
  pystr.rstrip t = t -> pystr.lstrip (String.rev t) = String.rev t.
Proof.
  unfold pystr.rstrip. intros E. apply (f_equal String.rev) in E.
  rewrite rev_involutive in E. exact E.
Qed.

Lemma rstrip_append s t :
  pystr.rstrip t = t -> t <> EmptyString -> pystr.rstrip (s +:+ t) = s +:+ t.
Proof.
  intros E Ht. unfold pystr.rstrip. rewrite rev_append.
  rewrite lstrip_append.
  - rewrite <- rev_append. apply rev_involutive.
  - apply rstrip_fixed_rev, E.
  - intros Hr. apply Ht, rev_empty, Hr.
Qed.

Lemma rstrip_space s c :
  pystr.isspace c = true ->
  pystr.rstrip (s +:+ String c EmptyString) = pystr.rstrip s.
Proof.
  intros Hc. unfold pystr.rstrip. rewrite rev_append.
  change (String.rev (String c EmptyString)) with (String c EmptyString).
  rewrite append_cons. simpl. rewrite Hc. reflexivity.
Qed.

Lemma split_once_app c a b :
  pystr.contains_char c a = false ->
  pystr.split_once c (a +:+ String c b) = Some (a, b).
Proof.
  induction a as [|x a IH]; intros Ha.
  - simpl. rewrite Ascii.eqb_refl. reflexivity.
  - simpl in Ha. apply orb_false_iff in Ha as [Hx Ha].
    rewrite append_cons. simpl. rewrite Hx, (IH Ha). reflexivity.
Qed.

Lemma line_shape k v :
  k +:+ " = " +:+ v = (k +:+ " ") +:+ String "=" (" " +:+ v).
Proof. rewrite append_assoc. reflexivity. Qed.

Lemma strip_line kv :
  entry_ok kv -> pystr.strip (line_of kv +:+ mesonlib.newline) = line_of kv.
Proof.
  destruct kv as [k v]. intros ((Hkl & Hkr & Hk) & (Hvl & Hvr & Hv) & _).
  unfold pystr.strip, line_of. cbn [fst snd].
  rewrite !append_assoc. rewrite (lstrip_append k _ Hkl Hk).
  rewrite <- !append_assoc.
  rewrite (rstrip_space _ "010" eq_refl).
  rewrite !append_assoc.
  change (k +:+ " = " +:+ v) with (k +:+ (" = " +:+ v)).
  rewrite <- (append_assoc k " = " v). apply rstrip_append; assumption.
Qed.

Lemma strip_key k :
  trimmed k -> pystr.strip (k +:+ " ") = k.
Proof.
  intros (Hl & Hr & Hk). unfold pystr.strip.
  rewrite (lstrip_append k _ Hl Hk). rewrite (rstrip_space _ " " eq_refl).
  exact Hr.
Qed.

Lemma strip_value v :
  trimmed v -> pystr.strip (" " +:+ v) = v.
Proof.
  intros (Hl & Hr & Hv). unfold pystr.strip.
  change (" " +:+ v) with (String " " v). simpl. rewrite Hl. exact Hr.
Qed.

Lemma line_not_empty kv : entry_ok kv -> String.eqb (line_of kv) EmptyString = false.
Proof.
  destruct kv as [k v]. intros ((_ & _ & Hk) & _). unfold line_of.
  cbn [fst snd] in *. destruct k; [congruence|reflexivity].
Qed.

Lemma parse_entries entries values :
  Forall entry_ok entries ->
  parse_values ((fun kv => line_of kv +:+ mesonlib.newline) <$> entries) values
  = Return (foldl (fun m kv => <[fst kv := snd kv]> m) values entries).
Proof.
  intros Hok. revert values.
  induction Hok as [|kv entries Hkv _ IH]; intros values; [reflexivity|].
  cbn [fmap list_fmap parse_values foldl].
  rewrite (strip_line kv Hkv), (line_not_empty kv Hkv).
  destruct kv as [k v]. destruct Hkv as (Hk & Hv & Heq & _).
  unfold line_of. cbn [fst snd] in *. rewrite line_shape.
  rewrite split_once_app.
  - rewrite (strip_key k Hk), (strip_value v Hv). apply IH.
  - rewrite contains_char_app, Heq. reflexivity.
Qed.

Lemma readlines_entries entries :
  Forall entry_ok entries ->
  pystr.readlines_go EmptyString (render_entries entries)
  = (fun kv => line_of kv +:+ mesonlib.newline) <$> entries.
Proof.
  induction 1 as [|kv entries Hkv _ IH]; [reflexivity|].
  destruct kv as [k v]. destruct Hkv as (_ & _ & _ & Hkn & Hvn & _).
  cbn [render_entries fmap list_fmap fst snd] in *.
  replace (k +:+ " = " +:+ v +:+ mesonlib.newline +:+ render_entries entries)
    with ((k +:+ " = " +:+ v) +:+ String "010" (render_entries entries))
    by (rewrite !append_assoc; reflexivity).
  rewrite readlines_go_line.
  - rewrite IH. reflexivity.
  - rewrite !contains_char_app, Hkn, Hvn. reflexivity.
Qed.

Lemma universal_newlines_plain s :
  pystr.contains_char "013" s = false -> pystr.universal_newlines s = s.
Proof.
  induction s as [|a s IH]; [reflexivity|].
  cbn [pystr.contains_char pystr.universal_newlines].
  destruct (Ascii.eqb a "013"); [discriminate|].
  intros Hs. rewrite (IH Hs). reflexivity.
Qed.

Lemma render_entries_plain entries :
  Forall entry_ok entries ->
  pystr.contains_char "013" (render_entries entries) = false.
Proof.
  induction 1 as [|kv entries Hkv _ IH]; [reflexivity|].
  destruct kv as [k v]. destruct Hkv as (_ & _ & _ & _ & _ & Hk & Hv).
  cbn [render_entries fst snd] in *.
  rewrite !contains_char_app, Hk, Hv, IH. reflexivity.
Qed.

Lemma foldl_insert_to_map (entries : list (string * string))
    (values : gmap string string) :
  foldl (fun m kv => <[fst kv := snd kv]> m) values entries
  = list_to_map (reverse entries) ∪ values.
Proof.
  revert values. induction entries as [|[k v] entries IH]; intros values.
  - simpl. rewrite (left_id_L ∅ (∪)). reflexivity.
  - cbn [foldl fst snd]. rewrite IH, reverse_cons, list_to_map_app.
    cbn [list_to_map foldr uncurry].
    rewrite <- (assoc_L (∪)). f_equal.
    rewrite insert_union_singleton_l, insert_empty. reflexivity.
Qed.

(** X16. A wrap file reads back as it was written.  For a file made of
    the header [[wrap-file]] and lines [key = value], whose keys and
    values are not empty, have no white space at their ends and no line
    ending (LF or CR) inside, and whose keys have no [=],
    [PackageDefinition(fname)] has the type [file] and the dictionary of
    these keys and values, a later line replacing an earlier one for the
    same key. *)
Theorem package_definition_reads_back f fname entries :
  Forall entry_ok entries ->
  f !! fname = Some (os.FFile (render entries)) ->
  PackageDefinition__init__ f fname
  = Return (mkPackageDefinition "file" (list_to_map (reverse entries))).
Proof.
  intros Hok Hf. unfold PackageDefinition__init__, os.read_text, os.read.
  rewrite Hf. cbn [mbind outcome_bind].
  rewrite universal_newlines_plain
    by (unfold render; rewrite !contains_char_app, (render_entries_plain _ Hok);
        reflexivity).
  assert (Hlines : pystr.readlines (render entries)
                   = ("[wrap-file]" +:+ mesonlib.newline)
                     :: ((fun kv => line_of kv +:+ mesonlib.newline) <$> entries)).
  { unfold pystr.readlines, render.
    change ("[wrap-file]" +:+ mesonlib.newline +:+ render_entries entries)
      with ("[wrap-file]" +:+ String "010" (render_entries entries)).
    rewrite readlines_go_line by reflexivity.
    rewrite (readlines_entries entries Hok). reflexivity. }
  rewrite Hlines. cbn [hd tl].
  change (pystr.strip ("[wrap-file]" +:+ mesonlib.newline)) with "[wrap-file]".
  rewrite String.eqb_refl.
  unfold mbind at 1. unfold outcome_bind at 1.
  rewrite (parse_entries entries ∅ Hok).
  unfold mbind, outcome_bind.
  rewrite foldl_insert_to_map, (right_id_L ∅ (∪)). reflexivity.
Qed.

End wrapfile_facts.

(* ===================================================================== *)
(** * More properties of the wrap resolver                                *)
(* ===================================================================== *)

Module resolver_facts.
Import wrap wrapfile wrap_facts.

Section Facts.
Context `{Host}.
Variable subdir_root : string.

(** X17. [resolve] does nothing when there is nothing to do.  Without a
    wrap file, it answers with the package name if the directory is there
    and with [None] otherwise.  With a wrap file of type [file] whose
    archive is in the cache and whose directory has been extracted, it
    answers with the directory.  In both cases the files are left as they
    were and no call leaves the program: no download, no extraction, no
    subprocess. *)
Theorem resolve_in_place packagename w :
  (os.isfile (fs w) (os.join subdir_root (packagename +:+ ".wrap")) = false ->
   resolve subdir_root packagename w
   = (w, Return (if os.isdir (fs w) (os.join subdir_root packagename)
                 then Some packagename else None)))
  /\ (forall p sf directory,
        PackageDefinition__init__ (fs w)
          (os.join subdir_root (packagename +:+ ".wrap")) = Return p ->
        type p = "file" ->
        os.isdir (fs w) (cachedir subdir_root) = true ->
        get p "source_filename" = Return sf ->
        os.exists_ (fs w) (os.join (cachedir subdir_root) sf) = true ->
        get p "directory" = Return directory ->
        os.isdir (fs w) (os.join subdir_root directory) = true ->
        resolve subdir_root packagename w = (w, Return (Some directory))).
Proof.
  split.
  - intros Hno. unfold resolve.
    rewrite (W_bind_return get_fs _ w w (fs w) eq_refl). rewrite Hno. simpl.
    destruct (os.isdir _ _); reflexivity.
  - intros p sf directory Hp Hty Hcache Hsf Hex Hdir Hthere.
    unfold resolve.
    rewrite (W_bind_return get_fs _ w w (fs w) eq_refl).
    rewrite (init_isfile _ _ _ Hp). simpl.
    rewrite (W_bind_return (lift _) _ w w p) by (unfold lift; rewrite Hp; reflexivity).
    rewrite Hty, Hcache. simpl.
    assert (Hextract : extract_package subdir_root p w = (w, Return tt)).
    { unfold extract_package.
      rewrite (W_bind_return (lift _) _ w w directory)
        by (unfold lift; rewrite Hdir; reflexivity).
      rewrite (W_bind_return get_fs _ w w (fs w) eq_refl).
      rewrite Hthere. reflexivity. }
    assert (Hsteps :
      (mret tt ≫= (fun _ : unit =>
         download subdir_root p packagename ≫= fun _ : unit =>
         extract_package subdir_root p)) w = (w, Return tt)).
    { rewrite (W_bind_return (mret tt) _ w w tt eq_refl).
      rewrite (W_bind_return _ _ w w tt (download_cached subdir_root p packagename sf w Hsf Hex)).
      exact Hextract. }
    rewrite (W_bind_return _ _ w w tt Hsteps).
    rewrite (W_bind_return (lift _) _ w w directory)
      by (unfold lift; rewrite Hdir; reflexivity).
    reflexivity.
Qed.

Lemma call_log argv cwd w w' r :
  call argv cwd w = (w', r) -> log w' = log w ++ [Subprocess argv cwd].
Proof.
  unfold call, mbind, W_bind, emit, spawn. simpl.
  destruct (subprocess_call argv cwd (fs w)) as [f rc].
  intros [= <- _]. reflexivity.
Qed.

Lemma check_call_log argv cwd w w' r :
  check_call argv cwd w = (w', r) -> log w' = log w ++ [Subprocess argv cwd].
Proof.
  unfold check_call. unfold mbind at 1. unfold W_bind at 1.
  destruct (call argv cwd w) as [w1 [rc|e]] eqn:E; apply call_log in E.
  - destruct (rc =? 0); intros E'; run_inv E'; exact E.
  - intros E'. run_inv E'. exact E.
Qed.

Lemma get_git_log p w w' r :
  get_git subdir_root p w = (w', r) ->
  exists evs, Forall is_git evs /\ log w' = log w ++ evs.
Proof.
  unfold get_git. unfold mbind at 1. unfold W_bind at 1. unfold lift at 1.
  destruct (get p "directory") as [directory|e].
  2:{ intros E. run_inv E. exists []. rewrite app_nil_r. auto. }
  unfold mbind at 1. unfold W_bind at 1. unfold lift at 1.
  destruct (get p "revision") as [revno|e].
  2:{ intros E. run_inv E. exists []. rewrite app_nil_r. auto. }
  rewrite (W_bind_return get_fs _ w w (fs w) eq_refl).
  destruct (os.isdir (fs w) (os.join subdir_root directory)).
  - destruct (String.eqb (pystr.lower revno) "head").
    + intros E. apply check_call_log in E. eexists. split; [|exact E].
      repeat constructor.
    + unfold mbind at 1. unfold W_bind at 1.
      destruct (call _ _ w) as [w1 [rc|e]] eqn:E1; apply call_log in E1.
      2:{ intros E. run_inv E. eexists. split; [|exact E1]. repeat constructor. }
      destruct (negb (rc =? 0)).
      2:{ intros E. run_inv E. eexists. split; [|exact E1]. repeat constructor. }
      unfold mbind at 1. unfold W_bind at 1.
      destruct (check_call _ _ w1) as [w2 [[]|e]] eqn:E2; apply check_call_log in E2.
      2:{ intros E. run_inv E. rewrite E2, E1, <- app_assoc.
          eexists. split; [|reflexivity]. repeat constructor. }
      intros E3. apply check_call_log in E3.
      rewrite E3, E2, E1, <- !app_assoc.
      eexists. split; [|reflexivity]. repeat constructor.
  - unfold mbind at 1. unfold W_bind at 1. unfold lift at 1.
    destruct (get p "url") as [url|e].
    2:{ intros E. run_inv E. exists []. rewrite app_nil_r. auto. }
    unfold mbind at 1. unfold W_bind at 1. unfold lift at 1.
    unfold mbind at 1. unfold W_bind at 1.
    destruct (check_call _ _ w) as [w1 [[]|e]] eqn:E1; apply check_call_log in E1.
    2:{ intros E. run_inv E. eexists. split; [|exact E1]. repeat constructor. }
    destruct (negb _).
    + intros E2. apply check_call_log in E2. rewrite E2, E1, <- app_assoc.
      eexists. split; [|reflexivity]. repeat constructor.
    + intros E. run_inv E. eexists. split; [|exact E1]. repeat constructor.
Qed.

(** X18. A wrap of type [git] is resolved by running [git] and nothing
    else: whatever [resolve] does for such a wrap, and whether it returns
    or raises, every call that leaves the program is a subprocess whose
    first word is [git]; nothing is downloaded and no archive is
    extracted. *)
Theorem resolve_git_only_runs_git packagename w p w' r :
  PackageDefinition__init__ (fs w)
    (os.join subdir_root (packagename +:+ ".wrap")) = Return p ->
  type p = "git" ->
  resolve subdir_root packagename w = (w', r) ->
  exists evs, log w' = log w ++ evs
              /\ Forall is_git evs
              /\ Forall (fun e => ~ is_download e /\ ~ is_unpack e) evs.
Proof.
  intros Hp Hty. unfold resolve.
  rewrite (W_bind_return get_fs _ w w (fs w) eq_refl).
  rewrite (init_isfile _ _ _ Hp). simpl.
  rewrite (W_bind_return (lift _) _ w w p) by (unfold lift; rewrite Hp; reflexivity).
  rewrite Hty. simpl.
  unfold mbind at 1. unfold W_bind at 1.
  destruct (get_git subdir_root p w) as [w1 r1] eqn:E1.
  apply get_git_log in E1 as (evs & Hgit & Hlog).
  intros Hres.
  assert (Hw' : log w' = log w1).
  { destruct r1 as [[]|e].
    - unfold mbind, W_bind, lift in Hres. destruct (get p "directory");
        run_inv Hres; reflexivity.
    - run_inv Hres. reflexivity. }
  exists evs. rewrite Hw', Hlog. split; [reflexivity|].
  split; [exact Hgit|].
  eapply Forall_impl; [exact Hgit|]. intros [] Hx; simpl in *; tauto.
Qed.

(** X19. Nothing is cached unless both hashes match.  For a wrap with a
    patch whose source archive is not in the cache: when both downloads
    succeed and the source archive has the expected hash but the patch
    has not, [download] raises the "Incorrect hash for patch" error, and
    the files are as before -- neither the patch nor the source archive,
    whose hash was right, has been written to the cache. *)
Theorem patch_mismatch_caches_nothing p packagename w sf url resp n expected
    purl presp pn pexpected :
  get p "source_filename" = Return sf ->
  os.exists_ (fs w) (os.join (cachedir subdir_root) sf) = false ->
  get p "source_url" = Return url ->
  urlopen url = Return resp ->
  content_length resp = Return n ->
  body resp = EmptyString \/ n <> 0 ->
  get p "source_hash" = Return expected ->
  get_hash (body resp) = expected ->
  get p "patch_url" = Return purl ->
  urlopen purl = Return presp ->
  content_length presp = Return pn ->
  body presp = EmptyString \/ pn <> 0 ->
  get p "patch_hash" = Return pexpected ->
  get_hash (body presp) <> pexpected ->
  exists w',
    download subdir_root p packagename w
    = (w', Raise (incorrect_patch_hash packagename pexpected
                    (get_hash (body presp))))
    /\ fs w' = fs w
    /\ log w' = log w ++ [Download url; Download purl]
    /\ os.exists_ (fs w') (os.join (cachedir subdir_root) sf) = false.
Proof.
  intros Hsf Hex Hurl Hu Hc Hz Hexp Hh Hpurl Hpu Hpc Hpz Hpexp Hph.
  exists (mkWorld (fs w) (log w ++ [Download url; Download purl])).
  split; [|auto].
  unfold download.
  rewrite (W_bind_return (lift _) _ w w sf) by (unfold lift; rewrite Hsf; reflexivity).
  rewrite (W_bind_return get_fs _ w w (fs w) eq_refl). rewrite Hex.
  rewrite (W_bind_return (lift _) _ w w url) by (unfold lift; rewrite Hurl; reflexivity).
  rewrite (W_bind_return _ _ w _ _ (get_data_ok url resp n w Hu Hc Hz)).
  set (w1 := mkWorld (fs w) (log w ++ [Download url])).
  rewrite (W_bind_return (lift _) _ w1 w1 expected)
    by (unfold lift; rewrite Hexp; reflexivity).
  rewrite Hh, String.eqb_refl. cbn [negb].
  assert (Hpatch : has_patch p = true).
  { unfold has_patch. apply bool_decide_eq_true. unfold get in Hpurl.
    destruct (values p !! "patch_url"); [eauto|discriminate]. }
  rewrite Hpatch.
  apply W_bind_raise.
  rewrite (W_bind_return (lift _) _ w1 w1 purl)
    by (unfold lift; rewrite Hpurl; reflexivity).
  rewrite (W_bind_return _ _ w1 _ _ (get_data_ok purl presp pn w1 Hpu Hpc Hpz)).
  set (w2 := mkWorld (fs w1) (log w1 ++ [Download purl])).
  rewrite (W_bind_return (lift _) _ w2 w2 pexpected)
    by (unfold lift; rewrite Hpexp; reflexivity).
  destruct (String.eqb_spec (get_hash (body presp)) pexpected); [contradiction|].
  cbn [negb]. unfold throw, raise, incorrect_patch_hash, w2, w1. simpl.
  rewrite <- app_assoc. reflexivity.
Qed.

End Facts.

End resolver_facts.

(* ===================================================================== *)
(** * Properties of equality on values                                    *)
(* ===================================================================== *)

Module pyops_facts.
Import pyops mesonlib_util_facts.

Lemma eq_lists la lb :
  eq (VList la) (VList lb)
  = if negb (length la =? length lb)%nat then Return false else items_eq la lb.
Proof.
  cbn [eq]. destruct (negb (length la =? length lb)%nat); reflexivity.
Qed.

Lemma ne_lists la lb :
  ne (VList la) (VList lb)
  = if negb (length la =? length lb)%nat then Return true else items_ne la lb.
Proof.
  cbn [ne]. destruct (negb (length la =? length lb)%nat); reflexivity.
Qed.

Lemma items_ne_eq la lb :
  items_ne la lb = (r ← items_eq la lb; Return (negb r)).
Proof.
  revert lb. induction la as [|x la IH]; intros [|y lb]; try reflexivity.
  simpl. destruct (eq x y) as [[]|]; simpl; auto.
Qed.

Lemma ne_negates_eq a b : ne a b = (r ← eq a b; Return (negb r)).
Proof.
  destruct a, b; try reflexivity.
  rewrite ne_lists, eq_lists. destruct (negb _); [reflexivity|].
  apply items_ne_eq.
Qed.

Lemma items_eq_sym la lb :
  Forall (fun x => forall y, eq x y = eq y x) la ->
  items_eq la lb = items_eq lb la.
Proof.
  intros H. revert lb. induction H as [|x la Hx _ IH]; intros [|y lb];
    try reflexivity.
  simpl. rewrite Hx. destruct (eq y x) as [[]|]; simpl; auto.
Qed.

Lemma eq_symmetric a b : eq a b = eq b a.
Proof.
  revert b.
  induction a as [|x|x|x|la IH|ib sd fn|c r] using Value_nested_ind;
    intros v; destruct v as [|y|y|y|lb|ib' sd' fn'|c' r'];
    try reflexivity;
    first
      [ simpl; rewrite Z.eqb_sym; reflexivity
      | simpl; rewrite String.eqb_sym; reflexivity
      | simpl; destruct x, y; reflexivity
      | rewrite !eq_lists, Nat.eqb_sym;
        destruct (negb (length lb =? length la)%nat);
        [reflexivity|apply items_eq_sym, IH]
      | simpl; rewrite (String.eqb_sym fn), (String.eqb_sym sd);
        destruct ib, ib'; reflexivity
      | simpl; rewrite Nat.eqb_sym;
        destruct (decide (c = c')) as [->|Hne];
        [rewrite !bool_decide_true by reflexivity
        |rewrite !bool_decide_false by congruence]; reflexivity ].
Qed.

End pyops_facts.

(* ===================================================================== *)
(** * Properties of variables, comparison and array methods               *)
(* ===================================================================== *)

Module statements_facts.
Import interpreter statements pyops_facts mesonlib_util_facts.

Lemma bind_ret {A B} (m : M A) (f : A -> M B) st st1 a :
  m st = (st1, Return a) -> (m ≫= f) st = f a st1.
Proof. intros E. unfold mbind, M_bind. rewrite E. reflexivity. Qed.

Lemma bind_exn {A B} (m : M A) (f : A -> M B) st st1 e :
  m st = (st1, Raise e) -> (m ≫= f) st = (st1, Raise e).
Proof. intros E. unfold mbind, M_bind. rewrite E. reflexivity. Qed.

Lemma set_variable_ok varname v st :
  v <> VNone -> fullmatch varname = true ->
  builtin (self st) !! varname = None ->
  set_variable (VStr varname) v st = (assigned varname v st, Return tt).
Proof.
  intros Hv Hname Hb. unfold set_variable.
  assert (Ha : is_assignable v = true) by (destruct v; try reflexivity; congruence).
  destruct v; try congruence;
    cbn [pyval.is_str negb pyval.str_value]; rewrite ?Ha, Hname; cbn [negb];
    rewrite (bind_ret get_state _ st st st eq_refl), Hb;
    rewrite bool_decide_false by (intros [? ?]; discriminate); reflexivity.
Qed.

Lemma get_variable_assigned varname v st :
  builtin (self st) !! varname = None ->
  get_variable varname (assigned varname v st)
  = (assigned varname v st, Return v).
Proof.
  intros Hb. unfold get_variable, assigned. simpl. rewrite Hb.
  rewrite lookup_insert_eq. reflexivity.
Qed.

Lemma get_variable_other varname v other st :
  other <> varname ->
  snd (get_variable other (assigned varname v st)) = snd (get_variable other st).
Proof.
  intros Hne. unfold get_variable, assigned. simpl.
  destruct (builtin (self st) !! other); [reflexivity|].
  rewrite lookup_insert_ne by congruence.
  destruct (variables (self st) !! other); reflexivity.
Qed.

Section Statements.
Variable ev : Node -> M Value.

(** X20. A variable holds what was assigned to it.  When the right-hand
    side evaluates to a value [v] that is not [None], the name is an
    identifier and is not the name of a built-in object, the assignment
    returns [v]; afterwards [get_variable] returns [v] for that name and
    what it returned before for every other name, and nothing but the
    variables of the running interpreter has changed. *)
Theorem assignment_then_lookup varname node st st1 v :
  ev node st = (st1, Return v) ->
  v <> VNone -> fullmatch varname = true ->
  builtin (self st1) !! varname = None ->
  let st2 := assigned varname v st1 in
  assignment ev (VStr varname) node st = (st2, Return v)
  /\ get_variable varname st2 = (st2, Return v)
  /\ (forall other, other <> varname ->
        snd (get_variable other st2) = snd (get_variable other st1))
  /\ build st2 = build st1 /\ heap st2 = heap st1 /\ fs st2 = fs st1.
Proof.
  intros Hev Hv Hname Hb st2. split; [|split; [|split]].
  - unfold assignment. cbn [pyval.is_str negb].
    rewrite (bind_ret _ _ st st1 v Hev). unfold to_native.
    assert (Ha : is_assignable v = true) by (destruct v; try reflexivity; congruence).
    rewrite Ha. cbn [negb].
    rewrite (bind_ret _ _ st1 st2 tt (set_variable_ok varname v st1 Hv Hname Hb)).
    reflexivity.
  - apply get_variable_assigned, Hb.
  - intros other Hne. apply get_variable_other, Hne.
  - repeat split.
Qed.

(** X21. [+=] appends to an array: when the variable holds a list, the
    name is an identifier and not that of a built-in object, [a += e]
    stores the list followed by the items of [e] if [e] evaluates to a
    list, and followed by the value of [e] itself otherwise; when the
    variable holds anything but a list, it raises [InvalidArguments] and
    stores nothing. *)
Theorem plusassign_appends varname node st st1 addition old :
  ev node st = (st1, Return addition) ->
  builtin (self st1) !! varname = None ->
  variables (self st1) !! varname = Some old ->
  fullmatch varname = true ->
  match old with
  | VList l =>
      let new_value :=
        VList (l ++ match addition with VList a => a | _ => [addition] end) in
      let st2 := assigned varname new_value st1 in
      evaluate_plusassign ev varname node st = (st2, Return VNone)
      /\ get_variable varname st2 = (st2, Return new_value)
  | _ =>
      evaluate_plusassign ev varname node st
      = (st1, raise InvalidArguments
                "The += operator currently only works with arrays.")
  end.
Proof.
  intros Hev Hb Hold Hname.
  assert (Hget : get_variable varname st1 = (st1, Return old)).
  { unfold get_variable. rewrite Hb, Hold. reflexivity. }
  unfold evaluate_plusassign.
  rewrite (bind_ret _ _ st st1 addition Hev).
  rewrite (bind_ret _ _ st1 st1 old Hget).
  destruct old as [| | | |l| |]; try reflexivity.
  cbv zeta. split.
  - assert (Hset : forall nv,
      set_variable (VStr varname) (VList nv) st1
      = (assigned varname (VList nv) st1, Return tt)).
    { intros nv. apply set_variable_ok; [discriminate|assumption|assumption]. }
    destruct addition; rewrite (bind_ret _ _ st1 _ tt (Hset _)); reflexivity.
  - apply get_variable_assigned, Hb.
Qed.

(** X22. [!=] is the negation of [==].  For the same operands in the same
    state the two comparisons end in the same state, and either both
    raise the same exception or [==] returns a boolean and [!=] returns
    its negation.  Equality itself does not depend on the order of its
    operands, and a boolean equals the integer it stands for. *)
Theorem comparison_is_consistent left right st :
  (let '(s1, r1) := evaluate_comparison ev left right "==" st in
   let '(s2, r2) := evaluate_comparison ev left right "!=" st in
   s1 = s2
   /\ match r1, r2 with
      | Return a, Return b => exists x, a = VBool x /\ b = VBool (negb x)
      | Raise e1, Raise e2 => e1 = e2
      | _, _ => False
      end)
  /\ (forall a b, pyops.eq a b = pyops.eq b a)
  /\ (forall b, pyops.eq (VBool b) (VInt (if b then 1 else 0)) = Return true).
Proof.
  split; [|split; [exact eq_symmetric|intros []; reflexivity]].
  unfold evaluate_comparison, comparison_operand.
  unfold mbind, M_bind, mret, M_ret, lift, throw.
  destruct (ev left st) as [sa [v1|e]]; [|simpl; auto].
  destruct (ev right sa) as [sb [v2|e]]; [|simpl; auto].
  destruct (is_elementary_type v1); [|simpl; auto].
  destruct (is_elementary_type v2); [|simpl; auto].
  rewrite ne_negates_eq.
  destruct (pyops.eq v1 v2) as [x|e]; simpl; eauto.
Qed.

End Statements.

(** X23. The built-in objects cannot be overwritten: whatever name and
    value [set_variable] is called with, and whether it returns or
    raises, the built-in objects are the same afterwards and
    [get_variable] still returns the built-in object for each of their
    names. *)
Theorem builtins_are_protected varname variable st st' r n b :
  set_variable varname variable st = (st', r) ->
  builtin (self st) !! n = Some b ->
  builtin (self st') = builtin (self st)
  /\ get_variable n st' = (st', Return b).
Proof.
  intros Hset Hb.
  assert (Hbuiltin : builtin (self st') = builtin (self st)).
  { revert Hset. unfold set_variable.
    destruct variable;
      try (intros [= <- _]; reflexivity);
      (destruct (negb (pyval.is_str varname)); [intros [= <- _]; reflexivity|]);
      cbn [is_assignable negb];
      (destruct (negb (fullmatch _)); [intros [= <- _]; reflexivity|]);
      rewrite (bind_ret get_state _ st st st eq_refl);
      (destruct (bool_decide _); [intros [= <- _]; reflexivity|]);
      intros [= <- _]; reflexivity. }
  split; [exact Hbuiltin|].
  unfold get_variable. rewrite Hbuiltin, Hb. reflexivity.
Qed.

Lemma existsb_app {A} (f : A -> bool) l1 l2 :
  existsb f (l1 ++ l2) = existsb f l1 || existsb f l2.
Proof.
  induction l1 as [|x l1 IH]; [reflexivity|].
  simpl. rewrite IH, orb_assoc. reflexivity.
Qed.

Lemma list_never_equals_scalar item l :
  pyval.is_list item = false -> equals item (VList l) = false.
Proof. unfold equals. destruct item; try discriminate; reflexivity. Qed.

Lemma contains_item_cons item element rest :
  contains_item item (VList (element :: rest))
  = (match element with VList _ => contains_item item element | _ => false end)
    || equals item element || contains_item item (VList rest).
Proof.
  cbn [contains_item].
  destruct (match element with VList _ => _ | _ => false end); [reflexivity|].
  destruct (equals item element); reflexivity.
Qed.

Lemma contains_item_leaves item obj :
  pyval.is_list item = false ->
  contains_item item obj
  = existsb (equals item) (mesonlib_util.flatten_items obj).
Proof.
  intros Hitem.
  induction obj as [| | | |l IH| |] using Value_nested_ind; try reflexivity.
  induction IH as [|element rest He _ IHrest]; [reflexivity|].
  rewrite contains_item_cons, flatten_items_cons, existsb_app, IHrest.
  destruct element; cbn [existsb]; rewrite ?orb_false_r; try reflexivity.
  rewrite He, (list_never_equals_scalar item _ Hitem), orb_false_r. reflexivity.
Qed.

(** X24. [contains] looks through nested arrays: for an item that is not
    itself an array, [check_contains(obj, [item])] is true exactly when
    one of the items of the flattened array equals the item ([==]
    returns true; a comparison that raises counts as unequal). *)
Theorem contains_searches_flattened obj item :
  pyval.is_list item = false ->
  check_contains obj [item]
  = Return (existsb (equals item) (mesonlib_util.flatten_items (VList obj))).
Proof.
  intros Hitem. unfold check_contains. cbn [length Nat.eqb negb nth].
  rewrite (contains_item_leaves item (VList obj) Hitem). reflexivity.
Qed.

Section Indexing.
Variable ev : Node -> M Value.

(** X25. The method [get] of an array and indexing agree: for the same
    array and index, [a.get(i)] returns a value exactly when [a[i]] does,
    and it is the same value; this is the case exactly when [i] is an
    integer with [-len(a) <= i < len(a)].  Otherwise both fail, [get]
    with [InvalidArguments] and indexing with [InterpreterException]. *)
Theorem array_get_agrees_with_indexing node_iobject node_index st st1 st2 l index :
  ev node_iobject st = (st1, Return (VList l)) ->
  ev node_index st1 = (st2, Return index) ->
  (forall v,
     array_method_call l "get" [index] = Return v
     <-> evaluate_indexing ev node_iobject node_index st = (st2, Return v))
  /\ ((exists v, array_method_call l "get" [index] = Return v)
      <-> exists i, pyval.int_value index = Some i /\ - len l <= i < len l)
  /\ ((forall v, array_method_call l "get" [index] <> Return v) ->
      raises_class InvalidArguments (array_method_call l "get" [index])
      /\ raises_class InterpreterException
           (snd (evaluate_indexing ev node_iobject node_index st))).
Proof.
  intros Hobj Hidx.
  assert (Hindexing :
    evaluate_indexing ev node_iobject node_index st
    = match pyval.int_value index with
      | None => (st2, raise InterpreterException "Index value is not an integer.")
      | Some i =>
          if (i <? - len l) || (len l <=? i)
          then (st2, raise InterpreterException
                  ("Index " +:+ pystr.of_Z i
                   +:+ " out of bounds of array of size "
                   +:+ pystr.of_Z (len l) +:+ "."))
          else (st2, getitem l i)
      end).
  { unfold evaluate_indexing.
    rewrite (bind_ret _ _ st st1 _ Hobj), (bind_ret _ _ st1 st2 _ Hidx).
    destruct (pyval.int_value index) as [i|]; [|reflexivity].
    destruct ((i <? - len l) || (len l <=? i)); reflexivity. }
  assert (Hget :
    array_method_call l "get" [index]
    = match pyval.int_value index with
      | None => raise InvalidArguments "Array index must be a number."
      | Some i =>
          if (i <? - len l) || (len l <=? i)
          then raise InvalidArguments
                 ("Array index " +:+ pyval.str_of_int index
                  +:+ " is out of bounds for array of size "
                  +:+ pystr.of_Z (len l) +:+ ".")
          else getitem l i
      end) by reflexivity.
  rewrite Hindexing, Hget. clear Hindexing Hget.
  destruct (pyval.int_value index) as [i|] eqn:Hi.
  - destruct ((i <? - len l) || (len l <=? i)) eqn:Hb.
    + split; [|split].
      * intros v. split; intros E; discriminate E.
      * split; [intros [v E]; discriminate E|].
        intros (i' & [= <-] & Hr). apply orb_true_iff in Hb. lia.
      * intros _. split; reflexivity.
    + apply orb_false_iff in Hb as [H1 H2].
      apply Z.ltb_ge in H1. apply Z.leb_gt in H2.
      destruct (evaluation_facts.getitem_in_bounds l i (conj H1 H2))
        as (v & _ & Hv).
      rewrite Hv. split; [|split].
      * intros v'. split; [intros [= <-]; reflexivity|intros [= <-]; reflexivity].
      * split; [intros _; exists i; split; [reflexivity|lia]|eauto].
      * intros Hno. exfalso. exact (Hno v eq_refl).
  - split; [|split].
    + intros v. split; intros E; discriminate E.
    + split; [intros [v E]; discriminate E|intros (i & [= ] & _)].
    + intros _. split; reflexivity.
Qed.

End Indexing.

Section Guids.
Context `{Externals}.

(** X26. [add_target] keeps the GUIDs in step with the targets: it never
    changes a GUID that was assigned, after it returns the id of the new
    target has a GUID, and if every id in the targets dictionary had a
    GUID before the call then every id has one after it. *)
Theorem add_target_keeps_guids name tobj st st' r :
  add_target name tobj st = (st', r) ->
  guids_kept st st'
  /\ (r = Return tt -> is_Some (target_guids st' !! get_id tobj))
  /\ (guids_cover st -> guids_cover st').
Proof.
  unfold add_target, guids_kept, guids_cover.
  unfold mbind at 1. unfold M_bind at 1. unfold lift at 1.
  destruct (name_in name forbidden_target_names) as [[]|e].
  - intros [= <- <-]. split; [auto|]. split; [discriminate|auto].
  - rewrite (bind_ret get_state _ st st st eq_refl).
    destruct (bool_decide (get_id tobj ∈ (targets (build st)).*1)) eqn:Hdup.
    + intros [= <- <-]. split; [auto|]. split; [discriminate|auto].
    + unfold mbind, M_bind, modify, get_state. cbn [target_guids with_build].
      destruct (target_guids st !! get_id tobj) as [g|] eqn:Hg.
      * intros [= <- <-]. cbn. split; [auto|].
        split; [intros _; exists g; exact Hg|].
        intros Hcover idname Hin. rewrite fmap_app in Hin.
        apply elem_of_app in Hin as [Hin|Hin]; [auto|].
        apply list_elem_of_singleton in Hin. subst. exists g. exact Hg.
      * intros [= <- <-]. cbn. split; [|split].
        -- intros idname guid Hid. rewrite lookup_insert_ne; [exact Hid|].
           intros <-. rewrite Hid in Hg. discriminate.
        -- intros _. rewrite lookup_insert_eq. eauto.
        -- intros Hcover idname Hin. rewrite fmap_app in Hin.
           destruct (decide (idname = get_id tobj)) as [->|Hne].
           ++ rewrite lookup_insert_eq. eauto.
           ++ rewrite lookup_insert_ne by congruence.
              apply elem_of_app in Hin as [Hin|Hin]; [auto|].
              apply list_elem_of_singleton in Hin. contradiction.
  - intros [= <- <-]. split; [auto|]. split; [discriminate|auto].
Qed.

End Guids.

(** X27. The canonical name of the processor is stable: applying
    [cpu_method] to its own answer returns that answer, whatever
    [platform.machine()] reports. *)
Theorem cpu_method_is_stable platform_machine :
  cpu_method (cpu_method platform_machine) = cpu_method platform_machine.
Proof.
  destruct (pystr.startswith (pystr.lower platform_machine) "i"
            && pytext.endswith (pystr.lower platform_machine) "86") eqn:E1.
  { assert (Hx : cpu_method platform_machine = "x86")
      by (unfold cpu_method; rewrite E1; reflexivity).
    rewrite Hx. reflexivity. }
  destruct (pystr.startswith (pystr.lower platform_machine) "arm") eqn:E2.
  { assert (Hx : cpu_method platform_machine = "arm")
      by (unfold cpu_method; rewrite E1, E2; reflexivity).
    rewrite Hx. reflexivity. }
  assert (Hx : cpu_method platform_machine = pystr.lower platform_machine)
    by (unfold cpu_method; rewrite E1, E2; reflexivity).
  rewrite Hx. unfold cpu_method.
  rewrite pytext_facts.lower_idem, E1, E2. reflexivity.
Qed.

(** X28. De Morgan's laws hold for the logical operators of the build
    language.  For all expressions [a] and [b] and every state,
    [not (a and b)] and [(not a) or (not b)] end in the same state and
    either return the same value or both raise; likewise
    [not (a or b)] and [(not a) and (not b)].  When they raise, both
    raise the exception of the operand that failed, or both raise an
    [InterpreterException] because an operand is not a boolean. *)
Theorem de_morgan a b st :
  let same (x y : State * outcome Value) :=
    fst x = fst y
    /\ (snd x = snd y
        \/ (raises_class InterpreterException (snd x)
            /\ raises_class InterpreterException (snd y))) in
  same (evaluate_statement (NotNode (AndNode a b)) st)
       (evaluate_statement (OrNode (NotNode a) (NotNode b)) st)
  /\ same (evaluate_statement (NotNode (OrNode a b)) st)
          (evaluate_statement (AndNode (NotNode a) (NotNode b)) st).
Proof.
  cbv zeta.
  repeat progress
    (cbn [evaluate_statement];
     unfold evaluate_notstatement, evaluate_andstatement, evaluate_orstatement).
  unfold mbind, M_bind, mret, M_ret, throw, raise.
  split.
  - destruct (evaluate_statement a st) as [sa [[| [] | | | | | ]|ea]]; simpl;
      try (split; [reflexivity|first [left; reflexivity|right; split; reflexivity]]).
    destruct (evaluate_statement b sa) as [sb [[| [] | | | | | ]|eb]]; simpl;
      (split; [reflexivity|first [left; reflexivity|right; split; reflexivity]]).
  - destruct (evaluate_statement a st) as [sa [[| [] | | | | | ]|ea]]; simpl;
      try (split; [reflexivity|first [left; reflexivity|right; split; reflexivity]]).
    destruct (evaluate_statement b sa) as [sb [[| [] | | | | | ]|eb]]; simpl;
      (split; [reflexivity|first [left; reflexivity|right; split; reflexivity]]).
Qed.

End statements_facts.

(* ===================================================================== *)
(** * The properties above on the inputs of the examples                  *)
(* ===================================================================== *)

Module examples_facts.
Import inputs.

Lemma from_string_inverts_str_witness :
  optionkey.from_string options.example_hash
    (optionkey.__str__ (key_of "opt" (Some "sub") options.BUILD))
  = Return (key_of "opt" (Some "sub") options.BUILD).
Proof.
  apply (optionkey_facts.from_string_inverts_str options.example_hash
           "opt" (Some "sub") options.BUILD).
  - reflexivity.
  - reflexivity.
  - intros x [= <-]. reflexivity.
Defined.

Lemma str_of_build_prefixed_name_witness :
  exists k',
    options.__init__ options.example_hash "opt" None options.BUILD = Return k'
    /\ optionkey.__str__ k' = optionkey.__str__ (key_of "build.opt" None options.HOST)
    /\ optionkey.from_string options.example_hash
         (optionkey.__str__ (key_of "build.opt" None options.HOST)) = Return k'
    /\ options.__eq__ k' (key_of "build.opt" None options.HOST) = false.
Proof.
  apply (optionkey_facts.str_of_build_prefixed_name options.example_hash
           "opt" None (key_of "build.opt" None options.HOST)).
  - reflexivity.
  - reflexivity.
  - intros x [= ].
Defined.

Lemma module_prefix_splits_name_witness :
  exists p rest k',
    options.name (key_of "python.bytecompile" None options.HOST)
    = p +:+ "." +:+ rest
    /\ pystr.contains_char "." p = false
    /\ optionkey.get_module_prefix (key_of "python.bytecompile" None options.HOST)
       = Return (Some p)
    /\ optionkey.without_module_prefix options.example_hash
         (key_of "python.bytecompile" None options.HOST) = Return k'
    /\ options.subproject k' = None /\ options.machine k' = options.HOST
    /\ options.name k'
       = (if String.eqb rest optionkey._BAD_VALUE
          then "python.bytecompile" else rest).
Proof.
  apply (optionkey_facts.module_prefix_splits_name options.example_hash
           (key_of "python.bytecompile" None options.HOST)); reflexivity.
Defined.

Lemma ensure_and_validate_key_host_witness :
  options.machine (key_of "opt" None options.HOST) = options.HOST
  /\ optionstore.ensure_and_validate_key options.example_hash native_store
       (inr (key_of "opt" None options.HOST))
     = Return (key_of "opt" None options.HOST).
Proof.
  apply (optionstore_facts.ensure_and_validate_key_host options.example_hash
           native_store (inr (key_of "opt" None options.BUILD))); reflexivity.
Defined.

Lemma reserved_names_cover_witness :
  optionstore.is_reserved_name native_store (key_of "cpp_std" None options.HOST)
  = Return true.
Proof.
  apply optionstore_facts.reserved_names_cover. right. right. reflexivity.
Defined.

Lemma subproject_call_keeps_augments_witness :
  (forall key v,
     optionstore.augments native_store !! key = Some v ->
     optionstore.augments (fst subproject_call_run) !! key = Some v)
  /\ (snd subproject_call_run = Return tt ->
      optionstore.augments (fst subproject_call_run)
      = optionstore.augments native_store
        ∪ list_to_map
            (omap (optionstore.augment_of "sub")
               (optionstore.hacky_mchackface_back_to_list
                  (optionstore.AsList ["opt=2"; "new=3"])
                ++ optionstore.hacky_mchackface_back_to_list
                     (optionstore.AsDict [("new", "4"); ("other", "5")])))).
Proof.
  apply (optionstore_facts.subproject_call_keeps_augments native_store "sub"
           (optionstore.AsList ["opt=2"; "new=3"])
           (optionstore.AsDict [("new", "4"); ("other", "5")])
           (fst subproject_call_run) (snd subproject_call_run)).
  unfold subproject_call_run.
  destruct (optionstore.set_from_subproject_call _ _ _ _). reflexivity.
Defined.

Lemma boolean_option_holds_bool_witness :
  (exists b,
     useroption.value
       (useroption.set_values
          (useroption.UserBooleanOption_validate_value interpreter.display)
          debug_option [VStr "False"; VInt 3; VStr "TRUE"])
     = Some (VBool b))
  /\ (forall o s r,
        useroption.UserBooleanOption_validate_value interpreter.display o (VStr s) = Return r ->
        useroption.UserBooleanOption_validate_value interpreter.display o
          (VStr (pystr.lower s)) = Return r).
Proof.
  apply (useroption_facts.boolean_option_holds_bool interpreter.display "debug" (VStr "true")).
  reflexivity.
Defined.

Lemma integer_option_stays_in_range_witness :
  exists v z,
    useroption.value
      (useroption.set_values
         (useroption.UserIntegerOption_validate_value int_ interpreter.display interpreter.display)
         unity_size_option [VStr "10"; VInt 1; VStr "many"])
    = Some v
    /\ pyval.int_value v = Some z
    /\ (forall m, Some 2 = Some m -> m <= z)
    /\ (forall m, @None Z = Some m -> z <= m)
    /\ useroption.UserIntegerOption_validate_value int_ interpreter.display interpreter.display
         (useroption.set_values
            (useroption.UserIntegerOption_validate_value int_ interpreter.display interpreter.display)
            unity_size_option [VStr "10"; VInt 1; VStr "many"]) v
       = Return v.
Proof.
  apply (useroption_facts.integer_option_stays_in_range int_ interpreter.display interpreter.display
           "unity_size" (Some 2) None (VStr "4")).
  reflexivity.
Defined.

Lemma feature_option_has_one_state_witness :
  let o := useroption.set_values
             (useroption.UserComboOption_validate_value interpreter.display)
             auto_features_option [VStr "enabled"; VStr "sometimes"] in
  (useroption.is_enabled o = Return true
   /\ useroption.is_disabled o = Return false
   /\ useroption.is_auto o = Return false)
  \/ (useroption.is_enabled o = Return false
      /\ useroption.is_disabled o = Return true
      /\ useroption.is_auto o = Return false)
  \/ (useroption.is_enabled o = Return false
      /\ useroption.is_disabled o = Return false
      /\ useroption.is_auto o = Return true).
Proof.
  apply (useroption_facts.feature_option_has_one_state interpreter.display
           "auto_features" (VStr "auto")).
  reflexivity.
Defined.

Lemma version_compare_operators_agree_witness :
  mesonlib_util.version_compare int_ "1.9.2-rc1" (">=" +:+ "1.10") = Return false
  /\ mesonlib_util.version_compare int_ "1.9.2-rc1" ("<" +:+ "1.10") = Return true.
Proof.
  destruct (mesonlib_util_facts.version_compare_operators_agree int_
              "1.9.2-rc1" "1.10" eq_refl)
    as [[e He]|(lt & eq & gt & Hlt & _ & _ & _ & _ & Hge & _)].
  - exfalso. specialize (He "<" ltac:(repeat constructor)). discriminate He.
  - rewrite Hge. assert (lt = true) as -> by (vm_compute in Hlt; congruence).
    split; [reflexivity|exact Hlt].
Defined.

Lemma do_replacement_is_idempotent_witness :
  mesonlib.search ("1 " +:+ mesonlib.newline) = None
  /\ forall fuel' confdata',
       mesonlib.do_replacement fuel' ("1 " +:+ mesonlib.newline) confdata'
       = Some (Return ("1 " +:+ mesonlib.newline)).
Proof.
  apply (substitution_facts.do_replacement_is_idempotent 10
           ("@A@ @B@" +:+ mesonlib.newline) one).
  vm_compute. reflexivity.
Defined.

Lemma self_reference_never_ends_witness :
  mesonlib.do_replacement 1000 ("#define A @A@" +:+ mesonlib.newline)
    self_reference = None.
Proof.
  apply (substitution_facts.self_reference_never_ends
           ("#define A @A@" +:+ mesonlib.newline) self_reference "A");
    reflexivity.
Defined.

Lemma do_conf_file_touches_only_output_witness :
  conf_file_run = Some (conf_file_result, Return tt)
  /\ (forall q, q <> "/build/out.h" -> q <> "/build/out.h" +:+ "~" ->
        conf_file_result !! q = samples.template_tree !! q)
  /\ conf_file_result !! ("/build/out.h" +:+ "~") = None.
Proof.
  assert (E : conf_file_run = Some (conf_file_result, Return tt))
    by (vm_compute; reflexivity).
  split; [exact E|].
  pose proof (substitution_facts.do_conf_file_touches_only_output
                10 samples.template_tree "/src/in.h.in" "/build/out.h" one
                conf_file_result (Return tt) E) as (Hframe & Hdone & _).
  split; [exact Hframe|].
  destruct (Hdone eq_refl) as (text & result & content & _ & _ & _ & _ & _ & Hgone).
  exact Hgone.
Defined.

Lemma package_definition_reads_back_witness :
  wrap.PackageDefinition__init__ zlib_tree "/src/subprojects/zlib.wrap"
  = Return (wrap.mkPackageDefinition "file" (list_to_map (reverse zlib_entries))).
Proof.
  apply (wrapfile_facts.package_definition_reads_back zlib_tree
           "/src/subprojects/zlib.wrap" zlib_entries).
  - repeat constructor; try discriminate.
  - reflexivity.
Defined.

Lemma resolve_in_place_witness :
  wrap.resolve "/src/subprojects" "zlib" zlib_in_place
  = (zlib_in_place, Return (Some "zlib-1.2")).
Proof.
  apply (proj2 (resolver_facts.resolve_in_place "/src/subprojects" "zlib"
                  zlib_in_place) example.zlib_wrap "zlib.tar" "zlib-1.2");
    vm_compute; reflexivity.
Defined.

Lemma resolve_git_only_runs_git_witness :
  exists evs,
    wrap.log (fst git_run) = wrap.log git_world ++ evs
    /\ Forall wrapfile.is_git evs
    /\ Forall (fun e => ~ wrap.is_download e /\ ~ wrap.is_unpack e) evs.
Proof.
  apply (resolver_facts.resolve_git_only_runs_git "/src/subprojects" "glib"
           git_world git_wrap (fst git_run) (snd git_run)).
  - vm_compute. reflexivity.
  - reflexivity.
  - unfold git_run. destruct (wrap.resolve _ _ _). reflexivity.
Defined.

Lemma patch_mismatch_caches_nothing_witness :
  exists w',
    wrap.download (H := patch_host) "/src/subprojects" patched_wrap "zlib" cache_world
    = (w', Raise (wrapfile.incorrect_patch_hash "zlib" "sha256:QQQ" "sha256:PPP"))
    /\ wrap.fs w' = wrap.fs cache_world
    /\ wrap.log w'
       = wrap.log cache_world
         ++ [wrap.Download "https://example.org/zlib.tar";
             wrap.Download "https://example.org/zlib-patch.tar"]
    /\ os.exists_ (wrap.fs w')
         (os.join (wrap.cachedir "/src/subprojects") "zlib.tar") = false.
Proof.
  apply (resolver_facts.patch_mismatch_caches_nothing (H := patch_host)
           "/src/subprojects" patched_wrap "zlib" cache_world "zlib.tar"
           "https://example.org/zlib.tar" (wrap.mkResponse (Return 3) "ABC") 3
           "sha256:ABC" "https://example.org/zlib-patch.tar"
           (wrap.mkResponse (Return 3) "PPP") 3 "sha256:QQQ");
    try (vm_compute; reflexivity).
  - right. lia.
  - right. lia.
  - vm_compute. discriminate.
Defined.

Lemma assignment_then_lookup_witness :
  let st2 := statements.assigned "y" (VInt 3) with_variable in
  statements.assignment interpreter.evaluate_statement (VStr "y")
    (interpreter.NumberNode 3) with_variable = (st2, Return (VInt 3))
  /\ interpreter.get_variable "y" st2 = (st2, Return (VInt 3))
  /\ (forall other, other <> "y" ->
        snd (interpreter.get_variable other st2)
        = snd (interpreter.get_variable other with_variable))
  /\ interpreter.build st2 = interpreter.build with_variable
  /\ interpreter.heap st2 = interpreter.heap with_variable
  /\ interpreter.fs st2 = interpreter.fs with_variable.
Proof.
  apply (statements_facts.assignment_then_lookup interpreter.evaluate_statement
           "y" (interpreter.NumberNode 3) with_variable with_variable (VInt 3));
    try reflexivity.
  discriminate.
Defined.

Lemma builtins_are_protected_witness :
  interpreter.builtin (interpreter.self (fst overwrite_meson))
  = interpreter.builtin (interpreter.self with_variable)
  /\ interpreter.get_variable "meson" (fst overwrite_meson)
     = (fst overwrite_meson, Return (VObj ModuleHolder 0)).
Proof.
  apply (statements_facts.builtins_are_protected (VStr "meson") (VInt 1)
           with_variable (fst overwrite_meson) (snd overwrite_meson) "meson").
  - unfold overwrite_meson.
    destruct (statements.set_variable _ _ _). reflexivity.
  - reflexivity.
Defined.

Lemma plusassign_appends_witness :
  let st2 := statements.assigned "x" (VList [VInt 1; VInt 2]) with_variable in
  statements.evaluate_plusassign interpreter.evaluate_statement "x"
    (interpreter.NumberNode 2) with_variable = (st2, Return VNone)
  /\ interpreter.get_variable "x" st2 = (st2, Return (VList [VInt 1; VInt 2])).
Proof.
  apply (statements_facts.plusassign_appends interpreter.evaluate_statement
           "x" (interpreter.NumberNode 2) with_variable with_variable
           (VInt 2) (VList [VInt 1])); reflexivity.
Defined.

Lemma contains_searches_flattened_witness :
  statements.check_contains [VInt 1; VList [VStr "a"; VList [VBool true]]]
    [VStr "a"]
  = Return true.
Proof.
  rewrite (statements_facts.contains_searches_flattened
             [VInt 1; VList [VStr "a"; VList [VBool true]]] (VStr "a") eq_refl).
  reflexivity.
Defined.

Lemma array_get_agrees_with_indexing_witness :
  statements.array_method_call [VInt 10; VInt 20; VInt 30] "get" [VInt (-1)]
  = Return (VInt 30)
  <-> interpreter.evaluate_indexing interpreter.evaluate_statement samples.three
        (interpreter.NumberNode (-1)) example.initial
      = (example.initial, Return (VInt 30)).
Proof.
  apply (proj1 (statements_facts.array_get_agrees_with_indexing
                  interpreter.evaluate_statement samples.three
                  (interpreter.NumberNode (-1)) example.initial example.initial
                  example.initial [VInt 10; VInt 20; VInt 30] (VInt (-1))
                  eq_refl eq_refl) (VInt 30)).
Defined.

Lemma add_target_keeps_guids_witness :
  statements.guids_kept example.initial (fst add_prog)
  /\ (snd add_prog = Return tt ->
      is_Some (interpreter.target_guids (fst add_prog) !! interpreter.get_id prog))
  /\ (statements.guids_cover example.initial -> statements.guids_cover (fst add_prog)).
Proof.
  apply (statements_facts.add_target_keeps_guids (VStr "prog") prog
           example.initial (fst add_prog) (snd add_prog)).
  unfold add_prog. destruct (interpreter.add_target _ _ _). reflexivity.
Defined.

End examples_facts.
